(** * The dashboard's server actions (src/app/actions.ts)

    A shallow embedding of the time-windowed cache, the transfer-history
    fetcher, the profit/loss estimate, the chart bucketizer and the
    withdrawal action, followed by the properties the specification states
    about them.

    Conventions of the embedding.
    - JavaScript strings are [string]s; a character is a code unit in
      U+0000..U+00FF.
    - JavaScript numbers that hold token amounts are IEEE 754 binary64 values,
      Rocq's primitive [float]s: the same arithmetic, rounding included.
    - [Date.now()] and the times computed from it are integers far below
      2^53, where binary64 arithmetic is exact: they are [Z]. A block
      timestamp read from the ledger is [option Z]: [None] for NaN, and
      otherwise the integer the ledger sent. JavaScript holds that integer
      rounded to binary64, which is the same number up to 2^53 in magnitude
      ([safe_time]). Rounding is monotone, so it never changes a comparison
      with a time computed from [Date.now()]; it can change the order in
      which [sort] leaves two records, and what is stated about that order
      assumes [safe_time].
    - BigInt values (wei and token base units) are [Z].
    - Functions that may throw, await the network or touch the process-wide
      cache run in the monad [M]: they thread the cache, the clock and the
      trace of the calls made to the outside (HTTP requests, provider and
      contract calls), and return [Ok v] or [Throw e]. The state survives a
      throw, as it does in JavaScript.
    - The ethers library and the remote services are not part of the
      repository: the library functions are section variables, the services
      are the oracles of a [World]. *)

From Stdlib Require Import ZArith List String Ascii Bool Lia Permutation Sorted.
From Stdlib Require Import Floats.
From stdpp Require Import base gmap strings pretty.
Import ListNotations.

Local Open Scope string_scope.
Local Open Scope list_scope.
Local Open Scope Z_scope.

(* ===================================================================== *)
(** ** JavaScript strings *)
(* ===================================================================== *)

Module JsString.

(** [String.prototype.toLowerCase] on one code unit of U+0000..U+00FF:
    A-Z and the Latin-1 capitals U+00C0..U+00DE (the multiplication sign
    U+00D7 apart) move up by 32. *)
Definition lower_char (c : ascii) : ascii :=
  let n := N_of_ascii c in
  if ((65 <=? n) && (n <=? 90))%N then ascii_of_N (n + 32)
  else if ((192 <=? n) && (n <=? 222) && negb (n =? 215))%N then ascii_of_N (n + 32)
  else c.

Fixpoint toLowerCase (s : string) : string :=
  match s with
  | EmptyString => EmptyString
  | String c r => String (lower_char c) (toLowerCase r)
  end.

(** [s.startsWith(p)] *)
Definition startsWith (s p : string) : bool := String.prefix p s.

(** [s.includes(p)] *)
Fixpoint includes (s p : string) : bool :=
  String.prefix p s ||
  match s with
  | EmptyString => false
  | String _ r => includes r p
  end.

(** [s.length] *)
Definition length (s : string) : Z := Z.of_nat (String.length s).

(** A string in a boolean position: the empty string is falsy. *)
Definition truthy (s : string) : bool := negb (String.eqb s "").

(** An optional string ([undefined] when absent) inside a template
    literal. *)
Definition interpolate (o : option string) : string :=
  match o with Some s => s | None => "undefined" end.

(** White space skipped by [parseFloat] and [parseInt]. *)
Definition is_space (c : ascii) : bool :=
  let n := N_of_ascii c in
  ((9 <=? n) && (n <=? 13) || (n =? 32) || (n =? 160))%N.

Fixpoint trimStart (s : string) : string :=
  match s with
  | String c r => if is_space c then trimStart r else s
  | EmptyString => EmptyString
  end.

Fixpoint trimEnd (s : string) : string :=
  match s with
  | EmptyString => EmptyString
  | String c r =>
      match trimEnd r with
      | EmptyString => if is_space c then EmptyString else String c EmptyString
      | r' => String c r'
      end
  end.

Definition digit_of (c : ascii) : option N :=
  let n := N_of_ascii c in
  if ((48 <=? n) && (n <=? 57))%N then Some (n - 48)%N else None.

Definition hex_digit_of (c : ascii) : option N :=
  let n := N_of_ascii c in
  if ((48 <=? n) && (n <=? 57))%N then Some (n - 48)%N
  else if ((97 <=? n) && (n <=? 102))%N then Some (n - 87)%N
  else if ((65 <=? n) && (n <=? 70))%N then Some (n - 55)%N
  else None.

(** The longest prefix of digits in the given radix: its value, how many
    digits it has, and the rest of the string. *)
Fixpoint digits (radix : N) (digit : ascii -> option N)
         (s : string) (acc : N) (count : nat) : N * nat * string :=
  match s with
  | String c r =>
      match digit c with
      | Some d => digits radix digit r (acc * radix + d)%N (S count)
      | None => (acc, count, s)
      end
  | EmptyString => (acc, count, s)
  end.

(** An optional sign: [true] for a minus. *)
Definition sign (s : string) : bool * string :=
  match s with
  | String "-" r => (true, r)
  | String "+" r => (false, r)
  | _ => (false, s)
  end.

End JsString.

(* ===================================================================== *)
(** ** JavaScript numbers *)
(* ===================================================================== *)

Module JsNumber.
Import JsString.

(** A number in a boolean position: NaN, +0 and -0 are falsy. *)
Definition truthy (x : float) : bool := negb (is_nan x) && negb (is_zero x).

(** [x || d] on numbers. *)
Definition or_else (x d : float) : float := if truthy x then x else d.

(** [Math.max(a, b)]: NaN if either is NaN, and +0 is larger than -0. *)
Definition Math_max (a b : float) : float :=
  if is_nan a || is_nan b then nan
  else if (a <? b)%float then b
  else if (b <? a)%float then a
  else if is_zero a && get_sign a then b else a.

(** The binary64 value nearest to [m * 10^e], ties to even: the Number
    value of a decimal literal. *)
Definition of_decimal (neg : bool) (m : N) (e : Z) : float :=
  match m with
  | N0 => if neg then neg_zero else zero
  | Npos p =>
      match e with
      | Zneg k =>
          SF2Prim (SFdiv prec emax (S754_finite neg p 0)
                                   (S754_finite false (Pos.pow 10 k) 0))
      | Z0 => SF2Prim (binary_normalize prec emax (if neg then Zneg p else Zpos p) 0 false)
      | Zpos k =>
          let v := (p * Pos.pow 10 k)%positive in
          SF2Prim (binary_normalize prec emax (if neg then Zneg v else Zpos v) 0 false)
      end
  end.

(** The exponent part of a decimal literal, [e] or [E], an optional sign
    and at least one digit; 0 when there is none. *)
Definition exponent (s : string) : Z :=
  match s with
  | String c r =>
      if (Ascii.eqb c "e" || Ascii.eqb c "E")%bool then
        let '(neg, r1) := sign r in
        let '(v, n, _) := digits 10 digit_of r1 0%N O in
        match n with
        | O => 0
        | S _ => if neg then - Z.of_N v else Z.of_N v
        end
      else 0
  | EmptyString => 0
  end.

(** [parseFloat(s)]: leading white space is skipped, then the longest
    prefix that is a decimal literal (or [Infinity]) is read; NaN when
    there is none. *)
Definition parseFloat (s : string) : float :=
  let '(neg, s1) := sign (trimStart s) in
  if String.prefix "Infinity" s1 then (if neg then neg_infinity else infinity)
  else
    let '(ip, ni, s2) := digits 10 digit_of s1 0%N O in
    let '(m, nf, s3) :=
      match s2 with
      | String "." r =>
          let '(m, nf, s3) := digits 10 digit_of r ip O in
          match ni, nf with
          | O, O => (ip, O, s2)
          | _, _ => (m, nf, s3)
          end
      | _ => (ip, O, s2)
      end in
    match ni, nf with
    | O, O => nan
    | _, _ => of_decimal neg m (exponent s3 - Z.of_nat nf)
    end.

(** [parseInt(s)] without a radix: white space, a sign, [0x] for
    hexadecimal, then the longest prefix of digits; NaN ([None]) when there
    is none. The result is the integer the digits denote; JavaScript rounds
    it to binary64, which changes nothing up to 2^53 in magnitude. *)
Definition parseInt (s : string) : option Z :=
  let '(neg, s1) := sign (trimStart s) in
  let '(v, n, _) :=
    match s1 with
    | String "0" (String c r) =>
        if (Ascii.eqb c "x" || Ascii.eqb c "X")%bool
        then digits 16 hex_digit_of r 0%N O
        else digits 10 digit_of s1 0%N O
    | _ => digits 10 digit_of s1 0%N O
    end in
  match n with
  | O => None
  | S _ => Some (if neg then - Z.of_N v else Z.of_N v)
  end.

(** Arithmetic and comparison on times: NaN is absorbing, and every
    comparison with NaN is false. *)
Definition time_mul (a : option Z) (k : Z) : option Z :=
  match a with Some x => Some (x * k) | None => None end.

Definition time_sub (a b : option Z) : option Z :=
  match a, b with Some x, Some y => Some (x - y) | _, _ => None end.

Definition time_leb (a : option Z) (b : Z) : bool :=
  match a with Some x => x <=? b | None => false end.

End JsNumber.


(* ===================================================================== *)
(** ** The time-windowed cache (actions.ts, lines 6-37) *)
(* ===================================================================== *)

(** [const CACHE_DURATION = 60000 // 1 minute] *)
Definition CACHE_DURATION : Z := 60000.

(** [interface CacheEntry<T> { data: T; timestamp: number }] *)
Record CacheEntry (T : Type) : Type := mkCacheEntry {
  data : T;
  timestamp : Z
}.
Arguments mkCacheEntry {T} _ _.
Arguments data {T} _.
Arguments timestamp {T} _.

Section CacheOps.
Context {T : Type}.

(** [function getCachedData<T>(key): T | null], with the map and the value
    of [Date.now()] passed in and the map passed out. [cache.delete(key)]
    runs on every miss, stale entry or no entry. *)
Definition getCachedData (key : string) (now : Z)
    (cache : gmap string (CacheEntry T)) : option T * gmap string (CacheEntry T) :=
  match cache !! key with
  | Some cached =>
      if now - timestamp cached <? CACHE_DURATION
      then (Some (data cached), cache)
      else (None, delete key cache)
  | None => (None, delete key cache)
  end.

(** [function setCachedData<T>(key, data): void] *)
Definition setCachedData (key : string) (d : T) (now : Z)
    (cache : gmap string (CacheEntry T)) : gmap string (CacheEntry T) :=
  <[key := mkCacheEntry d now]> cache.

End CacheOps.

(* ===================================================================== *)
(** ** Types (actions.ts, lines 41-71) *)
(* ===================================================================== *)

(** [type: 'deposit' | 'withdraw'] *)
Inductive TransactionType := deposit | withdraw.

(** [asset: 'ETH' | 'TOKEN'] *)
Inductive Asset := ETH | TOKEN.

Definition Asset_eqb (a b : Asset) : bool :=
  match a, b with
  | ETH, ETH | TOKEN, TOKEN => true
  | _, _ => false
  end.

Definition TransactionType_eqb (a b : TransactionType) : bool :=
  match a, b with
  | deposit, deposit | withdraw, withdraw => true
  | _, _ => false
  end.

(** [interface Transaction] *)
Record Transaction := mkTransaction {
  tx_hash : string;
  tx_from : string;
  tx_to : string;
  tx_value : string;
  tx_timestamp : option Z;
  tx_type : TransactionType;
  tx_tokenValue : string;
  tx_asset : Asset
}.

(** [interface ChartDataPoint] *)
Record ChartDataPoint := mkChartDataPoint {
  cp_value : float;
  cp_timestamp : Z
}.

(** [interface WalletData] *)
Record WalletData := mkWalletData {
  wd_balance : string;
  wd_portfolioValue : string;
  wd_profit : string;
  wd_profitPercent : float;
  wd_tokenBalance : string;
  wd_transactions : list Transaction;
  wd_ethPrice : float
}.

(** The result of [calculateTokenProfitLoss]. *)
Record ProfitLoss := mkProfitLoss {
  profit : float;
  profitPercent : float
}.

(** [interface ProfitLossData] *)
Record ProfitLossData := mkProfitLossData {
  pld_profit : float;
  pld_profitPercent : float;
  pld_chartData : list ChartDataPoint
}.

(** The result of [depositFunds] and [withdrawFunds]. *)
Record TransferResult := mkTransferResult {
  success : bool;
  txHash : option string;
  error : option string
}.

(* ===================================================================== *)
(** ** Profit and loss (actions.ts, lines 239-282) *)
(* ===================================================================== *)

(** [tx.to.toLowerCase() === publicKey.toLowerCase()] *)
Definition is_recipient (publicKey : string) (tx : Transaction) : bool :=
  String.eqb (JsString.toLowerCase (tx_to tx)) (JsString.toLowerCase publicKey).

(** [parseFloat(tx.tokenValue) || 0] *)
Definition token_amount (tx : Transaction) : float :=
  JsNumber.or_else (JsNumber.parseFloat (tx_tokenValue tx)) 0.

(** [transactions.filter(tx => tx.asset === 'TOKEN')] *)
Definition tokenTxs_of (transactions : list Transaction) : list Transaction :=
  List.filter (fun tx => Asset_eqb (tx_asset tx) TOKEN) transactions.

(** One turn of the loop over [tokenTxs]: the pair is (totalIn, totalOut). *)
Definition profit_step (publicKey : string) (acc : float * float)
    (tx : Transaction) : float * float :=
  let value := token_amount tx in
  if is_recipient publicKey tx
  then ((fst acc + value)%float, snd acc)
  else (fst acc, (snd acc + value)%float).

Definition calculateTokenProfitLoss (transactions : list Transaction)
    (currentTokenBalance publicKey : string) : ProfitLoss :=
  let tokenTxs := tokenTxs_of transactions in
  if (List.length tokenTxs =? 0)%nat then mkProfitLoss 0 0
  else
    let totals := fold_left (profit_step publicKey) tokenTxs (0%float, 0%float) in
    let totalIn := fst totals in
    let totalOut := snd totals in
    let current := JsNumber.parseFloat currentTokenBalance in
    let invested := (totalIn - totalOut)%float in
    if (invested <=? 0)%float
    then mkProfitLoss current (if (invested <? 0)%float then 100 else 0)
    else
      let profit := (current - invested)%float in
      let profitPercent := (profit / invested * 100)%float in
      mkProfitLoss profit profitPercent.

(* ===================================================================== *)
(** ** Effects: exceptions, the process-wide cache, the clock, requests *)
(* ===================================================================== *)

(** A thrown [Error]; the code only ever reads its [message]. *)
Record JsError := mkError { message : string }.

Inductive Res (A : Type) : Type :=
| Ok (a : A)
| Throw (e : JsError).
Arguments Ok {A} _.
Arguments Throw {A} _.

#[global] Instance Res_ret : MRet Res := fun A a => Ok a.
#[global] Instance Res_bind : MBind Res := fun A B f m =>
  match m with
  | Ok a => f a
  | Throw e => Throw e
  end.

(** What the one [Map] of the module holds: the type parameter of
    [getCachedData] is erased at run time. Each of the five key families
    ([eth_price], [balance_], [tx_], [chart_], [profit_]) stores one kind of
    value, so a read under a key finds the kind of its family; the readers
    below take an entry of any other kind for no entry. *)
Inductive CacheVal :=
| VNum (x : float)
| VWallet (w : WalletData)
| VTxs (l : list Transaction)
| VChart (l : list ChartDataPoint)
| VProfit (p : ProfitLoss) (chartData : list ChartDataPoint).

(** The calls made to the outside, recorded in the order they are made: an
    HTTP request, a call of the provider, a call of a contract method, the
    wait for a receipt. The answer of the oracle to a call is the way its
    promise settles. *)
Inductive Request :=
| GetPrice
| GetTxList (baseUrl address apikey : string)
| GetTokenTx (baseUrl address : string) (contractaddress : option string) (apikey : string)
| RpcGetNetwork (rpcUrl : option string)
| RpcGetBalance (rpcUrl : option string) (address : string)
| CallBalanceOf (contract address : string)
| CallDecimals (contract : string)
| CallSymbol (contract : string)
| SendTransfer (contract signer recipient : string) (amount : Z)
| WaitReceipt (hash : string).

Record State := mkState {
  cache : gmap string (CacheEntry CacheVal);
  clock : Z;
  trace : list Request
}.

Definition M (A : Type) : Type := State -> Res A * State.

#[global] Instance M_ret : MRet M := fun A a s => (Ok a, s).
#[global] Instance M_bind : MBind M := fun A B f m s =>
  match m s with
  | (Ok a, s') => f a s'
  | (Throw e, s') => (Throw e, s')
  end.

Definition throw {A : Type} (msg : string) : M A := fun s => (Throw (mkError msg), s).

(** [try { body } catch (error) { handler }] *)
Definition try_catch {A : Type} (body : M A) (handler : JsError -> M A) : M A :=
  fun s =>
    match body s with
    | (Ok a, s') => (Ok a, s')
    | (Throw e, s') => handler e s'
    end.

(** A value or an exception computed without effects. *)
Definition lift {A : Type} (r : Res A) : M A := fun s => (r, s).

(** [Date.now()] *)
Definition Date_now : M Z := fun s => (Ok (clock s), s).

Definition cache_get (key : string) : M (option CacheVal) := fun s =>
  let '(r, c) := getCachedData key (clock s) (cache s) in
  (Ok r, mkState c (clock s) (trace s)).

Definition cache_set (key : string) (v : CacheVal) : M unit := fun s =>
  (Ok tt, mkState (setCachedData key v (clock s) (cache s)) (clock s) (trace s)).

(** [cache.delete(key)] *)
Definition cache_delete (key : string) : M unit := fun s =>
  (Ok tt, mkState (delete key (cache s)) (clock s) (trace s)).

(** What a remote service answers, and after how many milliseconds. *)
Record Reply (A : Type) : Type := mkReply {
  outcome : Res A;
  elapsed : N
}.
Arguments mkReply {A} _ _.
Arguments outcome {A} _.
Arguments elapsed {A} _.

(** A promise in flight: started at a given time, it says which requests
    went out and how it settles. *)
Definition Pending (A : Type) : Type := Z -> list Request * Reply A.

Definition request {A : Type} (oracle : Z -> Request -> Reply A) (req : Request) : Pending A :=
  fun now => ([req], oracle now req).

(** [Promise.all([p, q])]: both are started; it fulfils when both have, and
    rejects with the first rejection. *)
Definition both {A B : Type} (p : Pending A) (q : Pending B) : Pending (A * B) :=
  fun now =>
    let '(ra, a) := p now in
    let '(rb, b) := q now in
    (ra ++ rb,
     match outcome a, outcome b with
     | Ok x, Ok y => mkReply (Ok (x, y)) (N.max (elapsed a) (elapsed b))
     | Throw e, Ok _ => mkReply (Throw e) (elapsed a)
     | Ok _, Throw e => mkReply (Throw e) (elapsed b)
     | Throw e1, Throw e2 =>
         if (elapsed a <=? elapsed b)%N then mkReply (Throw e1) (elapsed a)
         else mkReply (Throw e2) (elapsed b)
     end).

(** [Promise.race([p, new Promise((_, reject) => setTimeout(() =>
    reject(new Error(msg)), ms))])] *)
Definition race_timeout {A : Type} (p : Pending A) (ms : N) (msg : string) : Pending A :=
  fun now =>
    let '(rs, a) := p now in
    (rs, if (elapsed a <? ms)%N then a else mkReply (Throw (mkError msg)) ms).

(** [await p] *)
Definition await {A : Type} (p : Pending A) : M A := fun s =>
  let '(rs, a) := p (clock s) in
  (outcome a, mkState (cache s) (clock s + Z.of_N (elapsed a)) (trace s ++ rs)).

(** [process.env] *)
Record Env := mkEnv {
  RPC_URL : option string;
  ETHERSCAN_API_KEY : option string;
  TOKEN_CONTRACT_ADDRESS : option string;
  NEXT_PUBLIC_CHAIN_ID : option string;
  WALLET_PRIVATE_KEY : option string;
  NEXT_PUBLIC_WALLET_ADDRESS : option string
}.

(** [!v || v.includes('your')] *)
Definition unconfigured (v : option string) : bool :=
  match v with
  | None => true
  | Some s => negb (JsString.truthy s) || JsString.includes s "your"
  end.

(** One record of a ledger-API result array, with the fields the code
    reads. [raw_to] is [None] when the field is [null] or missing, so that
    [tx.to.toLowerCase()] throws. *)
Record RawTx := mkRawTx {
  raw_hash : string;
  raw_from : string;
  raw_to : option string;
  raw_value : string;
  raw_timeStamp : string;
  raw_tokenDecimal : option string
}.

(** [response.data] of a ledger-API call: [result] is [None] when it is not
    an array. *)
Record EtherscanResponse := mkEtherscanResponse {
  status : string;
  result : option (list RawTx)
}.

(** The remote services, as oracles of the time of the request. *)
Record World := mkWorld {
  env : Env;
  coingecko : Z -> Request -> Reply float;
  etherscan : Z -> Request -> Reply EtherscanResponse;
  rpc_network : Z -> Request -> Reply unit;
  rpc_bigint : Z -> Request -> Reply Z;
  rpc_string : Z -> Request -> Reply string
}.

(** ethers' [BigNumberish] arguments: a decimal string or a bigint. *)
Inductive BigNumberish :=
| BStr (s : string)
| BInt (n : Z).

(** The second argument of ethers' [formatUnits]: a unit name or a number
    of decimals. *)
Inductive UnitArg :=
| UnitName (s : string)
| UnitNum (n : Z).

(** [Array.prototype.sort(cmp)]: a stable sort; [a] stays before [b] unless
    [cmp(a, b) > 0], and a NaN result counts as 0. When [cmp] orders the
    elements consistently the language fixes the result, and this is it.
    When it does not (a NaN among the compared timestamps) the language
    leaves the order to the engine: the result is some permutation, which
    is all that is used of it in that case. *)
Section ArraySort.
Context {A : Type} (cmp : A -> A -> option Z).

Definition keeps_before (a b : A) : bool :=
  match cmp a b with
  | Some v => v <=? 0
  | None => true
  end.

Fixpoint sort_insert (x : A) (l : list A) : list A :=
  match l with
  | [] => [x]
  | y :: r => if keeps_before x y then x :: l else y :: sort_insert x r
  end.

Fixpoint Array_sort (l : list A) : list A :=
  match l with
  | [] => []
  | x :: r => sort_insert x (Array_sort r)
  end.

End ArraySort.

(** [array.map(f)] where [f] may throw: the first exception ends the map. *)
Fixpoint map_res {A B : Type} (f : A -> Res B) (l : list A) : Res (list B) :=
  match l with
  | [] => Ok []
  | x :: r =>
      match f x with
      | Ok y =>
          match map_res f r with
          | Ok ys => Ok (y :: ys)
          | Throw e => Throw e
          end
      | Throw e => Throw e
      end
  end.

(* ===================================================================== *)
(** ** The server actions *)
(* ===================================================================== *)

(** The six chart periods of [getChartData]'s signature. *)
Inductive Period := P1H | P6H | P1D | P1W | P1M | PAll.

Definition Period_str (p : Period) : string :=
  match p with
  | P1H => "1H" | P6H => "6H" | P1D => "1D"
  | P1W => "1W" | P1M => "1M" | PAll => "All"
  end.

(** [ranges[period]] for the table of both chart functions, at the six
    periods of [getChartData]'s signature: [generateEmptyChart] is private
    to the module and is called with that period only. *)
Definition ranges (period : Period) : Z :=
  match period with
  | P1H => 60 * 60 * 1000
  | P6H => 6 * 60 * 60 * 1000
  | P1D => 24 * 60 * 60 * 1000
  | P1W => 7 * 24 * 60 * 60 * 1000
  | P1M => 30 * 24 * 60 * 60 * 1000
  | PAll => 365 * 24 * 60 * 60 * 1000
  end.

(** [ranges[period] || ranges['1D']] *)
Definition range_of (period : Period) : Z :=
  if ranges period =? 0 then ranges P1D else ranges period.

(** [period === '1H' ? 12 : period === '6H' ? 24 : period === '1D' ? 48 : 50] *)
Definition intervals_of (period : Period) : nat :=
  match period with
  | P1H => 12%nat
  | P6H => 24%nat
  | P1D => 48%nat
  | P1W | P1M | PAll => 50%nat
  end.

(** The body of the inner loop of [getChartData] (lines 446-455). *)
Definition replay_step (timestamp : Z) (runningBalance : float)
    (tx : Transaction) : float :=
  if JsNumber.time_leb (tx_timestamp tx) timestamp then
    let value := token_amount tx in
    if TransactionType_eqb (tx_type tx) deposit
    then (runningBalance + value)%float
    else (runningBalance - value)%float
  else runningBalance.

(** The body of the outer loop (lines 443-460): the point pushed for [i]. *)
Definition chart_point (now timeRange : Z) (intervals : nat)
    (tokenTxs : list Transaction) (i : nat) : ChartDataPoint :=
  let timestamp := now - (Z.of_nat i * timeRange / Z.of_nat intervals) in
  let runningBalance := fold_left (replay_step timestamp) tokenTxs 0%float in
  mkChartDataPoint (JsNumber.Math_max 0 runningBalance) timestamp.

(** [for (let i = intervals; i >= 0; i--) points.push(point(i))] *)
Fixpoint chart_loop (point : nat -> ChartDataPoint) (i : nat) : list ChartDataPoint :=
  point i ::
  match i with
  | O => []
  | S j => chart_loop point j
  end.

(** The body of [generateEmptyChart] once [Date.now()] is read:
    [Array.from({ length: count }, (_, i) => ...)]. *)
Definition empty_chart (now : Z) (period : Period) : list ChartDataPoint :=
  let range := range_of period in
  let count := intervals_of period in
  map (fun i : nat =>
         mkChartDataPoint 1000
           (now - (Z.of_nat count - Z.of_nat i) * (range / Z.of_nat count)))
      (seq 0 count).

Definition generateEmptyChart (period : Period) : M (list ChartDataPoint) :=
  now ← Date_now;
  mret (empty_chart now period).

(** [!a || !a.startsWith('0x') || a.length !== 42] *)
Definition invalid_address (a : string) : bool :=
  negb (JsString.truthy a) || negb (JsString.startsWith a "0x")
  || negb (JsString.length a =? 42).

(** What the ABI coder of ethers accepts for a [uint256]. *)
Definition fits_uint256 (n : Z) : bool := (0 <=? n) && (n <? 2 ^ 256).

(** [error.message || 'Transaction failed'] *)
Definition message_or (e : JsError) (d : string) : string :=
  if JsString.truthy (message e) then message e else d.

Definition failed (msg : string) : TransferResult :=
  mkTransferResult false None (Some msg).

Section Actions.

(** ethers: [formatUnits(value, unit)], [parseUnits(value, decimals)] and
    the address of [new Wallet(privateKey, provider)]; each may throw. *)
Variable formatUnits : BigNumberish -> UnitArg -> Res string.
Variable parseUnits : string -> Z -> Res Z.
Variable Wallet_address : string -> Res string.

(** ethers: the error of the ABI coder for an [amount] that is not a
    [uint256]; its message names the argument, the value and the version of
    the library. *)
Variable out_of_bounds : Z -> JsError.

(** [Number.prototype.toFixed(digits)] *)
Variable toFixed : float -> Z -> string.

Variable w : World.

(** ethers: [formatEther(wei)] is [formatUnits(wei, 18)]. *)
Definition formatEther (wei : BigNumberish) : Res string :=
  formatUnits wei (UnitNum 18).

(** The cache keys: [`tx_${publicKey}_${process.env.NEXT_PUBLIC_CHAIN_ID}`]
    and the like. *)
Definition chain_suffix : string :=
  "_" +:+ JsString.interpolate (NEXT_PUBLIC_CHAIN_ID (env w)).

Definition tx_key (publicKey : string) : string :=
  "tx_" +:+ publicKey +:+ chain_suffix.

Definition balance_key (publicKey : string) : string :=
  "balance_" +:+ publicKey +:+ chain_suffix.

Definition chart_key (publicKey : string) (period : Period) : string :=
  "chart_" +:+ publicKey +:+ "_" +:+ Period_str period +:+ chain_suffix.

(** [tx.to.toLowerCase()]: a [TypeError] when [tx.to] is [null] or
    [undefined]. *)
Definition recipient_of (tx : RawTx) : Res string :=
  match raw_to tx with
  | Some a => Ok a
  | None => Throw (mkError "Cannot read properties of undefined (reading 'toLowerCase')")
  end.

Definition type_of (publicKey recipient : string) : TransactionType :=
  if String.eqb (JsString.toLowerCase recipient) (JsString.toLowerCase publicKey)
  then deposit else withdraw.

(** The record built for a native transaction (lines 349-358). *)
Definition eth_transaction (publicKey : string) (tx : RawTx) : Res Transaction :=
  value ← formatEther (BStr (raw_value tx));
  recipient ← recipient_of tx;
  mret (mkTransaction (raw_hash tx) (raw_from tx) recipient value
          (JsNumber.time_mul (JsNumber.parseInt (raw_timeStamp tx)) 1000)
          (type_of publicKey recipient) "0" ETH).

(** [tx.tokenDecimal || tokenDecimals] *)
Definition decimals_arg (tx : RawTx) (tokenDecimals : Z) : UnitArg :=
  match raw_tokenDecimal tx with
  | Some d => if JsString.truthy d then UnitName d else UnitNum tokenDecimals
  | None => UnitNum tokenDecimals
  end.

(** The record built for a token transfer (lines 366-375). *)
Definition token_transaction (publicKey : string) (tokenDecimals : Z)
    (tx : RawTx) : Res Transaction :=
  recipient ← recipient_of tx;
  tokenValue ← formatUnits (BStr (raw_value tx)) (decimals_arg tx tokenDecimals);
  mret (mkTransaction (raw_hash tx) (raw_from tx) recipient "0"
          (JsNumber.time_mul (JsNumber.parseInt (raw_timeStamp tx)) 1000)
          (type_of publicKey recipient) tokenValue TOKEN).

(** [response.data.status === '1' && Array.isArray(response.data.result)],
    then [result.slice(0, n)]; no record is read otherwise. *)
Definition kept (n : nat) (r : EtherscanResponse) : list RawTx :=
  match result r with
  | Some l => if String.eqb (status r) "1" then firstn n l else []
  | None => []
  end.

(** [(a, b) => b.timestamp - a.timestamp] *)
Definition newest_first (a b : Transaction) : option Z :=
  JsNumber.time_sub (tx_timestamp b) (tx_timestamp a).

Definition etherscan_base : string :=
  let network :=
    match NEXT_PUBLIC_CHAIN_ID (env w) with
    | Some c => if String.eqb c "5" then "goerli" else "api"
    | None => "api"
    end in
  if String.eqb network "goerli"
  then "https://api-goerli.etherscan.io"
  else "https://api.etherscan.io".

(** The [try] block of [getTransactionHistory] (lines 303-386). *)
Definition fetch_transactions (publicKey : string) (tokenDecimals : Z)
    (apikey : string) : M (list Transaction) :=
  let baseUrl := etherscan_base in
  '(txResponse, tokenTxResponse) ←
    await (both
      (request (etherscan w) (GetTxList baseUrl publicKey apikey))
      (request (etherscan w)
         (GetTokenTx baseUrl publicKey (TOKEN_CONTRACT_ADDRESS (env w)) apikey)));
  let transactions : list Transaction := [] in
  ethTxs ← lift (map_res (eth_transaction publicKey) (kept 10 txResponse));
  let transactions := transactions ++ ethTxs in
  tokenTxs ← lift (map_res (token_transaction publicKey tokenDecimals)
                     (kept 20 tokenTxResponse));
  let transactions := transactions ++ tokenTxs in
  let transactions := Array_sort newest_first transactions in
  cache_set (tx_key publicKey) (VTxs (firstn 30 transactions));;
  mret (firstn 30 transactions).

Definition getTransactionHistory (publicKey : string) (tokenDecimals : Z)
    : M (list Transaction) :=
  cached ← cache_get (tx_key publicKey);
  match cached with
  | Some (VTxs l) => mret l
  | _ =>
      if unconfigured (ETHERSCAN_API_KEY (env w)) then mret []
      else
        try_catch
          (fetch_transactions publicKey tokenDecimals
             (JsString.interpolate (ETHERSCAN_API_KEY (env w))))
          (fun _ => mret [])
  end.

Definition getChartData (publicKey : string) (period : Period)
    : M (list ChartDataPoint) :=
  cached ← cache_get (chart_key publicKey period);
  match cached with
  | Some (VChart points) => mret points
  | _ =>
      try_catch
        (transactions ← getTransactionHistory publicKey 6;
         let tokenTxs := tokenTxs_of transactions in
         if (List.length tokenTxs =? 0)%nat
         then generateEmptyChart period
         else
           now ← Date_now;
           let timeRange := range_of period in
           let intervals := intervals_of period in
           let points :=
             chart_loop (chart_point now timeRange intervals tokenTxs) intervals in
           cache_set (chart_key publicKey period) (VChart points);;
           mret points)
        (fun _ => generateEmptyChart period)
  end.

Definition getEthPrice : M float :=
  let fetch : M float :=
    try_catch
      (price ← await (request (coingecko w) GetPrice);
       cache_set "eth_price" (VNum price);;
       mret price)
      (fun _ => mret 3000%float) in
  cached ← cache_get "eth_price";
  match cached with
  | Some (VNum price) => if JsNumber.truthy price then mret price else fetch
  | _ => fetch
  end.

(** [getTokenContract]: the contract is its address. *)
Definition getTokenContract : Res string :=
  if unconfigured (TOKEN_CONTRACT_ADDRESS (env w))
  then Throw (mkError "TOKEN_CONTRACT_ADDRESS not configured")
  else Ok (JsString.interpolate (TOKEN_CONTRACT_ADDRESS (env w))).

Definition getWalletBalance (publicKey : string) : M WalletData :=
  cached ← cache_get (balance_key publicKey);
  match cached with
  | Some (VWallet d) => mret d
  | _ =>
      if invalid_address publicKey then throw "Invalid Ethereum address"
      else if unconfigured (RPC_URL (env w))
      then throw "RPC_URL not configured in .env.local"
      else
        try_catch
          (await (request (rpc_network w) (RpcGetNetwork (RPC_URL (env w))));;
           ethBalance ← await (request (rpc_bigint w)
                                 (RpcGetBalance (RPC_URL (env w)) publicKey));
           ethBalanceFormatted ← lift (formatEther (BInt ethBalance));
           '(tokenBalance, tokenDecimals) ←
             try_catch
               (tokenContract ← lift getTokenContract;
                '(balance, (decimals, symbol)) ←
                  await (both
                    (request (rpc_bigint w) (CallBalanceOf tokenContract publicKey))
                    (both (request (rpc_bigint w) (CallDecimals tokenContract))
                          (request (rpc_string w) (CallSymbol tokenContract))));
                tokenBalance ← lift (formatUnits (BInt balance) (UnitNum decimals));
                mret (tokenBalance, decimals))
               (fun _ => mret ("0", 6));
           ethPrice ← getEthPrice;
           let ethValueUsd := (JsNumber.parseFloat ethBalanceFormatted * ethPrice)%float in
           let tokenValueUsd := JsNumber.parseFloat tokenBalance in
           let portfolioValue := toFixed (ethValueUsd + tokenValueUsd)%float 2 in
           transactions ← getTransactionHistory publicKey tokenDecimals;
           let pl := calculateTokenProfitLoss transactions tokenBalance publicKey in
           let d := mkWalletData ethBalanceFormatted portfolioValue
                      (toFixed (profit pl) 2) (profitPercent pl)
                      tokenBalance transactions ethPrice in
           cache_set (balance_key publicKey) (VWallet d);;
           mret d)
          (fun error => throw ("Failed to fetch wallet data: " +:+ message error))
  end.

(** [tokenContract.transfer(to, amount)]: ethers encodes the call before
    anything is sent, and the encoding throws for an amount that is not a
    [uint256]. *)
Definition transfer (tokenContract signer to : string) (amount : Z) : M string :=
  if fits_uint256 amount
  then await (request (rpc_string w) (SendTransfer tokenContract signer to amount))
  else lift (Throw (out_of_bounds amount)).

Definition withdrawFunds (toAddress amount : string) : M TransferResult :=
  if invalid_address toAddress then mret (failed "Invalid recipient address")
  else if unconfigured (WALLET_PRIVATE_KEY (env w))
  then mret (failed "Wallet private key not configured")
  else
    try_catch
      (wallet ← lift (Wallet_address (JsString.interpolate (WALLET_PRIVATE_KEY (env w))));
       tokenContract ← lift getTokenContract;
       balance ← await (request (rpc_bigint w) (CallBalanceOf tokenContract wallet));
       amountInUnits ← lift (parseUnits amount 6);
       if balance <? amountInUnits then mret (failed "Insufficient balance")
       else
         hash ← transfer tokenContract wallet toAddress amountInUnits;
         receiptStatus ← await (race_timeout
                                  (request (rpc_bigint w) (WaitReceipt hash))
                                  60000 "Transaction timeout");
         if negb (receiptStatus =? 1) then throw "Transaction failed on-chain"
         else
           cache_delete (balance_key wallet);;
           cache_delete (balance_key toAddress);;
           mret (mkTransferResult true (Some hash) None))
      (fun error => mret (failed (message_or error "Transaction failed"))).

(** [!process.env.NEXT_PUBLIC_WALLET_ADDRESS] *)
Definition unset (v : option string) : bool :=
  match v with
  | None => true
  | Some s => negb (JsString.truthy s)
  end.

Definition depositFunds (amount : string) : M TransferResult :=
  if unconfigured (WALLET_PRIVATE_KEY (env w))
  then mret (failed "Wallet private key not configured")
  else if unset (NEXT_PUBLIC_WALLET_ADDRESS (env w))
  then mret (failed "Wallet address not configured")
  else
    let destination := JsString.interpolate (NEXT_PUBLIC_WALLET_ADDRESS (env w)) in
    try_catch
      (wallet ← lift (Wallet_address (JsString.interpolate (WALLET_PRIVATE_KEY (env w))));
       tokenContract ← lift getTokenContract;
       amountInUnits ← lift (parseUnits amount 6);
       hash ← transfer tokenContract wallet destination amountInUnits;
       receiptStatus ← await (race_timeout
                                (request (rpc_bigint w) (WaitReceipt hash))
                                60000 "Transaction timeout");
       if negb (receiptStatus =? 1) then throw "Transaction failed on-chain"
       else
         cache_delete (balance_key destination);;
         mret (mkTransferResult true (Some hash) None))
      (fun error => mret (failed (message_or error "Transaction failed"))).

Definition profit_key (publicKey : string) : string :=
  "profit_" +:+ publicKey +:+ chain_suffix.

Definition getProfitLoss (publicKey : string) : M ProfitLossData :=
  cached ← cache_get (profit_key publicKey);
  match cached with
  | Some (VProfit p chartData) =>
      mret (mkProfitLossData (profit p) (profitPercent p) chartData)
  | _ =>
      try_catch
        (walletData ← getWalletBalance publicKey;
         chartData ← getChartData publicKey P1D;
         let result :=
           mkProfitLossData (JsNumber.parseFloat (wd_profit walletData))
                            (wd_profitPercent walletData) chartData in
         cache_set (profit_key publicKey)
           (VProfit (mkProfitLoss (pld_profit result) (pld_profitPercent result))
                    (pld_chartData result));;
         mret result)
        (fun _ => throw "Failed to calculate profit/loss")
  end.

End Actions.

(* ===================================================================== *)
(** ** The ethers library, for the concrete runs *)
(* ===================================================================== *)

(** The properties below hold for every behaviour of the ethers functions.
    The concrete runs need one: this module follows ethers 6
    ([formatUnits], [parseUnits] and the [toString] of [FixedNumber]). An
    error carries the short message of the library's error, without the
    details the library appends to it. *)
Module Ethers.

(** The unit names [formatUnits] accepts as a string. *)
Definition names : list string :=
  ["wei"; "kwei"; "mwei"; "gwei"; "szabo"; "finney"; "ether"].

Fixpoint indexOf (l : list string) (x : string) (i : Z) : Z :=
  match l with
  | [] => -1
  | y :: r => if String.eqb x y then i else indexOf r x (i + 1)
  end.

(** A string that is digits of the radix from end to end, at least one. *)
Definition whole_literal (radix : N) (digit : ascii -> option N) (s : string) : option Z :=
  let '(v, n, rest) := JsString.digits radix digit s 0%N O in
  match n, rest with
  | S _, EmptyString => Some (Z.of_N v)
  | _, _ => None
  end.

Definition digit_below (radix : N) (c : ascii) : option N :=
  match JsString.digit_of c with
  | Some d => if (d <? radix)%N then Some d else None
  | None => None
  end.

(** JavaScript's [BigInt(s)] on a string: the white space around the
    literal is dropped; the empty literal is 0; [0x], [0o] and [0b], in
    either case, start an unsigned hexadecimal, octal or binary literal;
    any other literal is decimal digits after an optional sign. [None]
    stands for the [SyntaxError]. *)
Definition BigInt (s : string) : option Z :=
  let t := JsString.trimEnd (JsString.trimStart s) in
  match t with
  | EmptyString => Some 0
  | String "0" (String c r) =>
      if (Ascii.eqb c "x" || Ascii.eqb c "X")%bool
      then whole_literal 16 JsString.hex_digit_of r
      else if (Ascii.eqb c "o" || Ascii.eqb c "O")%bool
      then whole_literal 8 (digit_below 8) r
      else if (Ascii.eqb c "b" || Ascii.eqb c "B")%bool
      then whole_literal 2 (digit_below 2) r
      else whole_literal 10 JsString.digit_of t
  | String "+" r => whole_literal 10 JsString.digit_of r
  | String "-" r =>
      match whole_literal 10 JsString.digit_of r with
      | Some n => Some (- n)
      | None => None
      end
  | _ => whole_literal 10 JsString.digit_of t
  end.

(** [getBigInt]: a bigint is itself. A string must not be empty; after one
    leading minus that no second minus follows, the rest is read by
    [BigInt] and negated; any other string is read by [BigInt] as it is. *)
Definition getBigInt (v : BigNumberish) : Res Z :=
  match v with
  | BInt n => Ok n
  | BStr s =>
      let parsed :=
        match s with
        | EmptyString => None
        | String "-" (String "-" _) => BigInt s
        | String "-" r =>
            match BigInt r with
            | Some n => Some (- n)
            | None => None
            end
        | _ => BigInt s
        end in
      match parsed with
      | Some n => Ok n
      | None => Throw (mkError "invalid BigNumberish string")
      end
  end.

Fixpoint zeros (n : nat) : string :=
  match n with
  | O => ""
  | S k => String "0" (zeros k)
  end.

(** Drops the zeros at the end of a string. *)
Fixpoint drop_trailing_zeros (s : string) : string :=
  match s with
  | EmptyString => EmptyString
  | String c r =>
      match drop_trailing_zeros r with
      | EmptyString => if Ascii.eqb c "0" then EmptyString else String c EmptyString
      | r' => String c r'
      end
  end.

(** [toString] of a fixed-point number. With no decimals the digits stand
    alone. Otherwise the digits are padded to one more than [decimals], the
    point is inserted, and the fraction loses its trailing zeros but keeps
    one digit. With a negative number of decimals nothing is padded and the
    point lands after the last digit. *)
Definition fixed_toString (val : Z) (decimals : Z) : string :=
  let negative := if val <? 0 then "-" else "" in
  let str := pretty (Z.abs_N val) in
  match decimals with
  | Z0 => negative +:+ str
  | Zneg _ => negative +:+ str +:+ "."
  | Zpos _ =>
      let d := Z.to_nat decimals in
      let str := zeros (S d - String.length str) +:+ str in
      let index := (String.length str - d)%nat in
      let whole := String.substring 0 index str in
      let fraction :=
        match drop_trailing_zeros (String.substring index d str) with
        | EmptyString => "0"
        | f => f
        end in
      negative +:+ whole +:+ "." +:+ fraction
  end.

(** [getNumber]: a number of decimals is a safe integer. *)
Definition max_safe : Z := 2 ^ 53 - 1.

(** The number of decimals a unit argument stands for. *)
Definition decimals_of (unit : UnitArg) : Res Z :=
  match unit with
  | UnitName s =>
      let index := indexOf names s 0 in
      if index <? 0 then Throw (mkError "invalid unit") else Ok (3 * index)
  | UnitNum n =>
      if (- max_safe <=? n) && (n <=? max_safe) then Ok n
      else Throw (mkError "overflow")
  end.

(** Values are held in 512 signed bits. *)
Definition in_range (val : Z) : bool :=
  (- 2 ^ 511 <=? val) && (val <? 2 ^ 511).

(** [formatUnits(value, unit)]: the unit is resolved, a fixed-point format
    of more than 80 decimals is refused, then the value is read and
    printed. *)
Definition formatUnits (value : BigNumberish) (unit : UnitArg) : Res string :=
  decimals ← decimals_of unit;
  if 80 <? decimals then Throw (mkError "invalid FixedNumber decimals (too large)")
  else
    val ← getBigInt value;
    if in_range val then Ok (fixed_toString val decimals)
    else Throw (mkError "overflow").

(** [parseUnits]: an optional minus, digits, an optional point and digits,
    at least one digit in all; digits beyond [decimals] must be zeros. *)
Definition parseUnits (value : string) (decimals : Z) : Res Z :=
  let '(neg, s1) :=
    match value with
    | String "-" r => (true, r)
    | _ => (false, value)
    end in
  let '(whole, nw, s2) := JsString.digits 10 JsString.digit_of s1 0%N O in
  let '(fraction, rest) :=
    match s2 with
    | String "." r =>
        let '(_, nf, s3) := JsString.digits 10 JsString.digit_of r 0%N O in
        (String.substring 0 nf r, s3)
    | _ => ("", s2)
    end in
  let d := Z.to_nat decimals in
  let padded := fraction +:+ zeros (d - String.length fraction) in
  let excess := String.substring d (String.length padded - d) padded in
  let '(f, _, _) :=
    JsString.digits 10 JsString.digit_of (String.substring 0 d padded) 0%N O in
  match rest, (nw + String.length fraction)%nat, drop_trailing_zeros excess with
  | EmptyString, S _, EmptyString =>
      let v := Z.of_N whole * 10 ^ decimals + Z.of_N f in
      if in_range v then Ok (if neg then - v else v)
      else Throw (mkError "overflow")
  | EmptyString, S _, _ => Throw (mkError "too many decimals for format")
  | _, _, _ => Throw (mkError "invalid FixedNumber string value")
  end.

End Ethers.

(* ===================================================================== *)
(** ** Vocabulary of the specification *)
(* ===================================================================== *)

(** The words of the profit and loss rule, defined on their own and not
    through the functions of the code. The token-asset transfers of a
    history, in the order of the history: *)
Fixpoint token_transfers (l : list Transaction) : list Transaction :=
  match l with
  | [] => []
  | tx :: r =>
      match tx_asset tx with
      | TOKEN => tx :: token_transfers r
      | ETH => token_transfers r
      end
  end.

(** The recipient of a transfer is the address, letter case apart. *)
Definition received_by (publicKey : string) (tx : Transaction) : bool :=
  String.eqb (JsString.toLowerCase (tx_to tx)) (JsString.toLowerCase publicKey).

(** The token amount of a transfer as a number; an amount that reads as no
    number, or as zero, counts as 0. *)
Definition amount_read (tx : Transaction) : float :=
  let v := JsNumber.parseFloat (tx_tokenValue tx) in
  if JsNumber.truthy v then v else 0%float.

(** The sum of the token amounts of a list of transfers, added from the
    left starting at 0, in binary64. *)
Definition sum_amounts (l : list Transaction) : float :=
  fold_left (fun acc tx => (acc + amount_read tx)%float) l 0%float.

(** [totalIn]: the token transfers whose recipient is the address. *)
Definition totalIn_spec (publicKey : string) (transactions : list Transaction) : float :=
  sum_amounts (List.filter (received_by publicKey) (token_transfers transactions)).

(** [totalOut]: all the other token transfers. *)
Definition totalOut_spec (publicKey : string) (transactions : list Transaction) : float :=
  sum_amounts (List.filter (fun tx => negb (received_by publicKey tx))
                           (token_transfers transactions)).

(* ===================================================================== *)
(** ** Sample data for the concrete runs *)
(* ===================================================================== *)

Module Sample.

Definition me : string := "0x52908400098527886E0F7030069857D2E4169EE7".
Definition me_lower : string := "0x52908400098527886e0f7030069857d2e4169ee7".
Definition other : string := "0x8617E340B3D01FA5F11F306F4090FD50E238070D".
Definition token : string := "0xde709f2102306220921060314715629080e2fb77".

(** A token transfer of 100 received by [me]. *)
Definition received_100 : Transaction :=
  mkTransaction "0xa1" other me_lower "0" (Some 1700000000000) deposit "100.0" TOKEN.

(** A token transfer of 50 sent by [me]. *)
Definition sent_50 : Transaction :=
  mkTransaction "0xa2" me_lower other "0" (Some 1700000100000) withdraw "50.0" TOKEN.

(** A native transfer received by [me]. *)
Definition received_eth : Transaction :=
  mkTransaction "0xa3" other me_lower "0.5" (Some 1700000200000) deposit "0" ETH.

(** A record tagged as native that carries a token amount all the same,
    and a token record whose amount does not read as a number. *)
Definition mislabelled : Transaction :=
  mkTransaction "0xa4" other me_lower "0.5" (Some 1700000300000) deposit "7.0" ETH.
Definition unreadable : Transaction :=
  mkTransaction "0xa5" other me_lower "0" (Some 1700000400000) deposit "n/a" TOKEN.

Definition no_reply {A : Type} : Z -> Request -> Reply A :=
  fun _ _ => mkReply (Throw (mkError "Network Error")) 0.

(** No variable is set and no service answers. *)
Definition offline : World :=
  mkWorld (mkEnv None None None None None None)
          no_reply no_reply no_reply no_reply no_reply.

Definition configured : Env :=
  mkEnv (Some "https://rpc.example/v2/abc") (Some "KEY") (Some token)
        (Some "1") (Some "0xkey") (Some me).

Definition wallet : string := "0xE6C4C3A2B1D0F9E8D7C6B5A4938271605F4E3D2C".

(** The only key the sample signer knows. *)
Definition Wallet_address (privateKey : string) : Res string :=
  if String.eqb privateKey "0xkey" then Ok wallet
  else Throw (mkError "invalid private key").

(** A stand-in for the error of the ABI coder: its short message, without
    the argument, the value and the version the library appends. *)
Definition out_of_bounds (value : Z) : JsError := mkError "value out-of-bounds".

(** A world with every variable set, in which the ledger API gives the two
    answers passed in (each after 120 ms) and the token contract reports
    the balance passed in. *)
Definition ledger (txlist tokentx : Res EtherscanResponse) (balance : Z) : World :=
  mkWorld configured
    (fun _ _ => mkReply (Ok 3000%float) 80)
    (fun _ req =>
       match req with
       | GetTxList _ _ _ => mkReply txlist 120
       | GetTokenTx _ _ _ _ => mkReply tokentx 120
       | _ => mkReply (Throw (mkError "Network Error")) 0
       end)
    (fun _ _ => mkReply (Ok tt) 40)
    (fun _ req =>
       match req with
       | RpcGetBalance _ _ => mkReply (Ok 1500000000000000000) 40
       | CallBalanceOf _ _ => mkReply (Ok balance) 40
       | CallDecimals _ => mkReply (Ok 6) 40
       | WaitReceipt _ => mkReply (Ok 1) 12000
       | _ => mkReply (Throw (mkError "Network Error")) 0
       end)
    (fun _ req =>
       match req with
       | CallSymbol _ => mkReply (Ok "USDC") 40
       | SendTransfer _ _ _ _ => mkReply (Ok "0xc1") 300
       | _ => mkReply (Throw (mkError "Network Error")) 0
       end).

(** Raw ledger records: a native transfer of 0.5, a contract call that
    carries no native value, two token transfers (100 in, 50 out) and a
    record without recipient. *)
Definition raw_native : RawTx :=
  mkRawTx "0xb1" other (Some me_lower) "500000000000000000" "1700000200" None.
Definition raw_call : RawTx :=
  mkRawTx "0xb2" me_lower (Some token) "0" "1700000300" None.
Definition raw_in : RawTx :=
  mkRawTx "0xb3" other (Some me_lower) "100000000" "1700000000" None.
Definition raw_out : RawTx :=
  mkRawTx "0xb4" me_lower (Some other) "50000000" "1700000250" None.
Definition raw_no_recipient : RawTx :=
  mkRawTx "0xb5" other None "1" "1700000400" None.


Definition answer (l : list RawTx) : Res EtherscanResponse :=
  Ok (mkEtherscanResponse "1" (Some l)).

(** The ledger API's answer when it has nothing to report. *)
Definition no_records : Res EtherscanResponse :=
  Ok (mkEtherscanResponse "0" (Some [])).

Definition start : State := mkState ∅ 1700000500000 [].

(** The world in which the ledger API reports the four well-formed sample
    records, newest first in each answer. *)
Definition busy : World :=
  ledger (answer [raw_call; raw_native]) (answer [raw_out; raw_in]) 80000000.

(** The records [getTransactionHistory] builds from them. *)
Definition tx_call : Transaction :=
  mkTransaction "0xb2" me_lower token "0.0" (Some 1700000300000) withdraw "0" ETH.
Definition tx_native : Transaction :=
  mkTransaction "0xb1" other me_lower "0.5" (Some 1700000200000) deposit "0" ETH.
Definition tx_out : Transaction :=
  mkTransaction "0xb4" me_lower other "0" (Some 1700000250000) withdraw "50.0" TOKEN.
Definition tx_in : Transaction :=
  mkTransaction "0xb3" other me_lower "0" (Some 1700000000000) deposit "100.0" TOKEN.

(** A stand-in for [toFixed], for runs that never format a number. *)
Definition toFixed (x : float) (digits : Z) : string := "0.00".

(** A snapshot as [getWalletBalance] stores it. *)
Definition snapshot : WalletData :=
  mkWalletData "1.5" "4580.00" "-20.00" (-20)%float "80.0" [received_100] 3000%float.

End Sample.

(** What a cache lookup finds at the current time, and the state it
    leaves: a stale entry is deleted. *)
Definition cache_lookup (key : string) (s : State) : option CacheVal :=
  (getCachedData key (clock s) (cache s)).1.

Definition after_lookup (key : string) (s : State) : State :=
  mkState (getCachedData key (clock s) (cache s)).2 (clock s) (trace s).

(** The two requests of [getTransactionHistory]: [module=account],
    [action=txlist] or [tokentx], the whole block range, [sort=desc]. *)
Definition txlist_request (w : World) (publicKey : string) : Request :=
  GetTxList (etherscan_base w) publicKey
    (JsString.interpolate (ETHERSCAN_API_KEY (env w))).

Definition tokentx_request (w : World) (publicKey : string) : Request :=
  GetTokenTx (etherscan_base w) publicKey (TOKEN_CONTRACT_ADDRESS (env w))
    (JsString.interpolate (ETHERSCAN_API_KEY (env w))).

(** The state once both ledger requests have settled. *)
Definition after_requests (w : World) (publicKey : string) (s : State) : State :=
  let p := both (request (etherscan w) (txlist_request w publicKey))
                (request (etherscan w) (tokentx_request w publicKey)) in
  mkState (cache s) (clock s + Z.of_N (elapsed (p (clock s)).2))
          (trace s ++ [txlist_request w publicKey; tokentx_request w publicKey]).







(** An amount string that stands for a non-zero number, read the way the
    code reads amounts ([parseFloat(s) || 0]). *)
Definition amount_nonzero (s : string) : bool :=
  JsNumber.truthy (JsNumber.parseFloat s).

(** The invariant the specification states for a transfer record: of the
    native and the token amount, the one of the record's asset is non-zero
    and the other is zero. *)
Definition one_amount_nonzero (tx : Transaction) : bool :=
  match tx_asset tx with
  | ETH => amount_nonzero (tx_value tx) && negb (amount_nonzero (tx_tokenValue tx))
  | TOKEN => negb (amount_nonzero (tx_value tx)) && amount_nonzero (tx_tokenValue tx)
  end.

(** A [formatUnits] that prints the integer 0 as a string that reads as
    zero, whatever the unit. *)
Definition formats_zero (formatUnits : BigNumberish -> UnitArg -> Res string) : Prop :=
  forall unit str, formatUnits (BStr "0") unit = Ok str -> amount_nonzero str = false.

(** A raw record among those the run keeps of the answer for an asset:
    the first 10 of the native list, the first 20 of the token list. *)
Definition kept_record (w : World) (publicKey : string) (s : State)
    (asset : Asset) (raw : RawTx) : Prop :=
  match asset with
  | ETH => exists r, outcome (etherscan w (clock s) (txlist_request w publicKey)) = Ok r /\
                     In raw (kept 10 r)
  | TOKEN => exists r, outcome (etherscan w (clock s) (tokentx_request w publicKey)) = Ok r /\
                       In raw (kept 20 r)
  end.

(** The record is the one the code builds from the raw record. *)
Definition built_from (formatUnits : BigNumberish -> UnitArg -> Res string)
    (publicKey : string) (tokenDecimals : Z) (raw : RawTx) (tx : Transaction) : Prop :=
  match tx_asset tx with
  | ETH => eth_transaction formatUnits publicKey raw = Ok tx
  | TOKEN => token_transaction formatUnits publicKey tokenDecimals raw = Ok tx
  end.

(** What the code does guarantee: the amount of the other asset is the
    literal ['0']. *)
Definition other_amount_zero (tx : Transaction) : Prop :=
  match tx_asset tx with
  | ETH => tx_tokenValue tx = "0"
  | TOKEN => tx_value tx = "0"
  end.

(** The ways a ledger request of [getTransactionHistory] fails: a request
    is rejected (a timeout, an HTTP status other than success), or a record
    that is kept cannot be converted (its recipient is missing, its value
    is not an integer). *)
Definition history_failure (formatUnits : BigNumberish -> UnitArg -> Res string)
    (w : World) (publicKey : string) (tokenDecimals : Z) (s : State) : Prop :=
  let a := outcome (etherscan w (clock s) (txlist_request w publicKey)) in
  let b := outcome (etherscan w (clock s) (tokentx_request w publicKey)) in
  (exists e, a = Throw e) \/
  (exists e, b = Throw e) \/
  (exists r x e, a = Ok r /\ In x (kept 10 r) /\
                 eth_transaction formatUnits publicKey x = Throw e) \/
  (exists r x e, b = Ok r /\ In x (kept 20 r) /\
                 token_transaction formatUnits publicKey tokenDecimals x = Throw e).

(** Binary64 values seen through their specification ([Prim2SF]). *)
Definition SF_not_nan (f : spec_float) : Prop := f <> S754_nan.

Definition SF_finite (f : spec_float) : Prop :=
  match f with
  | S754_zero _ | S754_finite _ _ _ => True
  | _ => False
  end.

(** The token amounts of a history are finite numbers: the case of every
    amount formatted from an on-chain integer. *)
Definition finite_amounts (l : list Transaction) : Prop :=
  Forall (fun tx => is_finite (token_amount tx) = true) l.

(** Strictly ascending timestamps. *)
Definition ascending (points : list ChartDataPoint) : Prop :=
  StronglySorted Z.lt (map cp_timestamp points).

(** Every value is a number and at least 0. *)
Definition nonnegative (points : list ChartDataPoint) : Prop :=
  Forall (fun p => (0 <=? cp_value p)%float = true) points.

(** No value is below 0 (a NaN is not). *)
Definition never_negative (points : list ChartDataPoint) : Prop :=
  Forall (fun p => (cp_value p <? 0)%float = false) points.

(** How many points a run of [getChartData] returned. *)
Definition points_returned (run : Res (list ChartDataPoint) * State) : option nat :=
  match run.1 with
  | Ok points => Some (List.length points)
  | Throw _ => None
  end.

Definition all_periods : list Period := [P1H; P6H; P1D; P1W; P1M; PAll].

(** The price a call of [getEthPrice] finds in the cache: a fresh entry
    that is a truthy number. *)
Definition cached_price (s : State) : option float :=
  match cache_lookup "eth_price" s with
  | Some (VNum p) => if JsNumber.truthy p then Some p else None
  | _ => None
  end.

(** The state once the price request has settled. *)
Definition after_price_request (w : World) (s : State) : State :=
  let s0 := after_lookup "eth_price" s in
  mkState (cache s0)
          (clock s0 + Z.of_N (elapsed (coingecko w (clock s0) GetPrice)))
          (trace s0 ++ [GetPrice]).

(** What [getTransactionHistory] does once the cache has given nothing:
    the credential check, then the [try] block with its [catch]. *)
Definition history_on_miss (formatUnits : BigNumberish -> UnitArg -> Res string)
    (w : World) (publicKey : string) (tokenDecimals : Z) (s0 : State)
    : Res (list Transaction) * State :=
  if unconfigured (ETHERSCAN_API_KEY (env w)) then (Ok [], s0)
  else
    match fetch_transactions formatUnits w publicKey tokenDecimals
            (JsString.interpolate (ETHERSCAN_API_KEY (env w))) s0 with
    | (Ok l, s') => (Ok l, s')
    | (Throw _, s') => (Ok [], s')
    end.

(** Two more sample worlds: the ledger API times out on the native list;
    the ledger API has nothing to report on either list. *)
Definition Sample_flaky : World :=
  Sample.ledger (Throw (mkError "timeout of 10000ms exceeded")) Sample.no_records 80000000.

Definition Sample_quiet : World :=
  Sample.ledger Sample.no_records Sample.no_records 80000000.

(** What [getChartData] does once the cache has given nothing: the [try]
    block with its [catch]. *)
Definition chart_on_miss (formatUnits : BigNumberish -> UnitArg -> Res string)
    (w : World) (publicKey : string) (period : Period) (s0 : State)
    : Res (list ChartDataPoint) * State :=
  match getTransactionHistory formatUnits w publicKey 6 s0 with
  | (Ok txs, s1) =>
      if (List.length (tokenTxs_of txs) =? 0)%nat
      then (Ok (empty_chart (clock s1) period), s1)
      else
        let points :=
          chart_loop (chart_point (clock s1) (range_of period)
                        (intervals_of period) (tokenTxs_of txs))
                     (intervals_of period) in
        (Ok points,
         mkState (setCachedData (chart_key w publicKey period) (VChart points)
                    (clock s1) (cache s1))
                 (clock s1) (trace s1))
  | (Throw _, s1) => (Ok (empty_chart (clock s1) period), s1)
  end.

(** The boundary of bucket [i], counted from the oldest: the lookback is
    cut into [intervals] equal steps. *)
Definition boundary (now : Z) (period : Period) (i : nat) : Z :=
  now - range_of period
  + Z.of_nat i * (range_of period
                  / Z.of_nat (intervals_of period)).

(** The balance replayed up to a boundary, clamped at 0. *)
Definition balance_at (timestamp : Z) (tokenTxs : list Transaction) : float :=
  JsNumber.Math_max 0 (fold_left (replay_step timestamp) tokenTxs 0%float).

(** [Number.prototype.toFixed(digits)] for the concrete runs: the exact
    value of the number times [10^digits], rounded to the nearest integer
    (the larger one on a tie), printed with the decimal point [digits] from
    the right. Magnitudes of 10^21 and more print in exponent notation in
    JavaScript and are outside this model. *)
Definition toFixed_digits (x : float) (digits : Z) : string :=
  let d := Z.to_nat digits in
  let print (neg : bool) (n : N) : string :=
    let str := pretty n in
    let str := Ethers.zeros (S d - String.length str) +:+ str in
    let index := (String.length str - d)%nat in
    (if neg then "-" else "") +:+ String.substring 0 index str +:+
    (match d with
     | O => ""
     | S _ => "." +:+ String.substring index d str
     end) in
  match Prim2SF x with
  | S754_nan => "NaN"
  | S754_infinity neg => if neg then "-Infinity" else "Infinity"
  | S754_zero _ => print false 0%N
  | S754_finite neg m e =>
      let scaled := Zpos m * 10 ^ digits in
      let n :=
        match e with
        | Zneg k => (2 * scaled + 2 ^ Zpos k) / (2 * 2 ^ Zpos k)
        | _ => scaled * 2 ^ e
        end in
      print neg (Z.to_N n)
  end.

(** The sample world without a token contract address. *)
Definition Sample_no_token : World :=
  mkWorld
    (mkEnv (RPC_URL Sample.configured) (ETHERSCAN_API_KEY Sample.configured) None
           (NEXT_PUBLIC_CHAIN_ID Sample.configured)
           (WALLET_PRIVATE_KEY Sample.configured)
           (NEXT_PUBLIC_WALLET_ADDRESS Sample.configured))
    (coingecko Sample.busy) (etherscan Sample.busy) (rpc_network Sample.busy)
    (rpc_bigint Sample.busy) (rpc_string Sample.busy).

(** What a transfer action may report: a success with its transaction
    hash, or a failure with a non-empty message. *)
Definition reports_success (r : TransferResult) (hash : string) : Prop :=
  success r = true /\ txHash r = Some hash /\ error r = None.

Definition reports_failure (r : TransferResult) : Prop :=
  success r = false /\ txHash r = None /\
  exists msg, error r = Some msg /\ msg <> "".

(** The sample world with another outcome of the receipt wait. *)
Definition Sample_receipt (settled : Res Z) (ms : N) : World :=
  mkWorld (env Sample.busy) (coingecko Sample.busy) (etherscan Sample.busy)
    (rpc_network Sample.busy)
    (fun t req =>
       match req with
       | WaitReceipt _ => mkReply settled ms
       | _ => rpc_bigint Sample.busy t req
       end)
    (rpc_string Sample.busy).

(** The state once a single call has settled. *)
Definition after_call {A : Type} (oracle : Z -> Request -> Reply A) (req : Request)
    (s : State) : State :=
  mkState (cache s) (clock s + Z.of_N (elapsed (oracle (clock s) req)))
          (trace s ++ [req]).
Module JsNumberExamples.
Import JsNumber.
Example parseFloat_80 : parseFloat "80.0" = 80%float.
Proof. vm_compute. reflexivity. Qed.
Example parseFloat_frac : parseFloat "  -12.5e-1xyz" = (-1.25)%float.
Proof. vm_compute. reflexivity. Qed.
Example parseFloat_dot : parseFloat ".5" = 0.5%float.
Proof. vm_compute. reflexivity. Qed.
Example parseFloat_dot_only : parseFloat "." = nan.
Proof. vm_compute. reflexivity. Qed.
Example parseFloat_trailing_dot : parseFloat "7." = 7%float.
Proof. vm_compute. reflexivity. Qed.
Example parseFloat_junk : parseFloat "abc" = nan.
Proof. vm_compute. reflexivity. Qed.
Example parseFloat_huge : parseFloat "1e999" = infinity.
Proof. vm_compute. reflexivity. Qed.
Example parseInt_ts : parseInt "1700000000" = Some 1700000000.
Proof. vm_compute. reflexivity. Qed.
Example parseInt_hex : parseInt "0x1f" = Some 31.
Proof. vm_compute. reflexivity. Qed.
Example parseInt_nan : parseInt "" = None.
Proof. vm_compute. reflexivity. Qed.
Example max_neg_zero : Math_max 0 (-0) = 0%float.
Proof. vm_compute. reflexivity. Qed.
Example max_nan : Math_max 0 nan = nan.
Proof. vm_compute. reflexivity. Qed.
End JsNumberExamples.

(* ===================================================================== *)
(** ** Properties of the cache *)
(* ===================================================================== *)

Section CacheFacts.
Context {T : Type}.
Implicit Types (cache : gmap string (CacheEntry T)) (key : string) (value : T).

Lemma getCachedData_fresh cache key e now :
  cache !! key = Some e ->
  now - timestamp e < CACHE_DURATION ->
  getCachedData key now cache = (Some (data e), cache).
Proof.
  intros Hl Hfresh. unfold getCachedData. rewrite Hl.
  destruct (Z.ltb_spec (now - timestamp e) CACHE_DURATION) as [_|Hge]; [reflexivity|lia].
Qed.

Lemma getCachedData_stale cache key e now :
  cache !! key = Some e ->
  CACHE_DURATION <= now - timestamp e ->
  getCachedData key now cache = (None, delete key cache).
Proof.
  intros Hl Hstale. unfold getCachedData. rewrite Hl.
  destruct (Z.ltb_spec (now - timestamp e) CACHE_DURATION) as [Hlt|_]; [lia|reflexivity].
Qed.

Lemma getCachedData_absent cache key now :
  cache !! key = None ->
  getCachedData key now cache = (None, cache).
Proof.
  intros Hl. unfold getCachedData. rewrite Hl.
  f_equal. apply delete_id, Hl.
Qed.

Lemma getCachedData_other cache key key' now :
  key <> key' ->
  (getCachedData key now cache).2 !! key' = cache !! key'.
Proof.
  intros Hne. unfold getCachedData.
  destruct (cache !! key) as [e|]; [destruct (_ <? _)|]; simpl;
    rewrite ?lookup_delete_ne; auto.
Qed.

(** C4. For every key and value: a [get] at the instant of the [set], or
    at any instant less than the 60000 ms freshness window after it,
    returns the stored value and leaves the map as it is; a [get] once the
    window has elapsed returns absent and removes the entry. *)
Theorem get_after_set (cache : gmap string (CacheEntry T)) (key : string)
    (value : T) (t now : Z) :
  let stored := setCachedData key value t cache in
  CACHE_DURATION = 60000 /\
  getCachedData key t stored = (Some value, stored) /\
  (now - t < CACHE_DURATION ->
     getCachedData key now stored = (Some value, stored)) /\
  (CACHE_DURATION <= now - t ->
     getCachedData key now stored = (None, delete key stored) /\
     (getCachedData key now stored).2 !! key = None).
Proof.
  intros stored.
  assert (Hl : stored !! key = Some (mkCacheEntry value t))
    by apply lookup_insert_eq.
  split; [reflexivity|]. split; [|split].
  - apply (getCachedData_fresh _ _ _ _ Hl). simpl. unfold CACHE_DURATION. lia.
  - intros Hfresh. apply (getCachedData_fresh _ _ _ _ Hl). exact Hfresh.
  - intros Hstale.
    rewrite (getCachedData_stale _ _ _ _ Hl Hstale). split; [reflexivity|].
    simpl. apply lookup_delete_eq.
Qed.

End CacheFacts.

(** The entry is read back one millisecond before the window closes and is
    gone at 60000 ms. *)
Lemma get_after_set_witness :
  let stored := setCachedData "eth_price" 3000%float 1000 (∅ : gmap string (CacheEntry float)) in
  getCachedData "eth_price" 60999 stored = (Some 3000%float, stored) /\
  getCachedData "eth_price" 61000 stored = (None, delete "eth_price" stored).
Proof.
  intros stored.
  destruct (get_after_set (∅ : gmap string (CacheEntry float)) "eth_price" 3000%float 1000 60999)
    as (_ & _ & Hfresh & _).
  destruct (get_after_set (∅ : gmap string (CacheEntry float)) "eth_price" 3000%float 1000 61000)
    as (_ & _ & _ & Hstale).
  split.
  - apply Hfresh. unfold CACHE_DURATION. lia.
  - apply Hstale. unfold CACHE_DURATION. lia.
Defined.

(* ===================================================================== *)
(** ** Properties of the profit and loss estimate *)
(* ===================================================================== *)

(** The filter of the code keeps the token-asset transfers, and the loop
    reads recipients and amounts as the rule says. *)
Lemma tokenTxs_of_token_transfers (l : list Transaction) :
  tokenTxs_of l = token_transfers l.
Proof.
  unfold tokenTxs_of. induction l as [|tx l IH]; [reflexivity|].
  simpl. destruct (tx_asset tx); simpl; rewrite IH; reflexivity.
Qed.

(** The loop keeps two independent running sums: one over the transfers
    received, one over the others. *)
Lemma profit_fold publicKey (l : list Transaction) (a b : float) :
  fold_left (profit_step publicKey) l (a, b) =
  (fold_left (fun acc tx => (acc + amount_read tx)%float)
     (List.filter (received_by publicKey) l) a,
   fold_left (fun acc tx => (acc + amount_read tx)%float)
     (List.filter (fun tx => negb (received_by publicKey tx)) l) b).
Proof.
  revert a b. induction l as [|tx l IH]; intros a b; [reflexivity|].
  simpl. unfold profit_step at 2.
  change (is_recipient publicKey tx) with (received_by publicKey tx).
  change (token_amount tx) with (amount_read tx).
  destruct (received_by publicKey tx); simpl; apply IH.
Qed.

Lemma profit_totals publicKey (transactions : list Transaction) :
  fold_left (profit_step publicKey) (tokenTxs_of transactions) (0%float, 0%float) =
  (totalIn_spec publicKey transactions, totalOut_spec publicKey transactions).
Proof.
  unfold totalIn_spec, totalOut_spec, sum_amounts.
  rewrite <- tokenTxs_of_token_transfers. apply profit_fold.
Qed.

(** C1. [calculateTokenProfitLoss] keeps the token-asset transfers only.
    With none, the result is (0, 0). Otherwise, with [totalIn] the sum of
    the amounts received by the address (compared without case), [totalOut]
    the sum of the other amounts and [invested = totalIn - totalOut]: when
    [invested <= 0] the profit is the current balance and the percentage
    is 100 if [invested < 0] and 0 if not; otherwise the profit is
    [current - invested] and the percentage [profit / invested * 100].
    In particular 100 in, 0 out, balance 80 give (-20, -20), and 0 in,
    50 out, balance 10 give (10, 100). The token transfers, the recipients
    and the amounts are those of [token_transfers], [received_by] and
    [amount_read], which do not go through the code. *)
Theorem profit_loss_rule (transactions : list Transaction)
    (currentTokenBalance publicKey : string) :
  let tokenTxs := token_transfers transactions in
  let totalIn := totalIn_spec publicKey transactions in
  let totalOut := totalOut_spec publicKey transactions in
  let invested := (totalIn - totalOut)%float in
  let current := JsNumber.parseFloat currentTokenBalance in
  let r := calculateTokenProfitLoss transactions currentTokenBalance publicKey in
  (tokenTxs = [] -> r = mkProfitLoss 0 0) /\
  (tokenTxs <> [] -> (invested <=? 0)%float = true ->
     r = mkProfitLoss current (if (invested <? 0)%float then 100 else 0)) /\
  (tokenTxs <> [] -> (invested <=? 0)%float = false ->
     r = mkProfitLoss (current - invested) ((current - invested) / invested * 100)) /\
  (tokenTxs <> [] -> totalIn = 100%float -> totalOut = 0%float ->
     current = 80%float -> r = mkProfitLoss (-20) (-20)) /\
  (tokenTxs <> [] -> totalIn = 0%float -> totalOut = 50%float ->
     current = 10%float -> r = mkProfitLoss 10 100).
Proof.
  intros tokenTxs totalIn totalOut invested current r.
  assert (Hempty : tokenTxs = [] -> r = mkProfitLoss 0 0).
  { intros He. subst r. unfold calculateTokenProfitLoss.
    rewrite tokenTxs_of_token_transfers. fold tokenTxs. rewrite He. reflexivity. }
  assert (Hrule : tokenTxs <> [] ->
            r = if (invested <=? 0)%float
                then mkProfitLoss current (if (invested <? 0)%float then 100 else 0)
                else mkProfitLoss (current - invested)
                       ((current - invested) / invested * 100)).
  { intros Hne. subst r. unfold calculateTokenProfitLoss.
    rewrite profit_totals, tokenTxs_of_token_transfers. fold tokenTxs.
    simpl fst. simpl snd.
    destruct tokenTxs as [|tx l]; [congruence|]. reflexivity. }
  repeat split.
  - exact Hempty.
  - intros Hne Hle. rewrite (Hrule Hne), Hle. reflexivity.
  - intros Hne Hle. rewrite (Hrule Hne), Hle. reflexivity.
  - intros Hne Hin Hout Hcur. rewrite (Hrule Hne).
    subst invested. rewrite Hin, Hout, Hcur. reflexivity.
  - intros Hne Hin Hout Hcur. rewrite (Hrule Hne).
    subst invested. rewrite Hin, Hout, Hcur. reflexivity.
Qed.

(** C1 on four histories. A history of native records only gives (0, 0),
    also when one of them carries a token amount. The two boundary cases
    come out on histories that mix in such a record and a token record
    whose amount does not read as a number; the recipient is spelled in
    another case than the queried address. *)
Lemma profit_loss_rule_witness :
  calculateTokenProfitLoss [Sample.received_eth; Sample.mislabelled] "80.0" Sample.me
    = mkProfitLoss 0 0 /\
  calculateTokenProfitLoss
    [Sample.mislabelled; Sample.received_100; Sample.unreadable] "80.0" Sample.me
    = mkProfitLoss (-20) (-20) /\
  calculateTokenProfitLoss [Sample.sent_50; Sample.mislabelled] "10.0" Sample.me
    = mkProfitLoss 10 100.
Proof.
  split; [|split].
  - destruct (profit_loss_rule [Sample.received_eth; Sample.mislabelled] "80.0" Sample.me)
      as (H & _).
    apply H. reflexivity.
  - destruct (profit_loss_rule
                [Sample.mislabelled; Sample.received_100; Sample.unreadable]
                "80.0" Sample.me)
      as (_ & _ & _ & H & _).
    apply H; [discriminate|vm_compute; reflexivity|vm_compute; reflexivity
             |vm_compute; reflexivity].
  - destruct (profit_loss_rule [Sample.sent_50; Sample.mislabelled] "10.0" Sample.me)
      as (_ & _ & _ & _ & H).
    apply H; [discriminate|vm_compute; reflexivity|vm_compute; reflexivity
             |vm_compute; reflexivity].
Defined.

(* ===================================================================== *)
(** ** Running the actions: basic steps *)
(* ===================================================================== *)

Lemma state_eta (s : State) : mkState (cache s) (clock s) (trace s) = s.
Proof. destruct s; reflexivity. Qed.

(** A lookup that finds a fresh entry returns its value and changes
    nothing. *)
Lemma cache_get_fresh (s : State) (key : string) (e : CacheEntry CacheVal) :
  cache s !! key = Some e ->
  clock s - timestamp e < CACHE_DURATION ->
  cache_get key s = (Ok (Some (data e)), s).
Proof.
  intros Hl Hf. unfold cache_get.
  rewrite (getCachedData_fresh _ _ _ _ Hl Hf). rewrite state_eta. reflexivity.
Qed.

(* ===================================================================== *)
(** ** Properties of [getWalletBalance] *)
(* ===================================================================== *)

(** C10. When the cache holds a snapshot under the balance key of an
    address, stored less than 60000 ms ago, [getWalletBalance] returns that
    snapshot: it does not throw, issues no request and leaves the state as it
    is, whatever the address looks like and whatever [RPC_URL] is, since
    both checks come after the cache lookup. *)
Theorem cached_balance_returned_before_checks
    (formatUnits : BigNumberish -> UnitArg -> Res string)
    (toFixed : float -> Z -> string) (w : World)
    (s : State) (publicKey : string) (d : WalletData) (storedAt : Z) :
  cache s !! balance_key w publicKey = Some (mkCacheEntry (VWallet d) storedAt) ->
  clock s - storedAt < 60000 ->
  getWalletBalance formatUnits toFixed w publicKey s = (Ok d, s).
Proof.
  intros Hl Hf. unfold getWalletBalance, mbind, M_bind.
  rewrite (cache_get_fresh s _ _ Hl Hf). reflexivity.
Qed.

(** An address that fails the syntax check and an environment without
    [RPC_URL]: the cached snapshot is returned all the same, while the same
    call on an empty cache throws. *)
Lemma cached_balance_returned_before_checks_witness :
  let s := mkState {[ balance_key Sample.offline "nonsense" :=
                        mkCacheEntry (VWallet Sample.snapshot) 1000 ]} 60999 [] in
  invalid_address "nonsense" = true /\
  unconfigured (RPC_URL (env Sample.offline)) = true /\
  getWalletBalance Ethers.formatUnits Sample.toFixed Sample.offline "nonsense" s
    = (Ok Sample.snapshot, s) /\
  (getWalletBalance Ethers.formatUnits Sample.toFixed Sample.offline "nonsense"
     (mkState ∅ 60999 [])).1 = Throw (mkError "Invalid Ethereum address").
Proof.
  intros s. split; [reflexivity|]. split; [reflexivity|]. split.
  - apply (cached_balance_returned_before_checks Ethers.formatUnits Sample.toFixed
             Sample.offline s "nonsense" Sample.snapshot 1000).
    + apply lookup_singleton_eq.
    + simpl. lia.
  - vm_compute. reflexivity.
Defined.

(* ===================================================================== *)
(** ** Lists: mapping with exceptions, sorting *)
(* ===================================================================== *)

Section MapRes.
Context {A B : Type} (f : A -> Res B).

Lemma map_res_In (l : list A) (l' : list B) :
  map_res f l = Ok l' ->
  forall y, In y l' -> exists x, In x l /\ f x = Ok y.
Proof.
  revert l'. induction l as [|x l IH]; simpl; intros l' H y Hy.
  - injection H as <-. destruct Hy.
  - destruct (f x) as [b|e] eqn:Hx; [|discriminate].
    destruct (map_res f l) as [ys|e]; [|discriminate].
    injection H as <-. destruct Hy as [<-|Hy].
    + exists x. auto.
    + destruct (IH ys eq_refl y Hy) as (x' & Hin & Hfx). exists x'. auto.
Qed.


Lemma map_res_throws (l : list A) (x : A) (e : JsError) :
  In x l -> f x = Throw e -> exists e', map_res f l = Throw e'.
Proof.
  induction l as [|a l IH]; simpl; intros Hin Hx; [destruct Hin|].
  destruct Hin as [->|Hin].
  - rewrite Hx. eauto.
  - destruct (f a); [|eauto].
    destruct (IH Hin Hx) as (e' & ->). eauto.
Qed.

End MapRes.

Section SortFacts.
Context {A : Type} (cmp : A -> A -> option Z).

Lemma sort_insert_perm (x : A) (l : list A) :
  Permutation (sort_insert cmp x l) (x :: l).
Proof.
  induction l as [|y l IH]; simpl; [reflexivity|].
  destruct (keeps_before cmp x y); [reflexivity|].
  rewrite IH. apply perm_swap.
Qed.

Lemma Array_sort_perm (l : list A) : Permutation (Array_sort cmp l) l.
Proof.
  induction l as [|x l IH]; simpl; [reflexivity|].
  rewrite sort_insert_perm. constructor. exact IH.
Qed.


End SortFacts.






Lemma In_firstn {A : Type} (n : nat) (l : list A) (x : A) :
  In x (firstn n l) -> In x l.
Proof.
  intros H. rewrite <- (firstn_skipn n l). apply in_or_app. left. exact H.
Qed.


Lemma StronglySorted_firstn {A : Type} (R : A -> A -> Prop) (n : nat) (l : list A) :
  StronglySorted R l -> StronglySorted R (firstn n l).
Proof.
  intros Hs. revert n. induction Hs as [|x l Hs IH Hx]; intros [|n]; simpl;
    try constructor; [apply IH|].
  rewrite List.Forall_forall in *. intros y Hy. apply Hx.
  eapply In_firstn; exact Hy.
Qed.


(* ===================================================================== *)
(** ** Running [getTransactionHistory] *)
(* ===================================================================== *)

Lemma cache_get_run (key : string) (s : State) :
  cache_get key s = (Ok (cache_lookup key s), after_lookup key s).
Proof.
  unfold cache_get, cache_lookup, after_lookup.
  destruct (getCachedData key (clock s) (cache s)); reflexivity.
Qed.

Lemma after_lookup_clock key s : clock (after_lookup key s) = clock s.
Proof. reflexivity. Qed.

Lemma after_lookup_trace key s : trace (after_lookup key s) = trace s.
Proof. reflexivity. Qed.

Section HistoryFacts.
Variable formatUnits : BigNumberish -> UnitArg -> Res string.
Variable w : World.
Implicit Types (s : State) (publicKey : string) (tokenDecimals : Z).

(** The [try] block, step by step: both requests settle, then the kept
    records of each response are converted, merged, sorted and capped, and
    the result is cached. *)
Lemma fetch_transactions_run publicKey tokenDecimals s :
  fetch_transactions formatUnits w publicKey tokenDecimals
    (JsString.interpolate (ETHERSCAN_API_KEY (env w))) s =
  let s1 := after_requests w publicKey s in
  let a := etherscan w (clock s) (txlist_request w publicKey) in
  let b := etherscan w (clock s) (tokentx_request w publicKey) in
  match outcome a, outcome b with
  | Ok r1, Ok r2 =>
      match map_res (eth_transaction formatUnits publicKey) (kept 10 r1) with
      | Ok eth =>
          match map_res (token_transaction formatUnits publicKey tokenDecimals)
                  (kept 20 r2) with
          | Ok tok =>
              let out := firstn 30 (Array_sort newest_first (eth ++ tok)) in
              (Ok out,
               mkState (setCachedData (tx_key w publicKey) (VTxs out) (clock s1) (cache s1))
                       (clock s1) (trace s1))
          | Throw e => (Throw e, s1)
          end
      | Throw e => (Throw e, s1)
      end
  | Throw e, Ok _ => (Throw e, s1)
  | Ok _, Throw e => (Throw e, s1)
  | Throw e1, Throw e2 =>
      (Throw (if (elapsed a <=? elapsed b)%N then e1 else e2), s1)
  end.
Proof.
  unfold fetch_transactions, after_requests, txlist_request, tokentx_request.
  unfold mbind, M_bind, await, both, request, lift, cache_set, mret, M_ret.
  cbv zeta.
  destruct (outcome (etherscan w (clock s) _)) as [r1|e1] eqn:Ha;
    destruct (outcome (etherscan w (clock s) (GetTokenTx _ _ _ _))) as [r2|e2] eqn:Hb;
    simpl; try reflexivity.
  destruct (elapsed _ <=? elapsed _)%N; reflexivity.
Qed.

(** The whole function on a cache miss. *)
Lemma getTransactionHistory_miss publicKey tokenDecimals s :
  cache_lookup (tx_key w publicKey) s = None ->
  getTransactionHistory formatUnits w publicKey tokenDecimals s =
  let s0 := after_lookup (tx_key w publicKey) s in
  if unconfigured (ETHERSCAN_API_KEY (env w)) then (Ok [], s0)
  else
    match fetch_transactions formatUnits w publicKey tokenDecimals
            (JsString.interpolate (ETHERSCAN_API_KEY (env w))) s0 with
    | (Ok l, s') => (Ok l, s')
    | (Throw _, s') => (Ok [], s')
    end.
Proof.
  intros Hmiss. unfold getTransactionHistory, mbind, M_bind.
  rewrite cache_get_run, Hmiss. cbv zeta.
  destruct (unconfigured _); [reflexivity|].
  unfold try_catch.
  destruct (fetch_transactions _ _ _ _ _ _) as [[l|e] s']; reflexivity.
Qed.

(** [getTransactionHistory] returns a list from every state: no exception
    leaves it. *)
Lemma getTransactionHistory_total publicKey tokenDecimals s :
  exists l s', getTransactionHistory formatUnits w publicKey tokenDecimals s = (Ok l, s').
Proof.
  unfold getTransactionHistory, mbind, M_bind. rewrite cache_get_run.
  assert (Hfetch : exists l s',
            (if unconfigured (ETHERSCAN_API_KEY (env w))
             then mret []
             else try_catch
                    (fetch_transactions formatUnits w publicKey tokenDecimals
                       (JsString.interpolate (ETHERSCAN_API_KEY (env w))))
                    (fun _ => mret []))
              (after_lookup (tx_key w publicKey) s) = (Ok l, s')).
  { destruct (unconfigured _); [eexists _, _; reflexivity|].
    unfold try_catch.
    destruct (fetch_transactions _ _ _ _ _ _) as [[l|e] s']; eexists _, _; reflexivity. }
  destruct (cache_lookup _ s) as [[x|d|l|c|p c]|]; try exact Hfetch.
  eexists _, _; reflexivity.
Qed.

End HistoryFacts.

Section HistoryClaims.
Variable formatUnits : BigNumberish -> UnitArg -> Res string.
Variable w : World.
Implicit Types (s : State) (publicKey : string) (tokenDecimals : Z).

Lemma fetch_transactions_failure publicKey tokenDecimals s :
  history_failure formatUnits w publicKey tokenDecimals s ->
  exists e,
    fetch_transactions formatUnits w publicKey tokenDecimals
      (JsString.interpolate (ETHERSCAN_API_KEY (env w))) s
    = (Throw e, after_requests w publicKey s).
Proof.
  intros Hfail. rewrite fetch_transactions_run. cbv zeta.
  unfold history_failure in Hfail. cbv zeta in Hfail.
  destruct (outcome (etherscan w (clock s) (txlist_request w publicKey))) as [r1|e1];
    destruct (outcome (etherscan w (clock s) (tokentx_request w publicKey))) as [r2|e2];
    try (eexists; reflexivity).
  destruct Hfail as [(e & He)|[(e & He)|[(r & x & e & Hr & Hin & Hx)|(r & x & e & Hr & Hin & Hx)]]];
    try discriminate.
  - injection Hr as <-.
    destruct (map_res_throws _ _ _ _ Hin Hx) as (e' & ->). eexists; reflexivity.
  - injection Hr as <-.
    destruct (map_res _ (kept 10 r1)); [|eexists; reflexivity].
    destruct (map_res_throws _ _ _ _ Hin Hx) as (e' & ->). eexists; reflexivity.
Qed.

(** C7. [getTransactionHistory] never raises: from every state it returns
    a list. When no fresh history is cached and the ledger-API credential
    is absent or a placeholder, it returns the empty list at once, without
    a request. When the credential is set and a request fails (it is
    rejected, or a kept record cannot be converted), it returns the empty
    list as well. *)
Theorem history_never_raises publicKey tokenDecimals s :
  (exists l s',
     getTransactionHistory formatUnits w publicKey tokenDecimals s = (Ok l, s')) /\
  (cache_lookup (tx_key w publicKey) s = None ->
   unconfigured (ETHERSCAN_API_KEY (env w)) = true ->
   getTransactionHistory formatUnits w publicKey tokenDecimals s
     = (Ok [], after_lookup (tx_key w publicKey) s) /\
   trace (after_lookup (tx_key w publicKey) s) = trace s) /\
  (cache_lookup (tx_key w publicKey) s = None ->
   unconfigured (ETHERSCAN_API_KEY (env w)) = false ->
   history_failure formatUnits w publicKey tokenDecimals s ->
   getTransactionHistory formatUnits w publicKey tokenDecimals s
     = (Ok [], after_requests w publicKey (after_lookup (tx_key w publicKey) s))).
Proof.
  split; [apply getTransactionHistory_total|]. split.
  - intros Hmiss Hun. rewrite (getTransactionHistory_miss _ _ _ _ _ Hmiss).
    cbv zeta. rewrite Hun. split; reflexivity.
  - intros Hmiss Hcfg Hfail. rewrite (getTransactionHistory_miss _ _ _ _ _ Hmiss).
    cbv zeta. rewrite Hcfg.
    destruct (fetch_transactions_failure publicKey tokenDecimals
                (after_lookup (tx_key w publicKey) s)) as (e & ->);
      [exact Hfail|reflexivity].
Qed.

End HistoryClaims.

(** A ledger-level status other than ['1'] is not a failure of the
    request: the records of the other answer are returned. *)
Example ledger_status_0_keeps_other_answer :
  (getTransactionHistory Ethers.formatUnits
     (Sample.ledger Sample.no_records (Sample.answer [Sample.raw_out; Sample.raw_in]) 0)
     Sample.me 6 Sample.start).1 = Ok [Sample.tx_out; Sample.tx_in].
Proof. vm_compute. reflexivity. Qed.

(** Three runs from an empty cache: without a credential nothing is
    requested; with a credential and an unreachable ledger API, and with a
    record that lacks its recipient, the answer is the empty list. *)
Lemma history_never_raises_witness :
  getTransactionHistory Ethers.formatUnits Sample.offline Sample.me 6 Sample.start
    = (Ok [], Sample.start) /\
  (getTransactionHistory Ethers.formatUnits
     (Sample.ledger (Throw (mkError "timeout of 10000ms exceeded")) Sample.no_records 0)
     Sample.me 6 Sample.start).1 = Ok [] /\
  (getTransactionHistory Ethers.formatUnits
     (Sample.ledger (Sample.answer [Sample.raw_native; Sample.raw_no_recipient])
                    Sample.no_records 0)
     Sample.me 6 Sample.start).1 = Ok [].
Proof.
  split; [|split].
  - destruct (history_never_raises Ethers.formatUnits Sample.offline Sample.me 6 Sample.start)
      as (_ & H & _).
    destruct H as [H _]; [reflexivity|reflexivity|]. rewrite H. reflexivity.
  - destruct (history_never_raises Ethers.formatUnits
                (Sample.ledger (Throw (mkError "timeout of 10000ms exceeded"))
                               Sample.no_records 0)
                Sample.me 6 Sample.start) as (_ & _ & H).
    rewrite H; [reflexivity|reflexivity|reflexivity|].
    left. eexists. reflexivity.
  - destruct (history_never_raises Ethers.formatUnits
                (Sample.ledger (Sample.answer [Sample.raw_native; Sample.raw_no_recipient])
                               Sample.no_records 0)
                Sample.me 6 Sample.start) as (_ & _ & H).
    rewrite H; [reflexivity|reflexivity|reflexivity|].
    right. right. left.
    exists (mkEtherscanResponse "1" (Some [Sample.raw_native; Sample.raw_no_recipient])),
           Sample.raw_no_recipient.
    eexists. split; [reflexivity|]. split; [simpl; auto|]. vm_compute. reflexivity.
Defined.

Section HistoryContents.
Variable formatUnits : BigNumberish -> UnitArg -> Res string.
Variable w : World.
Implicit Types (s : State) (publicKey : string) (tokenDecimals : Z).

(** The run in which both requests are answered and every kept record is
    converted. *)
Lemma getTransactionHistory_success publicKey tokenDecimals s r1 r2 eth tok :
  cache_lookup (tx_key w publicKey) s = None ->
  unconfigured (ETHERSCAN_API_KEY (env w)) = false ->
  outcome (etherscan w (clock s) (txlist_request w publicKey)) = Ok r1 ->
  outcome (etherscan w (clock s) (tokentx_request w publicKey)) = Ok r2 ->
  map_res (eth_transaction formatUnits publicKey) (kept 10 r1) = Ok eth ->
  map_res (token_transaction formatUnits publicKey tokenDecimals) (kept 20 r2) = Ok tok ->
  getTransactionHistory formatUnits w publicKey tokenDecimals s =
  let s1 := after_requests w publicKey (after_lookup (tx_key w publicKey) s) in
  let out := firstn 30 (Array_sort newest_first (eth ++ tok)) in
  (Ok out,
   mkState (setCachedData (tx_key w publicKey) (VTxs out) (clock s1) (cache s1))
           (clock s1) (trace s1)).
Proof.
  intros Hmiss Hcfg Ha Hb Heth Htok.
  rewrite (getTransactionHistory_miss _ _ _ _ _ Hmiss). cbv zeta. rewrite Hcfg.
  rewrite fetch_transactions_run. cbv zeta.
  rewrite after_lookup_clock, Ha, Hb, Heth, Htok. reflexivity.
Qed.





End HistoryContents.



Section HistoryRecords.
Variable formatUnits : BigNumberish -> UnitArg -> Res string.
Variable w : World.
Implicit Types (s : State) (publicKey : string) (tokenDecimals : Z).

Lemma eth_transaction_shape publicKey (raw : RawTx) (tx : Transaction) :
  eth_transaction formatUnits publicKey raw = Ok tx ->
  tx_asset tx = ETH /\ tx_tokenValue tx = "0" /\
  formatEther formatUnits (BStr (raw_value raw)) = Ok (tx_value tx).
Proof.
  unfold eth_transaction, mbind, Res_bind, recipient_of.
  destruct (formatEther _ _) as [v|e]; [|discriminate].
  destruct (raw_to raw) as [a|]; [|discriminate].
  intros H. injection H as <-. auto.
Qed.

Lemma token_transaction_shape publicKey tokenDecimals (raw : RawTx) (tx : Transaction) :
  token_transaction formatUnits publicKey tokenDecimals raw = Ok tx ->
  tx_asset tx = TOKEN /\ tx_value tx = "0" /\
  formatUnits (BStr (raw_value raw)) (decimals_arg raw tokenDecimals)
    = Ok (tx_tokenValue tx).
Proof.
  unfold token_transaction, mbind, Res_bind, recipient_of.
  destruct (raw_to raw) as [a|]; [|discriminate].
  destruct (formatUnits _ _) as [v|e]; [|discriminate].
  intros H. injection H as <-. auto.
Qed.

(** Every record a fresh run returns was built from a kept raw record of
    one of the two answers. *)
Lemma history_records_built publicKey tokenDecimals s l tx :
  cache_lookup (tx_key w publicKey) s = None ->
  (getTransactionHistory formatUnits w publicKey tokenDecimals s).1 = Ok l ->
  In tx l ->
  (exists raw, eth_transaction formatUnits publicKey raw = Ok tx) \/
  (exists raw, token_transaction formatUnits publicKey tokenDecimals raw = Ok tx).
Proof.
  intros Hmiss. rewrite (getTransactionHistory_miss _ _ _ _ _ Hmiss). cbv zeta.
  destruct (unconfigured _).
  { simpl. intros H. injection H as <-. intros []. }
  rewrite fetch_transactions_run. cbv zeta.
  destruct (outcome (etherscan w _ (txlist_request w publicKey))) as [r1|e1];
    destruct (outcome (etherscan w _ (tokentx_request w publicKey))) as [r2|e2];
    try (simpl; intros H; injection H as <-; intros []).
  destruct (map_res (eth_transaction _ _) _) as [eth|e] eqn:Heth;
    [|simpl; intros H; injection H as <-; intros []].
  destruct (map_res (token_transaction _ _ _) _) as [tok|e] eqn:Htok;
    [|simpl; intros H; injection H as <-; intros []].
  simpl. intros H. injection H as <-. intros Hin.
  apply In_firstn in Hin.
  apply (Permutation_in _ (Array_sort_perm newest_first (eth ++ tok))) in Hin.
  apply in_app_or in Hin. destruct Hin as [Hin|Hin].
  - left. destruct (map_res_In _ _ _ Heth tx Hin) as (raw & _ & Hraw). eauto.
  - right. destruct (map_res_In _ _ _ Htok tx Hin) as (raw & _ & Hraw). eauto.
Qed.

(** Every record a fresh run returns was built from a kept raw record of
    the answer to the request of its asset. *)
Lemma history_records_from publicKey tokenDecimals s l tx :
  cache_lookup (tx_key w publicKey) s = None ->
  (getTransactionHistory formatUnits w publicKey tokenDecimals s).1 = Ok l ->
  In tx l ->
  exists raw, kept_record w publicKey s (tx_asset tx) raw /\
              built_from formatUnits publicKey tokenDecimals raw tx.
Proof.
  intros Hmiss. rewrite (getTransactionHistory_miss _ _ _ _ _ Hmiss). cbv zeta.
  destruct (unconfigured _).
  { simpl. intros H. injection H as <-. intros []. }
  rewrite fetch_transactions_run. cbv zeta. rewrite after_lookup_clock.
  destruct (outcome (etherscan w _ (txlist_request w publicKey))) as [r1|e1] eqn:Ha;
    destruct (outcome (etherscan w _ (tokentx_request w publicKey))) as [r2|e2] eqn:Hb;
    try (simpl; intros H; injection H as <-; intros []).
  destruct (map_res (eth_transaction _ _) _) as [eth|e] eqn:Heth;
    [|simpl; intros H; injection H as <-; intros []].
  destruct (map_res (token_transaction _ _ _) _) as [tok|e] eqn:Htok;
    [|simpl; intros H; injection H as <-; intros []].
  simpl. intros H. injection H as <-. intros Hin.
  apply In_firstn in Hin.
  apply (Permutation_in _ (Array_sort_perm newest_first (eth ++ tok))) in Hin.
  apply in_app_or in Hin. destruct Hin as [Hin|Hin].
  - destruct (map_res_In _ _ _ Heth tx Hin) as (raw & Hraw & Hbuilt).
    pose proof (eth_transaction_shape _ _ _ Hbuilt) as (Hasset & _).
    exists raw. unfold kept_record, built_from. rewrite Hasset.
    split; [exists r1; auto|exact Hbuilt].
  - destruct (map_res_In _ _ _ Htok tx Hin) as (raw & Hraw & Hbuilt).
    pose proof (token_transaction_shape _ _ _ _ Hbuilt) as (Hasset & _).
    exists raw. unfold kept_record, built_from. rewrite Hasset.
    split; [exists r2; auto|exact Hbuilt].
Qed.

(** C6, as the code has it. Every record built by [getTransactionHistory]
    carries the literal ['0'] as the amount of the asset it is not about:
    a native record has token amount ['0'], a token record has native
    amount ['0']. So the two amounts are never both non-zero, and the asset
    tag says which one may be. The record was built from a kept raw record
    of the answer for its asset, and the amount of its own asset is the
    formatted value of that raw record: [formatEther] of it for a native
    record, [formatUnits] of it with the record's or the default decimals
    for a token record. When the raw value is 0 and [formatUnits] prints 0
    as a string that reads as zero, as the one of ethers does, the record
    has no non-zero amount at all. *)
Theorem history_other_amount_zero publicKey tokenDecimals s l :
  cache_lookup (tx_key w publicKey) s = None ->
  (getTransactionHistory formatUnits w publicKey tokenDecimals s).1 = Ok l ->
  forall tx, In tx l ->
    other_amount_zero tx /\
    (amount_nonzero (tx_value tx) && amount_nonzero (tx_tokenValue tx) = false) /\
    (one_amount_nonzero tx =
       match tx_asset tx with
       | ETH => amount_nonzero (tx_value tx)
       | TOKEN => amount_nonzero (tx_tokenValue tx)
       end) /\
    (exists raw, kept_record w publicKey s (tx_asset tx) raw /\
                 built_from formatUnits publicKey tokenDecimals raw tx) /\
    (forall raw, built_from formatUnits publicKey tokenDecimals raw tx ->
       match tx_asset tx with
       | ETH => formatEther formatUnits (BStr (raw_value raw)) = Ok (tx_value tx)
       | TOKEN => formatUnits (BStr (raw_value raw)) (decimals_arg raw tokenDecimals)
                  = Ok (tx_tokenValue tx)
       end /\
       (formats_zero formatUnits -> raw_value raw = "0" ->
        one_amount_nonzero tx = false)).
Proof.
  intros Hmiss Hrun tx Hin.
  destruct (history_records_from _ _ _ _ _ Hmiss Hrun Hin) as (raw0 & Hkept & Hbuilt0).
  assert (Hshape : other_amount_zero tx /\
            match tx_asset tx with
            | ETH => tx_tokenValue tx = "0"
            | TOKEN => tx_value tx = "0"
            end).
  { unfold built_from in Hbuilt0. destruct (tx_asset tx) eqn:Ha.
    - apply eth_transaction_shape in Hbuilt0. destruct Hbuilt0 as (_ & Hz & _).
      unfold other_amount_zero. rewrite Ha. auto.
    - apply token_transaction_shape in Hbuilt0. destruct Hbuilt0 as (_ & Hz & _).
      unfold other_amount_zero. rewrite Ha. auto. }
  destruct Hshape as (Hother & Hz).
  split; [exact Hother|].
  assert (Hone : one_amount_nonzero tx =
            match tx_asset tx with
            | ETH => amount_nonzero (tx_value tx)
            | TOKEN => amount_nonzero (tx_tokenValue tx)
            end).
  { unfold one_amount_nonzero. destruct (tx_asset tx); rewrite Hz;
      change (amount_nonzero "0") with false; simpl;
      [apply andb_true_r|reflexivity]. }
  split.
  { destruct (tx_asset tx); rewrite Hz; change (amount_nonzero "0") with false;
      [apply andb_false_r|reflexivity]. }
  split; [exact Hone|]. split; [exists raw0; auto|].
  intros raw Hbuilt. unfold built_from in Hbuilt. rewrite Hone.
  destruct (tx_asset tx).
  - apply eth_transaction_shape in Hbuilt. destruct Hbuilt as (_ & _ & Hv).
    split; [exact Hv|]. intros Hzero Hraw. rewrite Hraw in Hv. exact (Hzero _ _ Hv).
  - apply token_transaction_shape in Hbuilt. destruct Hbuilt as (_ & _ & Hv).
    split; [exact Hv|]. intros Hzero Hraw. rewrite Hraw in Hv. exact (Hzero _ _ Hv).
Qed.

(** A history fetched through a [formatUnits] whose results read as
    finite numbers has finite token amounts. *)
Lemma fresh_history_finite_amounts publicKey tokenDecimals s l :
  (forall v u str, formatUnits v u = Ok str ->
     is_finite (JsNumber.or_else (JsNumber.parseFloat str) 0) = true) ->
  cache_lookup (tx_key w publicKey) s = None ->
  (getTransactionHistory formatUnits w publicKey tokenDecimals s).1 = Ok l ->
  finite_amounts (tokenTxs_of l).
Proof.
  intros Hfmt Hmiss Hrun. unfold finite_amounts, tokenTxs_of.
  rewrite List.Forall_forall. intros tx Htx.
  apply filter_In in Htx. destruct Htx as [Hin Htoken].
  destruct (history_records_built _ _ _ _ _ Hmiss Hrun Hin) as [(raw & H)|(raw & H)].
  - apply eth_transaction_shape in H. destruct H as (Ha & _).
    rewrite Ha in Htoken. discriminate.
  - apply token_transaction_shape in H. destruct H as (_ & _ & Hv).
    unfold token_amount. eapply Hfmt, Hv.
Qed.

End HistoryRecords.

(** The ethers model prints 0 as ["0"], ["0."] or ["0.0"], whatever the
    unit. *)
Lemma Ethers_formats_zero : formats_zero Ethers.formatUnits.
Proof.
  intros unit str. unfold Ethers.formatUnits, mbind, Res_bind.
  destruct (Ethers.decimals_of unit) as [d|e]; [|discriminate].
  destruct (Z.ltb_spec 80 d) as [|Hd]; [discriminate|].
  change (Ethers.getBigInt (BStr "0")) with (@Ok Z 0).
  change (Ethers.in_range 0) with true. cbv iota.
  intros H. injection H as <-.
  destruct d as [|p|p]; [reflexivity| |reflexivity].
  assert (Hall : forallb (fun n => negb (amount_nonzero
                                           (Ethers.fixed_toString 0 (Z.of_nat n))))
                         (seq 1 80) = true) by (vm_compute; reflexivity).
  rewrite forallb_forall in Hall.
  specialize (Hall (Pos.to_nat p)). rewrite positive_nat_Z in Hall.
  apply negb_true_iff, Hall, in_seq. lia.
Qed.

(** On the sample records: the token record [tx_out] has native amount
    ['0'] and a non-zero token amount; the native record [tx_call], built
    from a raw value of 0, has no non-zero amount. *)
Lemma history_other_amount_zero_witness :
  tx_asset Sample.tx_out = TOKEN /\ tx_value Sample.tx_out = "0" /\
  one_amount_nonzero Sample.tx_out = true /\
  tx_value Sample.tx_call = "0.0" /\ one_amount_nonzero Sample.tx_call = false.
Proof.
  destruct (history_other_amount_zero Ethers.formatUnits Sample.busy Sample.me 6
              Sample.start
              [Sample.tx_call; Sample.tx_out; Sample.tx_native; Sample.tx_in])
    with (tx := Sample.tx_out) as (Hz & _).
  { reflexivity. }
  { vm_compute. reflexivity. }
  { simpl. auto. }
  destruct (history_other_amount_zero Ethers.formatUnits Sample.busy Sample.me 6
              Sample.start
              [Sample.tx_call; Sample.tx_out; Sample.tx_native; Sample.tx_in])
    with (tx := Sample.tx_call) as (_ & _ & _ & _ & Hown).
  { reflexivity. }
  { vm_compute. reflexivity. }
  { simpl. auto. }
  destruct (Hown Sample.raw_call) as (_ & Hnone); [vm_compute; reflexivity|].
  split; [reflexivity|]. split; [exact Hz|]. split; [vm_compute; reflexivity|].
  split; [reflexivity|]. apply Hnone; [exact Ethers_formats_zero|reflexivity].
Defined.

(** C6 fails on a native record whose [value] is zero, such as a contract
    call: [formatEther] gives ["0.0"], the token amount is ['0'], and
    neither amount is non-zero. *)
Lemma zero_value_record_has_no_amount :
  (getTransactionHistory Ethers.formatUnits
     (Sample.ledger (Sample.answer [Sample.raw_call]) Sample.no_records 0)
     Sample.me 6 Sample.start).1 = Ok [Sample.tx_call] /\
  tx_asset Sample.tx_call = ETH /\
  amount_nonzero (tx_value Sample.tx_call) = false /\
  amount_nonzero (tx_tokenValue Sample.tx_call) = false /\
  one_amount_nonzero Sample.tx_call = false.
Proof. repeat split; vm_compute; reflexivity. Qed.

(* ===================================================================== *)
(** ** Properties of [withdrawFunds] *)
(* ===================================================================== *)

(** The run issued no request. *)
Ltac issued_nothing :=
  exists []; simpl; rewrite app_nil_r;
  split; [reflexivity|intros ? ? ? ? []].

(** The run issued the balance read and nothing else. *)
Ltac issued_balance_read contract wallet :=
  exists [CallBalanceOf contract wallet]; simpl;
  split; [reflexivity|intros ? ? ? ? [H|[]]; discriminate].

Section WithdrawFacts.
Variable parseUnits : string -> Z -> Res Z.
Variable Wallet_address : string -> Res string.
Variable out_of_bounds : Z -> JsError.
Variable w : World.

(** C8. Once the call has reached the balance check (the recipient has
    the syntax of an address, the signing key and the token contract are
    configured, the wallet's token balance has been read and the amount
    converted to token units), an amount above the balance gives
    [{success: false, error: "Insufficient balance"}]: the balance read is
    the only request issued and the cache is untouched. Moreover, from any
    state and for any arguments, a transfer is submitted only after the
    balance was read and found to be at least the amount. *)
Theorem withdraw_insufficient_balance (s : State) (toAddress amount : string)
    (wallet contract : string) (balance amountInUnits : Z) :
  let run := withdrawFunds parseUnits Wallet_address out_of_bounds w toAddress amount s in
  (invalid_address toAddress = false ->
   unconfigured (WALLET_PRIVATE_KEY (env w)) = false ->
   Wallet_address (JsString.interpolate (WALLET_PRIVATE_KEY (env w))) = Ok wallet ->
   getTokenContract w = Ok contract ->
   outcome (rpc_bigint w (clock s) (CallBalanceOf contract wallet)) = Ok balance ->
   parseUnits amount 6 = Ok amountInUnits ->
   balance < amountInUnits ->
   run.1 = Ok (mkTransferResult false None (Some "Insufficient balance")) /\
   trace run.2 = trace s ++ [CallBalanceOf contract wallet] /\
   cache run.2 = cache s) /\
  (exists issued, trace run.2 = trace s ++ issued /\
     forall c signer recipient a, In (SendTransfer c signer recipient a) issued ->
       exists b,
         outcome (rpc_bigint w (clock s) (CallBalanceOf c signer)) = Ok b /\
         parseUnits amount 6 = Ok a /\ a <= b).
Proof.
  intros run. subst run. split.
  - intros Haddr Hkey Hwallet Hcontract Hbal Hamount Hlt.
    unfold withdrawFunds. rewrite Haddr, Hkey, Hwallet, Hcontract.
    unfold try_catch, mbind, M_bind, lift, await, request. simpl.
    rewrite Hbal, Hamount. simpl.
    destruct (Z.ltb_spec balance amountInUnits) as [_|Hge]; [|lia].
    simpl. auto.
  - unfold withdrawFunds.
    destruct (invalid_address toAddress); [issued_nothing|].
    destruct (unconfigured (WALLET_PRIVATE_KEY (env w))); [issued_nothing|].
    unfold try_catch, mbind, M_bind, lift, transfer, await, request, race_timeout.
    destruct (Wallet_address _) as [wallet'|e]; [|issued_nothing].
    destruct (getTokenContract w) as [contract'|e]; [|issued_nothing].
    simpl.
    destruct (outcome (rpc_bigint w (clock s) (CallBalanceOf contract' wallet')))
      as [b|e] eqn:Hb; [|issued_balance_read contract' wallet'].
    simpl. destruct (parseUnits amount 6) as [a0|e] eqn:Ha;
      [|issued_balance_read contract' wallet'].
    simpl. destruct (Z.ltb_spec b a0) as [Hlt|Hge];
      [issued_balance_read contract' wallet'|].
    simpl.
    assert (Hsent : forall c signer recipient a more,
              (forall x, In x more -> exists h, x = WaitReceipt h) ->
              In (SendTransfer c signer recipient a)
                 (CallBalanceOf contract' wallet'
                    :: SendTransfer contract' wallet' toAddress a0 :: more) ->
              exists b0,
                outcome (rpc_bigint w (clock s) (CallBalanceOf c signer)) = Ok b0 /\
                Ok a0 = Ok a /\ a <= b0).
    { intros c signer recipient a more Hmore [H|[H|H]].
      - discriminate.
      - injection H as <- <- <- <-. exists b. auto.
      - destruct (Hmore _ H) as (h & Hh). discriminate. }
    destruct (fits_uint256 a0); [|issued_balance_read contract' wallet'].
    destruct (outcome (rpc_string w _ (SendTransfer contract' wallet' toAddress a0)))
      as [hash|e].
    2:{ exists [CallBalanceOf contract' wallet';
                SendTransfer contract' wallet' toAddress a0].
        simpl. rewrite <- app_assoc. split; [reflexivity|].
        intros c signer recipient a Hin.
        apply (Hsent c signer recipient a []); [intros ? []|exact Hin]. }
    simpl.
    exists [CallBalanceOf contract' wallet';
            SendTransfer contract' wallet' toAddress a0; WaitReceipt hash].
    split.
    + destruct (elapsed _ <? 60000)%N; simpl;
        [destruct (outcome (rpc_bigint w _ (WaitReceipt hash))) as [st|e]; simpl;
           [destruct (st =? 1); simpl|]|];
        rewrite <- !app_assoc; reflexivity.
    + intros c signer recipient a Hin.
      apply (Hsent c signer recipient a [WaitReceipt hash]); [|exact Hin].
      intros x [<-|[]]. eauto.
Qed.

End WithdrawFacts.

(** The wallet holds 80 tokens (80000000 base units): a withdrawal of 100
    is refused after the balance read, and a withdrawal of 50 goes
    through. *)
Lemma withdraw_insufficient_balance_witness :
  let run := withdrawFunds Ethers.parseUnits Sample.Wallet_address
      Sample.out_of_bounds Sample.busy
               Sample.other "100" Sample.start in
  run.1 = Ok (mkTransferResult false None (Some "Insufficient balance")) /\
  trace run.2 = [CallBalanceOf Sample.token Sample.wallet] /\
  (withdrawFunds Ethers.parseUnits Sample.Wallet_address Sample.out_of_bounds Sample.busy
     Sample.other "50" Sample.start).1 = Ok (mkTransferResult true (Some "0xc1") None).
Proof.
  intros run.
  destruct (withdraw_insufficient_balance Ethers.parseUnits Sample.Wallet_address
      Sample.out_of_bounds
              Sample.busy Sample.start Sample.other "100"
              Sample.wallet Sample.token 80000000 100000000) as [H _].
  destruct H as (Hr & Ht & _); try reflexivity.
  split; [exact Hr|]. split; [exact Ht|]. vm_compute. reflexivity.
Defined.

(* ===================================================================== *)
(** ** Binary64 facts: a running balance of finite amounts is a number *)
(* ===================================================================== *)

Lemma Prim2SF_not_nan (x : float) : is_nan x = false <-> SF_not_nan (Prim2SF x).
Proof.
  unfold SF_not_nan, Prim2SF. split.
  - intros ->. destruct (is_zero x); [discriminate|].
    destruct (is_infinity x); [discriminate|].
    destruct (Z.frexp x) as [r ex].
    destruct (shr_fexp _ _ _ _ _) as [sh e'].
    destruct (shr_m sh); discriminate.
  - destruct (is_nan x); [congruence|reflexivity].
Qed.

Lemma Prim2SF_finite (x : float) : is_finite x = true -> SF_finite (Prim2SF x).
Proof.
  unfold is_finite, SF_finite, Prim2SF.
  destruct (is_nan x); [discriminate|]. simpl.
  destruct (is_infinity x); [discriminate|]. intros _.
  destruct (is_zero x); [exact I|].
  destruct (Z.frexp x) as [r ex].
  destruct (shr_fexp _ _ _ _ _) as [sh e'].
  destruct (shr_m sh); exact I.
Qed.

Lemma iter_pos_invariant {A : Type} (P : A -> Prop) (f : A -> A) :
  (forall x, P x -> P (f x)) ->
  forall (p : positive) (x : A), P x -> P (SpecFloat.iter_pos f p x).
Proof.
  intros Hf. induction p as [p IH|p IH|]; intros x Hx; simpl; auto.
Qed.

Lemma shr_1_nonneg (mrs : shr_record) : 0 <= shr_m mrs -> 0 <= shr_m (shr_1 mrs).
Proof.
  destruct mrs as [m r s]. simpl.
  destruct m as [|[p|p|]|p]; simpl; lia.
Qed.

Lemma shr_fexp_nonneg (m e : Z) (l : location) :
  0 <= m -> 0 <= shr_m (shr_fexp prec emax m e l).1.
Proof.
  intros Hm. unfold shr_fexp, shr.
  assert (H0 : 0 <= shr_m (shr_record_of_loc m l)).
  { destruct l as [|[| |]]; exact Hm. }
  destruct (fexp prec emax (Zdigits2 m + e) - e) as [|p|p]; simpl; try exact H0.
  apply (iter_pos_invariant (fun mrs => 0 <= shr_m mrs)); [apply shr_1_nonneg|exact H0].
Qed.

Lemma round_nearest_even_nonneg (m : Z) (l : location) :
  0 <= m -> 0 <= round_nearest_even m l.
Proof.
  intros Hm. destruct l as [|[| |]]; simpl; try lia.
  destruct (Z.even m); lia.
Qed.

Lemma binary_round_aux_not_nan (sx : bool) (mx ex : Z) (lx : location) :
  0 <= mx -> SF_not_nan (binary_round_aux prec emax sx mx ex lx).
Proof.
  intros Hm. unfold SF_not_nan, binary_round_aux.
  pose proof (shr_fexp_nonneg mx ex lx Hm) as H1.
  destruct (shr_fexp prec emax mx ex lx) as [mrs' e']. simpl in H1.
  pose proof (shr_fexp_nonneg _ e' loc_Exact
                (round_nearest_even_nonneg _ (loc_of_shr_record mrs') H1)) as H2.
  destruct (shr_fexp prec emax _ e' loc_Exact) as [mrs'' e'']. simpl in H2.
  destruct (shr_m mrs'') as [|m|m]; [discriminate| |lia].
  destruct (e'' <=? emax - prec); discriminate.
Qed.

Lemma binary_normalize_not_nan (m e : Z) (szero : bool) :
  SF_not_nan (binary_normalize prec emax m e szero).
Proof.
  unfold binary_normalize, binary_round.
  destruct m as [|p|p]; [discriminate| |];
    destruct (shl_align _ _ _) as [mz ez]; apply binary_round_aux_not_nan; lia.
Qed.

Lemma SFadd_not_nan (x y : spec_float) :
  SF_not_nan x -> SF_finite y -> SF_not_nan (SFadd prec emax x y).
Proof.
  unfold SF_not_nan.
  destruct x as [sx|sx| |sx mx ex], y as [sy|sy| |sy my ey]; simpl;
    try congruence; try tauto; intros _ _;
    try (destruct sx, sy; discriminate).
  apply binary_normalize_not_nan.
Qed.

Lemma SFsub_not_nan (x y : spec_float) :
  SF_not_nan x -> SF_finite y -> SF_not_nan (SFsub prec emax x y).
Proof.
  unfold SF_not_nan.
  destruct x as [sx|sx| |sx mx ex], y as [sy|sy| |sy my ey]; simpl;
    try congruence; try tauto; intros _ _;
    try (destruct sx, sy; discriminate).
  apply binary_normalize_not_nan.
Qed.

Lemma add_not_nan (x y : float) :
  is_nan x = false -> is_finite y = true -> is_nan (x + y) = false.
Proof.
  intros Hx Hy. apply Prim2SF_not_nan. rewrite add_spec.
  apply SFadd_not_nan; [apply Prim2SF_not_nan, Hx|apply Prim2SF_finite, Hy].
Qed.

Lemma sub_not_nan (x y : float) :
  is_nan x = false -> is_finite y = true -> is_nan (x - y) = false.
Proof.
  intros Hx Hy. apply Prim2SF_not_nan. rewrite sub_spec.
  apply SFsub_not_nan; [apply Prim2SF_not_nan, Hx|apply Prim2SF_finite, Hy].
Qed.

Lemma ltb_leb (x y : float) : (x <? y)%float = true -> (x <=? y)%float = true.
Proof.
  rewrite ltb_spec, leb_spec. unfold SFltb, SFleb.
  destruct (SFcompare _ _) as [[| |]|]; congruence.
Qed.

(** [Math.max(0, x)] is at least 0 as soon as [x] is a number. *)
Lemma Math_max_nonneg (x : float) :
  is_nan x = false -> (0 <=? JsNumber.Math_max 0 x)%float = true.
Proof.
  intros Hx. unfold JsNumber.Math_max. rewrite Hx.
  change (is_nan 0) with false. simpl orb. cbv iota.
  destruct (0 <? x)%float eqn:Hlt; [apply ltb_leb, Hlt|].
  destruct (x <? 0)%float; reflexivity.
Qed.

(* ===================================================================== *)
(** ** The chart: counting and ordering the points *)
(* ===================================================================== *)

Lemma chart_loop_length (point : nat -> ChartDataPoint) (n : nat) :
  List.length (chart_loop point n) = S n.
Proof. induction n as [|n IH]; simpl in *; [reflexivity|]. f_equal. exact IH. Qed.

Lemma chart_loop_In (point : nat -> ChartDataPoint) (n : nat) (p : ChartDataPoint) :
  In p (chart_loop point n) -> exists k, (k <= n)%nat /\ p = point k.
Proof.
  induction n as [|n IH]; simpl.
  - intros [<-|[]]. exists 0%nat. auto.
  - intros [<-|Hin]; [exists (S n); auto|].
    destruct (IH Hin) as (k & Hk & ->). exists k. split; [lia|reflexivity].
Qed.

(** [Math.max(0, x)] is never below 0, whatever [x] is. *)
Lemma Math_max_never_negative (x : float) :
  (JsNumber.Math_max 0 x <? 0)%float = false.
Proof.
  unfold JsNumber.Math_max. change (is_nan 0) with false. simpl orb.
  destruct (is_nan x); [reflexivity|].
  destruct (0 <? x)%float eqn:Hlt.
  - rewrite ltb_spec in *. change (Prim2SF 0) with (S754_zero false) in *.
    destruct (Prim2SF x) as [sx|sx| |sx mx ex]; try discriminate;
      destruct sx; try discriminate; reflexivity.
  - destruct (x <? 0)%float; reflexivity.
Qed.

Lemma chart_loop_never_negative (now timeRange : Z) (intervals : nat)
    (l : list Transaction) (i : nat) :
  never_negative (chart_loop (chart_point now timeRange intervals l) i).
Proof.
  unfold never_negative. rewrite List.Forall_forall. intros p Hp.
  apply chart_loop_In in Hp. destruct Hp as (k & _ & ->).
  apply Math_max_never_negative.
Qed.

Lemma empty_chart_length (now : Z) (period : Period) :
  List.length (empty_chart now period) = intervals_of period.
Proof. unfold empty_chart. rewrite length_map, length_seq. reflexivity. Qed.

(** The bucket counts of the six periods. *)
Lemma intervals_of_period (period : Period) :
  intervals_of period =
  match period with
  | P1H => 12 | P6H => 24 | P1D => 48
  | P1W | P1M | PAll => 50
  end%nat.
Proof. destruct period; reflexivity. Qed.

(** Each lookback is a whole number of buckets, so the division in the
    timestamp of a bucket boundary is exact. *)
Lemma range_divisible (period : Period) :
  let n := Z.of_nat (intervals_of period) in
  let step := range_of period / n in
  0 < n /\ 0 < step /\ range_of period = step * n.
Proof. destruct period; vm_compute; auto. Qed.

Lemma boundary_exact (period : Period) (i : nat) :
  let n := Z.of_nat (intervals_of period) in
  let range := range_of period in
  Z.of_nat i * range / n = Z.of_nat i * (range / n).
Proof.
  intros n range.
  destruct (range_divisible period) as (Hn & _ & Hr). fold n range in Hn, Hr.
  rewrite Hr at 1. rewrite Z.mul_assoc, Z.div_mul by lia. reflexivity.
Qed.

Lemma map_seq_ascending (f : nat -> Z) (a n : nat) :
  (forall i j, (i < j)%nat -> f i < f j) ->
  StronglySorted Z.lt (map f (seq a n)).
Proof.
  intros Hf. revert a. induction n as [|n IH]; intros a; simpl; constructor.
  - apply IH.
  - rewrite List.Forall_forall. intros z Hz.
    apply in_map_iff in Hz. destruct Hz as (j & <- & Hj).
    apply in_seq in Hj. apply Hf. lia.
Qed.

Lemma empty_chart_ascending (now : Z) (period : Period) :
  ascending (empty_chart now period).
Proof.
  unfold ascending, empty_chart. rewrite map_map. simpl.
  apply map_seq_ascending. intros i j Hij.
  destruct (range_divisible period) as (_ & Hstep & _). cbv zeta in Hstep. nia.
Qed.

Lemma empty_chart_nonnegative (now : Z) (period : Period) :
  nonnegative (empty_chart now period) /\ never_negative (empty_chart now period).
Proof.
  unfold nonnegative, never_negative, empty_chart.
  split; rewrite List.Forall_forall; intros p Hp;
    apply in_map_iff in Hp; destruct Hp as (i & <- & _); reflexivity.
Qed.

Lemma chart_loop_ascending (now : Z) (period : Period) (l : list Transaction) (i : nat) :
  ascending (chart_loop
               (chart_point now (range_of period)
                  (intervals_of period) l) i).
Proof.
  unfold ascending. induction i as [|i IH]; simpl.
  - constructor; constructor.
  - constructor; [exact IH|].
    rewrite List.Forall_forall. intros z Hz.
    apply in_map_iff in Hz. destruct Hz as (p & <- & Hp).
    apply chart_loop_In in Hp. destruct Hp as (k & Hk & ->).
    unfold chart_point. simpl cp_timestamp.
    rewrite (boundary_exact period (S i)), (boundary_exact period k).
    destruct (range_divisible period) as (_ & Hstep & _). cbv zeta in Hstep. nia.
Qed.

(** Replaying finite amounts never produces NaN. *)
Lemma replay_not_nan (timestamp : Z) (l : list Transaction) (acc : float) :
  finite_amounts l -> is_nan acc = false ->
  is_nan (fold_left (replay_step timestamp) l acc) = false.
Proof.
  intros Hl. revert acc. induction Hl as [|tx l Htx Hl IH]; intros acc Hacc; simpl.
  - exact Hacc.
  - apply IH. unfold replay_step.
    destruct (JsNumber.time_leb _ _); [|exact Hacc].
    destruct (TransactionType_eqb _ _);
      [apply add_not_nan|apply sub_not_nan]; assumption.
Qed.

Lemma chart_loop_nonnegative (now timeRange : Z) (intervals : nat)
    (l : list Transaction) (i : nat) :
  finite_amounts l ->
  nonnegative (chart_loop (chart_point now timeRange intervals l) i).
Proof.
  intros Hl. unfold nonnegative. rewrite List.Forall_forall. intros p Hp.
  apply chart_loop_In in Hp. destruct Hp as (k & _ & ->).
  unfold chart_point. simpl cp_value.
  apply Math_max_nonneg, replay_not_nan; [exact Hl|reflexivity].
Qed.

Section ChartFacts.
Variable formatUnits : BigNumberish -> UnitArg -> Res string.
Variable w : World.
Implicit Types (s : State) (publicKey : string) (period : Period).

(** [getChartData] on a cache miss, given what the history fetch returns:
    the placeholder when the history holds no token transfer, the replayed
    series (which is cached) when it holds one. *)
Lemma getChartData_miss publicKey period s txs s1 :
  cache_lookup (chart_key w publicKey period) s = None ->
  getTransactionHistory formatUnits w publicKey 6
    (after_lookup (chart_key w publicKey period) s) = (Ok txs, s1) ->
  getChartData formatUnits w publicKey period s =
  if (List.length (tokenTxs_of txs) =? 0)%nat
  then (Ok (empty_chart (clock s1) period), s1)
  else
    let points :=
      chart_loop (chart_point (clock s1) (range_of period)
                    (intervals_of period) (tokenTxs_of txs))
                 (intervals_of period) in
    (Ok points,
     mkState (setCachedData (chart_key w publicKey period) (VChart points)
                (clock s1) (cache s1))
             (clock s1) (trace s1)).
Proof.
  intros Hmiss Hhist. unfold getChartData, mbind, M_bind.
  rewrite cache_get_run, Hmiss. cbv zeta. unfold try_catch.
  rewrite Hhist.
  destruct (List.length (tokenTxs_of txs) =? 0)%nat; reflexivity.
Qed.

End ChartFacts.

Section ChartClaims.
Variable formatUnits : BigNumberish -> UnitArg -> Res string.
Variable w : World.
Implicit Types (s : State) (publicKey : string) (period : Period).

(** C2, as the code has it. On a cache miss, for every period and whatever
    history the fetch returns, [getChartData] returns [intervals + 1]
    points when the history holds a token transfer, and [intervals] points,
    the placeholder series, when it holds none; [intervals] is 12, 24, 48,
    50, 50, 50 for 1H, 6H, 1D, 1W, 1M, All. *)
Theorem chart_point_count publicKey period s :
  cache_lookup (chart_key w publicKey period) s = None ->
  let intervals := intervals_of period in
  intervals = match period with
              | P1H => 12 | P6H => 24 | P1D => 48
              | P1W | P1M | PAll => 50
              end%nat /\
  exists txs s1 points s2,
    getTransactionHistory formatUnits w publicKey 6
      (after_lookup (chart_key w publicKey period) s) = (Ok txs, s1) /\
    getChartData formatUnits w publicKey period s = (Ok points, s2) /\
    List.length points =
      if (List.length (tokenTxs_of txs) =? 0)%nat then intervals else S intervals.
Proof.
  intros Hmiss intervals. split; [apply intervals_of_period|].
  destruct (getTransactionHistory_total formatUnits w publicKey 6
              (after_lookup (chart_key w publicKey period) s)) as (txs & s1 & Hhist).
  exists txs, s1.
  rewrite (getChartData_miss _ _ _ _ _ _ _ Hmiss Hhist).
  destruct (List.length (tokenTxs_of txs) =? 0)%nat; eexists _, _;
    (split; [exact Hhist|split; [reflexivity|]]).
  - apply empty_chart_length.
  - apply chart_loop_length.
Qed.

(** C3, as the code has it. On a cache miss with no token transfer in the
    history and the period 1D, [getChartData] returns the placeholder
    series: 48 points, each of value 1000, 30 minutes apart, the first one
    24 hours and the last one 30 minutes before the current time. Nothing
    is cached. *)
Theorem empty_chart_one_day publicKey s txs s1 :
  cache_lookup (chart_key w publicKey P1D) s = None ->
  getTransactionHistory formatUnits w publicKey 6
    (after_lookup (chart_key w publicKey P1D) s) = (Ok txs, s1) ->
  tokenTxs_of txs = [] ->
  exists points,
    getChartData formatUnits w publicKey P1D s = (Ok points, s1) /\
    List.length points = 48%nat /\
    forall i, (i < 48)%nat ->
      nth_error points i =
      Some (mkChartDataPoint 1000 (clock s1 - 86400000 + Z.of_nat i * 1800000)).
Proof.
  intros Hmiss Hhist Hnone.
  rewrite (getChartData_miss _ _ _ _ _ _ _ Hmiss Hhist), Hnone. simpl Nat.eqb. cbv iota.
  eexists. split; [reflexivity|]. split; [apply empty_chart_length|].
  intros i Hi. unfold empty_chart.
  rewrite nth_error_map, nth_error_seq.
  change (intervals_of P1D) with 48%nat.
  destruct (Nat.ltb_spec i 48) as [_|Hge]; [|lia]. simpl.
  change (range_of P1D / Z.of_nat 48) with 1800000.
  f_equal. f_equal. lia.
Qed.

(** C9. On a cache miss, the series [getChartData] returns, replayed or
    placeholder, has strictly ascending timestamps and no value below 0:
    the replayed balance goes through [Math.max(0, _)] and the placeholder
    value is 1000. When the token amounts of the history are finite
    numbers, as amounts formatted from on-chain integers are, the running
    balance is a number and every value is at least 0. *)
Theorem chart_ascending_nonnegative publicKey period s txs s1 :
  cache_lookup (chart_key w publicKey period) s = None ->
  getTransactionHistory formatUnits w publicKey 6
    (after_lookup (chart_key w publicKey period) s) = (Ok txs, s1) ->
  exists points s2,
    getChartData formatUnits w publicKey period s = (Ok points, s2) /\
    ascending points /\
    never_negative points /\
    (finite_amounts (tokenTxs_of txs) -> nonnegative points).
Proof.
  intros Hmiss Hhist.
  rewrite (getChartData_miss _ _ _ _ _ _ _ Hmiss Hhist).
  destruct (List.length (tokenTxs_of txs) =? 0)%nat; eexists _, _;
    (split; [reflexivity|]).
  - split; [apply empty_chart_ascending|].
    split; [apply empty_chart_nonnegative|intros _; apply empty_chart_nonnegative].
  - split; [apply chart_loop_ascending|].
    split; [apply chart_loop_never_negative|apply chart_loop_nonnegative].
Qed.

End ChartClaims.

(** With the two sample token transfers in the history, the one-hour
    chart has 13 points; with an empty history it has 12. *)
Lemma chart_point_count_witness :
  points_returned (getChartData Ethers.formatUnits Sample.busy Sample.me P1H Sample.start)
    = Some 13%nat /\
  points_returned (getChartData Ethers.formatUnits Sample.offline Sample.me P1H Sample.start)
    = Some 12%nat.
Proof.
  split.
  - destruct (chart_point_count Ethers.formatUnits Sample.busy Sample.me P1H Sample.start)
      as (_ & txs & s1 & points & s2 & Hh & Hrun & Hlen); [reflexivity|].
    vm_compute in Hh. injection Hh as <- <-.
    unfold points_returned. rewrite Hrun. cbn. rewrite Hlen. reflexivity.
  - destruct (chart_point_count Ethers.formatUnits Sample.offline Sample.me P1H Sample.start)
      as (_ & txs & s1 & points & s2 & Hh & Hrun & Hlen); [reflexivity|].
    vm_compute in Hh. injection Hh as <- <-.
    unfold points_returned. rewrite Hrun. cbn. rewrite Hlen. reflexivity.
Defined.

(** C2 fails on the empty history: the placeholder series has [intervals]
    points, one fewer than claimed, for each of the six periods. *)
Lemma empty_history_chart_has_intervals_points :
  map (fun period =>
         points_returned
           (getChartData Ethers.formatUnits Sample.offline Sample.me period Sample.start))
      all_periods
  = [Some 12; Some 24; Some 48; Some 50; Some 50; Some 50]%nat /\
  map (fun period => Some (intervals_of period + 1)%nat) all_periods
  = [Some 13; Some 25; Some 49; Some 51; Some 51; Some 51]%nat.
Proof. split; vm_compute; reflexivity. Qed.

(** The placeholder of the one-day chart in a world without credential:
    48 points from 24 hours to 30 minutes before the current time. *)
Lemma empty_chart_one_day_witness :
  exists points,
    getChartData Ethers.formatUnits Sample.offline Sample.me P1D Sample.start
      = (Ok points, Sample.start) /\
    List.length points = 48%nat /\
    nth_error points 0 = Some (mkChartDataPoint 1000 (1700000500000 - 86400000)) /\
    nth_error points 47 = Some (mkChartDataPoint 1000 (1700000500000 - 1800000)).
Proof.
  destruct (empty_chart_one_day Ethers.formatUnits Sample.offline Sample.me
              Sample.start [] Sample.start) as (points & Hrun & Hlen & Hnth);
    [reflexivity|reflexivity|reflexivity|].
  exists points. split; [exact Hrun|]. split; [exact Hlen|]. split.
  - rewrite (Hnth 0%nat) by lia. reflexivity.
  - rewrite (Hnth 47%nat) by lia. reflexivity.
Defined.

(** C3 fails on its count: with an empty history and the period 1D the
    series has 48 points, not 49, and ends 30 minutes before the current
    time. *)
Lemma empty_one_day_chart_has_48_points :
  points_returned
    (getChartData Ethers.formatUnits Sample.offline Sample.me P1D Sample.start)
  = Some 48%nat /\
  Some 48%nat <> Some 49%nat /\
  match (getChartData Ethers.formatUnits Sample.offline Sample.me P1D Sample.start).1 with
  | Ok points => option_map cp_timestamp (last points)
                 = Some (clock Sample.start - 1800000)
  | Throw _ => False
  end.
Proof.
  split; [vm_compute; reflexivity|]. split; [discriminate|].
  vm_compute. reflexivity.
Qed.

(** The one-hour chart over the two sample token transfers. *)
Lemma chart_ascending_nonnegative_witness :
  exists points s2,
    getChartData Ethers.formatUnits Sample.busy Sample.me P1H Sample.start
      = (Ok points, s2) /\
    ascending points /\ nonnegative points /\
    option_map cp_value (last points) = Some 50%float.
Proof.
  destruct (chart_ascending_nonnegative Ethers.formatUnits Sample.busy Sample.me P1H
              Sample.start
              [Sample.tx_call; Sample.tx_out; Sample.tx_native; Sample.tx_in]
              (getTransactionHistory Ethers.formatUnits Sample.busy Sample.me 6
                 (after_lookup (chart_key Sample.busy Sample.me P1H) Sample.start)).2)
    as (points & s2 & Hrun & Hasc & _ & Hnn); [reflexivity|vm_compute; reflexivity|].
  exists points, s2. split; [exact Hrun|]. split; [exact Hasc|]. split.
  - apply Hnn. repeat constructor.
  - vm_compute in Hrun. injection Hrun as <- _. vm_compute. reflexivity.
Defined.

(* ===================================================================== *)
(** ** More on the cache: other keys, repeated reads, overwriting *)
(* ===================================================================== *)

Section CacheMore.
Context {T : Type}.
Implicit Types (cache : gmap string (CacheEntry T)) (key : string).

(** X1. Writing, reading or deleting one key never changes what a read of
    another key returns. *)
Theorem cache_other_key_unaffected cache key key' (v : T) (t now now' : Z) :
  key <> key' ->
  (getCachedData key' now (setCachedData key v t cache)).1
    = (getCachedData key' now cache).1 /\
  (getCachedData key' now (getCachedData key now' cache).2).1
    = (getCachedData key' now cache).1 /\
  (getCachedData key' now (delete key cache)).1
    = (getCachedData key' now cache).1.
Proof.
  intros Hne.
  assert (Hread : forall c : gmap string (CacheEntry T),
            c !! key' = cache !! key' ->
            (getCachedData key' now c).1 = (getCachedData key' now cache).1).
  { intros c Hc. unfold getCachedData. rewrite Hc.
    destruct (cache !! key') as [e|]; [destruct (_ <? _)|]; reflexivity. }
  split; [|split]; apply Hread.
  - apply lookup_insert_ne, Hne.
  - apply getCachedData_other, Hne.
  - apply lookup_delete_ne, Hne.
Qed.

(** X2. A read settles the key: the same read on the map it leaves
    returns the same answer and changes nothing more; and once a read has
    returned absent, every later read of that map returns absent, whatever
    the time. *)
Theorem cache_read_settles cache key (now later : Z) :
  let r := (getCachedData key now cache).1 in
  let c1 := (getCachedData key now cache).2 in
  getCachedData key now c1 = (r, c1) /\
  (r = None -> getCachedData key later c1 = (None, c1)).
Proof.
  intros r c1. subst r c1.
  destruct (cache !! key) as [e|] eqn:Hl;
    [destruct (Z.ltb_spec (now - timestamp e) CACHE_DURATION) as [Hf|Hs]|].
  - rewrite (getCachedData_fresh _ _ _ _ Hl Hf). simpl.
    split; [apply getCachedData_fresh; assumption|discriminate].
  - rewrite (getCachedData_stale _ _ _ _ Hl Hs). simpl.
    assert (Hd : delete key cache !! key = None) by apply lookup_delete_eq.
    split; [|intros _]; apply getCachedData_absent, Hd.
  - rewrite (getCachedData_absent _ _ _ Hl). simpl.
    split; [|intros _]; apply getCachedData_absent, Hl.
Qed.

(** X3. A second write under a key replaces the first: the map is the one
    the second write alone would give, and the freshness window runs from
    the second write, however old the first one was. *)
Theorem cache_set_overwrites cache key (v1 v2 : T) (t1 t2 now : Z) :
  now - t2 < CACHE_DURATION ->
  let c2 := setCachedData key v2 t2 (setCachedData key v1 t1 cache) in
  c2 = setCachedData key v2 t2 cache /\
  getCachedData key now c2 = (Some v2, c2).
Proof.
  intros Hf c2. subst c2. unfold setCachedData. rewrite insert_insert_eq.
  split; [reflexivity|].
  apply (getCachedData_fresh _ _ (mkCacheEntry v2 t2)); [apply lookup_insert_eq|exact Hf].
Qed.

End CacheMore.

Lemma cache_other_key_unaffected_witness :
  (getCachedData "eth_price" 5000
     (setCachedData "tx_a_1" 7%float 4000 {[ "eth_price" := mkCacheEntry 3000%float 1000 ]})).1
  = Some 3000%float.
Proof.
  destruct (cache_other_key_unaffected
              ({[ "eth_price" := mkCacheEntry 3000%float 1000 ]} : gmap string (CacheEntry float))
              "tx_a_1" "eth_price" 7%float 4000 5000 0) as (H & _); [discriminate|].
  rewrite H. reflexivity.
Defined.

Lemma cache_set_overwrites_witness :
  let c2 := setCachedData "k" 2%float 100000
              (setCachedData "k" 1%float 0 (∅ : gmap string (CacheEntry float))) in
  getCachedData "k" 100001 c2 = (Some 2%float, c2).
Proof.
  intros c2.
  destruct (cache_set_overwrites (∅ : gmap string (CacheEntry float)) "k"
              1%float 2%float 0 100000 100001) as (_ & H).
  - unfold CACHE_DURATION. lia.
  - exact H.
Defined.

(* ===================================================================== *)
(** ** Running the actions: binds and lookups *)
(* ===================================================================== *)

Lemma bind_Ok_inv {A B : Type} (m : M A) (f : A -> M B) (s s' : State) (b : B) :
  (m ≫= f) s = (Ok b, s') ->
  exists a s0, m s = (Ok a, s0) /\ f a s0 = (Ok b, s').
Proof.
  unfold mbind, M_bind. destruct (m s) as [[a|e] s0]; [eauto|discriminate].
Qed.

Lemma cache_lookup_None_absent (key : string) (s : State) :
  cache_lookup key s = None -> cache (after_lookup key s) !! key = None.
Proof.
  unfold cache_lookup, after_lookup, getCachedData. simpl.
  destruct (cache s !! key) as [e|] eqn:Hl; [destruct (_ <? _)|]; simpl;
    try discriminate; intros _; apply lookup_delete_eq.
Qed.

Lemma cache_lookup_Some_fresh (key : string) (s : State) (v : CacheVal) :
  cache_lookup key s = Some v ->
  after_lookup key s = s /\
  exists e, cache s !! key = Some e /\ data e = v /\
            clock s - timestamp e < CACHE_DURATION.
Proof.
  unfold cache_lookup, after_lookup, getCachedData.
  destruct (cache s !! key) as [e|] eqn:Hl; [|discriminate].
  destruct (Z.ltb_spec (clock s - timestamp e) CACHE_DURATION) as [Hf|Hs];
    [|discriminate].
  simpl. intros H. injection H as <-. split; [apply state_eta|eauto].
Qed.

Lemma after_lookup_other (key k : string) (s : State) :
  key <> k -> cache (after_lookup key s) !! k = cache s !! k.
Proof. intros Hne. apply getCachedData_other, Hne. Qed.

(** An entry stored at the current time is found by the next lookup. *)
Lemma cache_lookup_stored (key : string) (v : CacheVal) (c : gmap string (CacheEntry CacheVal))
    (t now : Z) (tr : list Request) :
  now - t < CACHE_DURATION ->
  cache_lookup key (mkState (setCachedData key v t c) now tr) = Some v.
Proof.
  intros Hf. unfold cache_lookup. simpl.
  rewrite (getCachedData_fresh _ _ (mkCacheEntry v t)); [reflexivity| |exact Hf].
  apply lookup_insert_eq.
Qed.

(* ===================================================================== *)
(** ** Properties of [getEthPrice] *)
(* ===================================================================== *)

Lemma getEthPrice_run (w : World) (s : State) :
  getEthPrice w s =
  match cached_price s with
  | Some p => (Ok p, after_lookup "eth_price" s)
  | None =>
      let s1 := after_price_request w s in
      match outcome (coingecko w (clock s) GetPrice) with
      | Ok price =>
          (Ok price,
           mkState (setCachedData "eth_price" (VNum price) (clock s1) (cache s1))
                   (clock s1) (trace s1))
      | Throw _ => (Ok 3000%float, s1)
      end
  end.
Proof.
  unfold getEthPrice, cached_price, after_price_request, mbind, M_bind.
  rewrite cache_get_run. cbv zeta.
  destruct (cache_lookup "eth_price" s) as [[p|d|l|c|p c]|];
    [destruct (JsNumber.truthy p); [reflexivity|]|..];
    unfold try_catch, await, request, cache_set, mret, M_ret; simpl;
    destruct (outcome (coingecko w (clock s) GetPrice)); reflexivity.
Qed.

(** No usable price in the cache now, none later as long as nothing is
    written. *)
Lemma cached_price_stays_none (s s2 : State) :
  cached_price s = None ->
  cache s2 = cache (after_lookup "eth_price" s) ->
  cached_price s2 = None.
Proof.
  unfold cached_price, cache_lookup, after_lookup, getCachedData. simpl.
  intros Hnone ->.
  destruct (cache s !! "eth_price") as [e|] eqn:Hl;
    [destruct (clock s - timestamp e <? CACHE_DURATION)|]; simpl in *;
    rewrite ?lookup_delete_eq, ?Hl; try reflexivity.
  destruct (clock s2 - timestamp e <? CACHE_DURATION); [exact Hnone|reflexivity].
Qed.

(** X4. [getEthPrice] never raises. When the cache holds no usable price
    and the quote request fails, it returns the fallback 3000 and stores
    nothing, so the next call asks the quote service again. *)
Theorem eth_price_fallback (w : World) (s : State) :
  (exists p s', getEthPrice w s = (Ok p, s')) /\
  (cached_price s = None ->
   forall e, outcome (coingecko w (clock s) GetPrice) = Throw e ->
     getEthPrice w s = (Ok 3000%float, after_price_request w s) /\
     trace (after_price_request w s) = trace s ++ [GetPrice] /\
     cached_price (after_price_request w s) = None).
Proof.
  rewrite getEthPrice_run. split.
  - destruct (cached_price s); [eauto|]. cbv zeta.
    destruct (outcome _); eauto.
  - intros Hnone e He. rewrite Hnone, He. cbv zeta.
    split; [reflexivity|]. split; [reflexivity|].
    apply (cached_price_stays_none s); [exact Hnone|reflexivity].
Qed.

Lemma eth_price_fallback_witness :
  getEthPrice Sample.offline Sample.start
  = (Ok 3000%float, mkState ∅ 1700000500000 [GetPrice]).
Proof.
  destruct (eth_price_fallback Sample.offline Sample.start) as (_ & H).
  destruct (H eq_refl (mkError "Network Error") eq_refl) as (Hrun & _).
  rewrite Hrun. reflexivity.
Defined.

(** X5. When the cache holds no usable price and the quote service
    answers, the quoted price is returned and stored. A truthy price is
    then served from the cache, without a request, to every call made less
    than 60000 ms later; a price of 0 is stored too but never served: the
    next call asks again. *)
Theorem eth_price_reused (w : World) (s : State) (p : float) :
  cached_price s = None ->
  outcome (coingecko w (clock s) GetPrice) = Ok p ->
  let s1 := (getEthPrice w s).2 in
  (getEthPrice w s).1 = Ok p /\
  (JsNumber.truthy p = true ->
   forall s2, cache s2 = cache s1 -> clock s2 - clock s1 < CACHE_DURATION ->
     getEthPrice w s2 = (Ok p, s2)) /\
  (JsNumber.truthy p = false ->
   forall s2, cache s2 = cache s1 -> cached_price s2 = None).
Proof.
  intros Hnone Hp s1. subst s1. rewrite (getEthPrice_run w s), Hnone, Hp. cbv zeta.
  simpl. split; [reflexivity|]. split.
  - intros Ht s2 Hc Hfresh. rewrite getEthPrice_run.
    assert (Hl : cache_lookup "eth_price" s2 = Some (VNum p)).
    { unfold cache_lookup. rewrite Hc.
      rewrite (getCachedData_fresh _ _ (mkCacheEntry (VNum p) (clock (after_price_request w s))));
        [reflexivity|apply lookup_insert_eq|exact Hfresh]. }
    unfold cached_price. rewrite Hl, Ht.
    destruct (cache_lookup_Some_fresh _ _ _ Hl) as (-> & _). reflexivity.
  - intros Hf s2 Hc. unfold cached_price, cache_lookup, getCachedData.
    rewrite Hc. unfold setCachedData. rewrite lookup_insert_eq. simpl.
    destruct (_ <? _); simpl; [rewrite Hf|]; reflexivity.
Qed.

Lemma eth_price_reused_witness :
  let s1 := (getEthPrice Sample.busy Sample.start).2 in
  (getEthPrice Sample.busy Sample.start).1 = Ok 3000%float /\
  trace s1 = [GetPrice] /\
  getEthPrice Sample.busy s1 = (Ok 3000%float, s1).
Proof.
  intros s1.
  destruct (eth_price_reused Sample.busy Sample.start 3000%float eq_refl eq_refl)
    as (H1 & H2 & _).
  split; [exact H1|]. split; [reflexivity|].
  apply H2; [reflexivity|reflexivity|]. vm_compute. reflexivity.
Defined.

(* ===================================================================== *)
(** ** More on [getTransactionHistory] *)
(* ===================================================================== *)

Section HistoryMore.
Variable formatUnits : BigNumberish -> UnitArg -> Res string.
Variable w : World.
Implicit Types (s : State) (publicKey : string) (tokenDecimals : Z).

Lemma getTransactionHistory_run publicKey tokenDecimals s :
  getTransactionHistory formatUnits w publicKey tokenDecimals s =
  match cache_lookup (tx_key w publicKey) s with
  | Some (VTxs l) => (Ok l, after_lookup (tx_key w publicKey) s)
  | _ => history_on_miss formatUnits w publicKey tokenDecimals
           (after_lookup (tx_key w publicKey) s)
  end.
Proof.
  unfold getTransactionHistory, history_on_miss, mbind, M_bind.
  rewrite cache_get_run.
  destruct (cache_lookup _ s) as [[x|d|l|c|p c]|]; try reflexivity;
    (destruct (unconfigured _); [reflexivity|]; unfold try_catch;
     destruct (fetch_transactions _ _ _ _ _ _) as [[l'|e] s']; reflexivity).
Qed.

(** The history fetch writes under its own key only. *)
Lemma history_on_miss_frame publicKey tokenDecimals s0 (k : string) :
  k <> tx_key w publicKey ->
  cache (history_on_miss formatUnits w publicKey tokenDecimals s0).2 !! k
  = cache s0 !! k.
Proof.
  intros Hne. unfold history_on_miss.
  destruct (unconfigured _); [reflexivity|].
  rewrite fetch_transactions_run. cbv zeta.
  destruct (outcome (etherscan w _ (txlist_request w publicKey))) as [r1|e1];
    destruct (outcome (etherscan w _ (tokentx_request w publicKey))) as [r2|e2];
    try reflexivity.
  destruct (map_res (eth_transaction _ _) _) as [eth|e]; [|reflexivity].
  destruct (map_res (token_transaction _ _ _) _) as [tok|e]; [|reflexivity].
  simpl. unfold setCachedData. apply lookup_insert_ne. congruence.
Qed.

Lemma getTransactionHistory_frame publicKey tokenDecimals s (k : string) :
  k <> tx_key w publicKey ->
  cache (getTransactionHistory formatUnits w publicKey tokenDecimals s).2 !! k
  = cache s !! k.
Proof.
  intros Hne. rewrite getTransactionHistory_run.
  assert (Hl : cache (after_lookup (tx_key w publicKey) s) !! k = cache s !! k)
    by (apply after_lookup_other; congruence).
  destruct (cache_lookup _ s) as [[x|d|l|c|p c]|]; simpl;
    rewrite ?history_on_miss_frame by exact Hne; exact Hl.
Qed.

(** X6. An empty list that stands for "no data" is not remembered: when
    nothing fresh is cached and the credential is missing or a request
    fails, [getTransactionHistory] returns the empty list and leaves no
    entry under its key, so the next call tries again. An empty list built
    from two answers that report no records is cached like any other
    result. *)
Theorem history_failure_not_cached publicKey tokenDecimals s :
  cache_lookup (tx_key w publicKey) s = None ->
  let run := getTransactionHistory formatUnits w publicKey tokenDecimals s in
  (unconfigured (ETHERSCAN_API_KEY (env w)) = true \/
   history_failure formatUnits w publicKey tokenDecimals s ->
   run.1 = Ok [] /\ cache run.2 !! tx_key w publicKey = None) /\
  (unconfigured (ETHERSCAN_API_KEY (env w)) = false ->
   forall r1 r2,
     outcome (etherscan w (clock s) (txlist_request w publicKey)) = Ok r1 ->
     outcome (etherscan w (clock s) (tokentx_request w publicKey)) = Ok r2 ->
     kept 10 r1 = [] -> kept 20 r2 = [] ->
     run.1 = Ok [] /\
     cache run.2 !! tx_key w publicKey = Some (mkCacheEntry (VTxs []) (clock run.2))).
Proof.
  intros Hmiss run. subst run.
  pose proof (cache_lookup_None_absent _ _ Hmiss) as Habs.
  split.
  - intros Hwhy.
    destruct (unconfigured (ETHERSCAN_API_KEY (env w))) eqn:Hcfg.
    + rewrite (getTransactionHistory_miss _ _ _ _ _ Hmiss). cbv zeta.
      rewrite Hcfg. split; [reflexivity|exact Habs].
    + destruct Hwhy as [Hwhy|Hfail]; [discriminate|].
      rewrite (getTransactionHistory_miss _ _ _ _ _ Hmiss). cbv zeta. rewrite Hcfg.
      destruct (fetch_transactions_failure formatUnits w publicKey tokenDecimals
                  (after_lookup (tx_key w publicKey) s) Hfail) as (e & ->).
      split; [reflexivity|exact Habs].
  - intros Hcfg r1 r2 Ha Hb Hk1 Hk2.
    rewrite (getTransactionHistory_success formatUnits w publicKey tokenDecimals s
               r1 r2 [] [] Hmiss Hcfg Ha Hb);
      [|rewrite Hk1; reflexivity|rewrite Hk2; reflexivity].
    simpl. split; [reflexivity|apply lookup_insert_eq].
Qed.

(** X7. A history that was fetched is fetched once: after a run in which
    both requests were answered and every kept record converted, every call
    made less than 60000 ms later on the same cache returns the same list,
    issues no request and changes nothing. *)
Theorem history_fetched_once publicKey tokenDecimals s r1 r2 eth tok :
  cache_lookup (tx_key w publicKey) s = None ->
  unconfigured (ETHERSCAN_API_KEY (env w)) = false ->
  outcome (etherscan w (clock s) (txlist_request w publicKey)) = Ok r1 ->
  outcome (etherscan w (clock s) (tokentx_request w publicKey)) = Ok r2 ->
  map_res (eth_transaction formatUnits publicKey) (kept 10 r1) = Ok eth ->
  map_res (token_transaction formatUnits publicKey tokenDecimals) (kept 20 r2) = Ok tok ->
  let run := getTransactionHistory formatUnits w publicKey tokenDecimals s in
  exists l, run.1 = Ok l /\
    forall tokenDecimals' s2,
      cache s2 = cache run.2 -> clock s2 - clock run.2 < CACHE_DURATION ->
      getTransactionHistory formatUnits w publicKey tokenDecimals' s2 = (Ok l, s2).
Proof.
  intros Hmiss Hcfg Ha Hb Heth Htok run. subst run.
  rewrite (getTransactionHistory_success _ _ _ _ _ _ _ _ _ Hmiss Hcfg Ha Hb Heth Htok).
  cbv zeta.
  set (s1 := after_requests w publicKey (after_lookup (tx_key w publicKey) s)).
  set (out := firstn 30 (Array_sort newest_first (eth ++ tok))).
  exists out. split; [reflexivity|].
  intros dec' s2 Hc Hfresh. cbn [fst snd cache clock] in Hc, Hfresh.
  rewrite getTransactionHistory_run.
  assert (Hl : cache_lookup (tx_key w publicKey) s2 = Some (VTxs out)).
  { unfold cache_lookup. rewrite Hc.
    rewrite (getCachedData_fresh _ _ (mkCacheEntry (VTxs out) (clock s1)));
      [reflexivity|apply lookup_insert_eq|exact Hfresh]. }
  rewrite Hl. destruct (cache_lookup_Some_fresh _ _ _ Hl) as (-> & _). reflexivity.
Qed.

Lemma transaction_direction publicKey tokenDecimals (raw : RawTx) (tx : Transaction) :
  eth_transaction formatUnits publicKey raw = Ok tx \/
  token_transaction formatUnits publicKey tokenDecimals raw = Ok tx ->
  tx_type tx = type_of publicKey (tx_to tx).
Proof.
  unfold eth_transaction, token_transaction, formatEther, mbind, Res_bind, recipient_of.
  intros [H|H].
  - destruct (formatUnits _ _) as [v|e]; [|discriminate].
    destruct (raw_to raw) as [a|]; [|discriminate]. injection H as <-. reflexivity.
  - destruct (raw_to raw) as [a|]; [|discriminate].
    destruct (formatUnits _ _) as [v|e]; [|discriminate]. injection H as <-. reflexivity.
Qed.

(** X8. In a freshly fetched history the [type] of a record is ['deposit']
    exactly when its recipient is the queried address, compared without
    case: the direction the chart reads off [type] is the direction the
    profit estimate recomputes from [to]. *)
Theorem history_direction_consistent publicKey tokenDecimals s l :
  cache_lookup (tx_key w publicKey) s = None ->
  (getTransactionHistory formatUnits w publicKey tokenDecimals s).1 = Ok l ->
  forall tx, In tx l ->
    TransactionType_eqb (tx_type tx) deposit = is_recipient publicKey tx.
Proof.
  intros Hmiss Hrun tx Hin.
  assert (Hdir : tx_type tx = type_of publicKey (tx_to tx)).
  { destruct (history_records_built _ _ _ _ _ _ _ Hmiss Hrun Hin) as [(raw & H)|(raw & H)];
      apply (transaction_direction publicKey tokenDecimals raw); auto. }
  rewrite Hdir. unfold type_of, is_recipient.
  destruct (String.eqb _ _); reflexivity.
Qed.

End HistoryMore.

Lemma history_failure_not_cached_witness :
  let failed_run :=
    getTransactionHistory Ethers.formatUnits Sample_flaky Sample.me 6 Sample.start in
  let empty_run :=
    getTransactionHistory Ethers.formatUnits Sample_quiet Sample.me 6 Sample.start in
  (failed_run.1 = Ok [] /\ cache failed_run.2 !! tx_key Sample_flaky Sample.me = None) /\
  (empty_run.1 = Ok [] /\
   cache empty_run.2 !! tx_key Sample_quiet Sample.me
     = Some (mkCacheEntry (VTxs []) 1700000500120)).
Proof.
  intros failed_run empty_run. split.
  - destruct (history_failure_not_cached Ethers.formatUnits Sample_flaky Sample.me 6
                Sample.start eq_refl) as (H & _).
    apply H. right. left. eexists. reflexivity.
  - destruct (history_failure_not_cached Ethers.formatUnits Sample_quiet Sample.me 6
                Sample.start eq_refl) as (_ & H).
    apply (H eq_refl (mkEtherscanResponse "0" (Some [])) (mkEtherscanResponse "0" (Some [])));
      reflexivity.
Defined.

Lemma history_fetched_once_witness :
  let run := getTransactionHistory Ethers.formatUnits Sample.busy Sample.me 6 Sample.start in
  trace run.2 = [txlist_request Sample.busy Sample.me; tokentx_request Sample.busy Sample.me] /\
  getTransactionHistory Ethers.formatUnits Sample.busy Sample.me 6 run.2
  = (Ok [Sample.tx_call; Sample.tx_out; Sample.tx_native; Sample.tx_in], run.2).
Proof.
  intros run. split; [vm_compute; reflexivity|].
  destruct (history_fetched_once Ethers.formatUnits Sample.busy Sample.me 6 Sample.start
              (mkEtherscanResponse "1" (Some [Sample.raw_call; Sample.raw_native]))
              (mkEtherscanResponse "1" (Some [Sample.raw_out; Sample.raw_in]))
              [Sample.tx_call; Sample.tx_native] [Sample.tx_out; Sample.tx_in])
    as (l & Hl & Hagain);
    [reflexivity|reflexivity|reflexivity|reflexivity
    |vm_compute; reflexivity|vm_compute; reflexivity|].
  vm_compute in Hl. injection Hl as <-.
  apply Hagain; [reflexivity|vm_compute; reflexivity].
Defined.

Lemma history_direction_consistent_witness :
  tx_type Sample.tx_in = deposit /\ is_recipient Sample.me Sample.tx_in = true /\
  tx_to Sample.tx_in <> Sample.me.
Proof.
  pose proof (history_direction_consistent Ethers.formatUnits Sample.busy Sample.me 6
                Sample.start
                [Sample.tx_call; Sample.tx_out; Sample.tx_native; Sample.tx_in]
                eq_refl) as H.
  split; [reflexivity|]. split; [|discriminate].
  rewrite <- H; [reflexivity|vm_compute; reflexivity|simpl; auto].
Defined.

(* ===================================================================== *)
(** ** More on [getChartData] *)
(* ===================================================================== *)

(** Keys of different families never coincide. *)
Lemma chart_key_not_tx_key (w : World) (publicKey publicKey' : string) (period : Period) :
  chart_key w publicKey period <> tx_key w publicKey'.
Proof. unfold chart_key, tx_key. cbn. discriminate. Qed.

Lemma balance_key_not_tx_key (w : World) (publicKey publicKey' : string) :
  balance_key w publicKey <> tx_key w publicKey'.
Proof. unfold balance_key, tx_key. cbn. discriminate. Qed.

Lemma chart_loop_nth (point : nat -> ChartDataPoint) (n i : nat) :
  (i <= n)%nat -> nth_error (chart_loop point n) i = Some (point (n - i)%nat).
Proof.
  revert i. induction n as [|n IH]; intros i Hi.
  - assert (i = 0%nat) as -> by lia. reflexivity.
  - destruct i as [|i]; [reflexivity|].
    change (chart_loop point (S n)) with (point (S n) :: chart_loop point n).
    simpl nth_error. rewrite IH by lia. reflexivity.
Qed.

Lemma chart_point_boundary (now : Z) (period : Period) (l : list Transaction) (i : nat) :
  let n := intervals_of period in
  (i <= n)%nat ->
  chart_point now (range_of period) n l (n - i)
  = mkChartDataPoint (balance_at (boundary now period i) l) (boundary now period i).
Proof.
  intros n Hi. unfold chart_point, balance_at, boundary. fold n.
  assert (Ht : now - Z.of_nat (n - i) * range_of period / Z.of_nat n
               = now - range_of period
                 + Z.of_nat i * (range_of period / Z.of_nat n)).
  { subst n. rewrite (boundary_exact period).
    destruct (range_divisible period) as (_ & _ & Hr). cbv zeta in Hr.
    rewrite Hr at 2. rewrite Nat2Z.inj_sub by exact Hi. ring. }
  rewrite Ht. reflexivity.
Qed.

Section ChartMore.
Variable formatUnits : BigNumberish -> UnitArg -> Res string.
Variable w : World.
Implicit Types (s : State) (publicKey : string) (period : Period).

Lemma getChartData_run publicKey period s :
  getChartData formatUnits w publicKey period s =
  match cache_lookup (chart_key w publicKey period) s with
  | Some (VChart points) => (Ok points, after_lookup (chart_key w publicKey period) s)
  | _ => chart_on_miss formatUnits w publicKey period
           (after_lookup (chart_key w publicKey period) s)
  end.
Proof.
  unfold getChartData, chart_on_miss, mbind, M_bind.
  rewrite cache_get_run.
  destruct (cache_lookup _ s) as [[x|d|l|c|p c]|]; try reflexivity;
    (unfold try_catch;
     destruct (getTransactionHistory _ _ _ _ _) as [[txs|e] s1]; [|reflexivity];
     destruct (List.length (tokenTxs_of txs) =? 0)%nat; reflexivity).
Qed.

(** [getChartData] returns a series from every state. *)
Lemma getChartData_total publicKey period s :
  exists points s', getChartData formatUnits w publicKey period s = (Ok points, s').
Proof.
  rewrite getChartData_run.
  assert (Hmiss : forall s0, exists points s',
            chart_on_miss formatUnits w publicKey period s0 = (Ok points, s')).
  { intros s0. unfold chart_on_miss.
    destruct (getTransactionHistory _ _ _ _ _) as [[txs|e] s1]; [|eauto].
    destruct (List.length (tokenTxs_of txs) =? 0)%nat; eauto. }
  destruct (cache_lookup _ s) as [[x|d|l|c|p c]|]; eauto.
Qed.

(** X9. The placeholder series is never cached, the replayed series
    always is. On a cache miss with no token transfer in the history, the
    chart key holds no entry after the call. With a token transfer, the
    series is stored, and every call for the same address and period made
    less than 60000 ms later on the same cache returns it without a request,
    whatever has happened to the history since. *)
Theorem chart_cached_only_when_replayed publicKey period s txs s1 :
  cache_lookup (chart_key w publicKey period) s = None ->
  getTransactionHistory formatUnits w publicKey 6
    (after_lookup (chart_key w publicKey period) s) = (Ok txs, s1) ->
  let run := getChartData formatUnits w publicKey period s in
  (tokenTxs_of txs = [] ->
   cache run.2 !! chart_key w publicKey period = None) /\
  (tokenTxs_of txs <> [] ->
   exists points, run.1 = Ok points /\
     forall s2, cache s2 = cache run.2 -> clock s2 - clock run.2 < CACHE_DURATION ->
       getChartData formatUnits w publicKey period s2 = (Ok points, s2)).
Proof.
  intros Hmiss Hhist run. subst run.
  rewrite (getChartData_miss _ _ _ _ _ _ _ Hmiss Hhist). split.
  - intros ->. simpl.
    pose proof (getTransactionHistory_frame formatUnits w publicKey 6
                  (after_lookup (chart_key w publicKey period) s)
                  (chart_key w publicKey period)
                  (chart_key_not_tx_key w publicKey publicKey period)) as Hframe.
    rewrite Hhist in Hframe. simpl in Hframe. rewrite Hframe.
    apply cache_lookup_None_absent, Hmiss.
  - intros Hne.
    destruct (tokenTxs_of txs) as [|tx l] eqn:Htok; [congruence|].
    change (List.length (tx :: l) =? 0)%nat with false. cbv iota zeta.
    set (points := chart_loop _ _).
    exists points. split; [reflexivity|].
    intros s2 Hc Hfresh. cbn [fst snd cache clock] in Hc, Hfresh.
    rewrite getChartData_run.
    assert (Hl : cache_lookup (chart_key w publicKey period) s2 = Some (VChart points)).
    { unfold cache_lookup. rewrite Hc.
      rewrite (getCachedData_fresh _ _ (mkCacheEntry (VChart points) (clock s1)));
        [reflexivity|apply lookup_insert_eq|exact Hfresh]. }
    rewrite Hl. destruct (cache_lookup_Some_fresh _ _ _ Hl) as (-> & _). reflexivity.
Qed.

(** X10. The replayed series samples the balance at [intervals + 1]
    boundaries that cut the lookback into equal steps: point [i], counted
    from the oldest, carries the boundary [now - range + i * (range /
    intervals)] and the balance replayed up to it, clamped at 0. The first
    point lies one lookback in the past, the last at the current time. *)
Theorem replayed_chart_boundaries publicKey period s txs s1 :
  cache_lookup (chart_key w publicKey period) s = None ->
  getTransactionHistory formatUnits w publicKey 6
    (after_lookup (chart_key w publicKey period) s) = (Ok txs, s1) ->
  tokenTxs_of txs <> [] ->
  exists points,
    (getChartData formatUnits w publicKey period s).1 = Ok points /\
    (forall i, (i <= intervals_of period)%nat ->
       nth_error points i =
       Some (mkChartDataPoint
               (balance_at (boundary (clock s1) period i) (tokenTxs_of txs))
               (boundary (clock s1) period i))) /\
    boundary (clock s1) period 0 = clock s1 - range_of period /\
    boundary (clock s1) period (intervals_of period) = clock s1.
Proof.
  intros Hmiss Hhist Hne.
  rewrite (getChartData_miss _ _ _ _ _ _ _ Hmiss Hhist).
  destruct (tokenTxs_of txs) as [|tx l] eqn:Htok; [congruence|].
  change (List.length (tx :: l) =? 0)%nat with false. cbv iota zeta.
  eexists. split; [reflexivity|]. split; [|split].
  - intros i Hi. rewrite chart_loop_nth by exact Hi.
    rewrite (chart_point_boundary (clock s1) period (tx :: l) i Hi). reflexivity.
  - unfold boundary. simpl. lia.
  - unfold boundary. destruct (range_divisible period) as (_ & _ & Hr).
    cbv zeta in Hr. rewrite Hr at 1. ring.
Qed.

End ChartMore.

Lemma chart_cached_only_when_replayed_witness :
  let quiet := getChartData Ethers.formatUnits Sample_quiet Sample.me P1D Sample.start in
  let busy := getChartData Ethers.formatUnits Sample.busy Sample.me P1D Sample.start in
  cache quiet.2 !! chart_key Sample_quiet Sample.me P1D = None /\
  exists points, busy.1 = Ok points /\
    getChartData Ethers.formatUnits Sample.busy Sample.me P1D busy.2 = (Ok points, busy.2).
Proof.
  intros quiet busy. split.
  - destruct (chart_cached_only_when_replayed Ethers.formatUnits Sample_quiet Sample.me
                P1D Sample.start []
                (getTransactionHistory Ethers.formatUnits Sample_quiet Sample.me 6
                   (after_lookup (chart_key Sample_quiet Sample.me P1D) Sample.start)).2)
      as (H & _); [reflexivity|vm_compute; reflexivity|].
    apply H. reflexivity.
  - destruct (chart_cached_only_when_replayed Ethers.formatUnits Sample.busy Sample.me
                P1D Sample.start
                [Sample.tx_call; Sample.tx_out; Sample.tx_native; Sample.tx_in]
                (getTransactionHistory Ethers.formatUnits Sample.busy Sample.me 6
                   (after_lookup (chart_key Sample.busy Sample.me P1D) Sample.start)).2)
      as (_ & H); [reflexivity|vm_compute; reflexivity|].
    destruct H as (points & Hrun & Hagain); [discriminate|].
    exists points. split; [exact Hrun|].
    apply Hagain; [reflexivity|vm_compute; reflexivity].
Defined.

Lemma replayed_chart_boundaries_witness :
  exists points,
    (getChartData Ethers.formatUnits Sample.busy Sample.me P1H Sample.start).1 = Ok points /\
    nth_error points 0 = Some (mkChartDataPoint 0 (1700000500120 - 3600000)) /\
    nth_error points 12 = Some (mkChartDataPoint 50 1700000500120).
Proof.
  destruct (replayed_chart_boundaries Ethers.formatUnits Sample.busy Sample.me P1H
              Sample.start
              [Sample.tx_call; Sample.tx_out; Sample.tx_native; Sample.tx_in]
              (getTransactionHistory Ethers.formatUnits Sample.busy Sample.me 6
                 (after_lookup (chart_key Sample.busy Sample.me P1H) Sample.start)).2)
    as (points & Hrun & Hnth & _);
    [reflexivity|vm_compute; reflexivity|discriminate|].
  exists points. split; [exact Hrun|]. split.
  - rewrite (Hnth 0%nat) by (vm_compute; lia). vm_compute. reflexivity.
  - rewrite (Hnth 12%nat) by (vm_compute; lia). vm_compute. reflexivity.
Defined.

(* ===================================================================== *)
(** ** More on [getWalletBalance] *)
(* ===================================================================== *)

Lemma getEthPrice_total (w : World) (s : State) :
  exists p s', getEthPrice w s = (Ok p, s').
Proof.
  rewrite getEthPrice_run. destruct (cached_price s); [eauto|]. cbv zeta.
  destruct (outcome _); eauto.
Qed.

Lemma bind_Ok {A B : Type} (m : M A) (f : A -> M B) (s s0 : State) (a : A) :
  m s = (Ok a, s0) -> (m ≫= f) s = f a s0.
Proof. unfold mbind, M_bind. intros ->. reflexivity. Qed.

Section WalletMore.
Variable formatUnits : BigNumberish -> UnitArg -> Res string.
Variable toFixed : float -> Z -> string.
Variable w : World.
Implicit Types (s : State) (publicKey : string).

(** X11. Every exception of [getWalletBalance] is one of three: the
    address failed the syntax check, or [RPC_URL] is not configured (in
    both cases nothing was requested), or something failed later and is
    rethrown with the prefix ["Failed to fetch wallet data: "]. The address
    is checked before the configuration. *)
Theorem wallet_exceptions_classified publicKey s e s' :
  getWalletBalance formatUnits toFixed w publicKey s = (Throw e, s') ->
  (message e = "Invalid Ethereum address" /\
   invalid_address publicKey = true /\ trace s' = trace s) \/
  (message e = "RPC_URL not configured in .env.local" /\
   invalid_address publicKey = false /\
   unconfigured (RPC_URL (env w)) = true /\ trace s' = trace s) \/
  (exists cause, message e = "Failed to fetch wallet data: " +:+ cause /\
   invalid_address publicKey = false /\
   unconfigured (RPC_URL (env w)) = false).
Proof.
  unfold getWalletBalance. unfold mbind at 1, M_bind at 1. rewrite cache_get_run.
  match goal with |- context [try_catch ?b ?h] => set (body := b); set (handler := h) end.
  assert (Hrest :
    (if invalid_address publicKey then throw "Invalid Ethereum address"
     else if unconfigured (RPC_URL (env w))
          then throw "RPC_URL not configured in .env.local"
          else try_catch body handler) (after_lookup (balance_key w publicKey) s)
    = (Throw e, s') ->
    (message e = "Invalid Ethereum address" /\
     invalid_address publicKey = true /\ trace s' = trace s) \/
    (message e = "RPC_URL not configured in .env.local" /\
     invalid_address publicKey = false /\
     unconfigured (RPC_URL (env w)) = true /\ trace s' = trace s) \/
    (exists cause, message e = "Failed to fetch wallet data: " +:+ cause /\
     invalid_address publicKey = false /\
     unconfigured (RPC_URL (env w)) = false)).
  { destruct (invalid_address publicKey).
    { unfold throw. intros H. injection H as <- <-. left. auto. }
    destruct (unconfigured (RPC_URL (env w))).
    { unfold throw. intros H. injection H as <- <-. right. left. auto. }
    unfold try_catch. destruct (body _) as [[d|e0] s1]; [discriminate|].
    subst handler. unfold throw. intros H. injection H as <- <-.
    right. right. exists (message e0). auto. }
  destruct (cache_lookup _ s) as [[x|d|l|c|p c]|]; try exact Hrest.
  discriminate.
Qed.

(** X13. A successful call is repeatable: from the state it leaves, the
    same call returns the same snapshot, issues no request and changes
    nothing, because the snapshot it computed is in the cache. *)
Theorem wallet_snapshot_repeated publicKey s d s1 :
  getWalletBalance formatUnits toFixed w publicKey s = (Ok d, s1) ->
  getWalletBalance formatUnits toFixed w publicKey s1 = (Ok d, s1).
Proof.
  intros Hrun.
  assert (Hhit : forall s2 e,
            cache s2 !! balance_key w publicKey = Some e -> data e = VWallet d ->
            clock s2 - timestamp e < CACHE_DURATION ->
            getWalletBalance formatUnits toFixed w publicKey s2 = (Ok d, s2)).
  { intros s2 e Hl Hd Hf. unfold getWalletBalance, mbind, M_bind.
    rewrite (cache_get_fresh s2 _ _ Hl Hf), Hd. reflexivity. }
  revert Hrun.
  unfold getWalletBalance. unfold mbind at 1, M_bind at 1. rewrite cache_get_run.
  match goal with |- context [try_catch ?b ?h] => set (body := b); set (handler := h) end.
  assert (Hrest :
    (if invalid_address publicKey then throw "Invalid Ethereum address"
     else if unconfigured (RPC_URL (env w))
          then throw "RPC_URL not configured in .env.local"
          else try_catch body handler) (after_lookup (balance_key w publicKey) s)
    = (Ok d, s1) ->
    exists e, cache s1 !! balance_key w publicKey = Some e /\ data e = VWallet d /\
              clock s1 - timestamp e < CACHE_DURATION).
  { destruct (invalid_address publicKey); [discriminate|].
    destruct (unconfigured (RPC_URL (env w))); [discriminate|].
    unfold try_catch.
    destruct (body _) as [[d0|e0] s0] eqn:Hbody; [|subst handler; discriminate].
    intros H. injection H as -> ->. subst body.
    apply bind_Ok_inv in Hbody. destruct Hbody as (? & ? & _ & Hbody).
    apply bind_Ok_inv in Hbody. destruct Hbody as (ethBalance & ? & _ & Hbody).
    apply bind_Ok_inv in Hbody. destruct Hbody as (formatted & ? & _ & Hbody).
    apply bind_Ok_inv in Hbody. destruct Hbody as ([tokenBalance tokenDecimals] & ? & _ & Hbody).
    apply bind_Ok_inv in Hbody. destruct Hbody as (ethPrice & ? & _ & Hbody).
    apply bind_Ok_inv in Hbody. destruct Hbody as (transactions & s6 & _ & Hbody).
    unfold mbind, M_bind, cache_set, mret, M_ret in Hbody. cbv zeta in Hbody.
    injection Hbody as <- <-.
    eexists. split; [apply lookup_insert_eq|]. split; [reflexivity|].
    simpl. unfold CACHE_DURATION. lia. }
  intros Hrun.
  destruct (cache_lookup _ s) as [[x|d0|l|c|p c]|] eqn:Hl;
    try (destruct (Hrest Hrun) as (e & He & Hd & Hf); exact (Hhit s1 e He Hd Hf)).
  injection Hrun as -> <-.
  destruct (cache_lookup_Some_fresh _ _ _ Hl) as (Heq & e & He & Hd & Hf).
  rewrite Heq. exact (Hhit s e He Hd Hf).
Qed.

End WalletMore.

Lemma getEthPrice_calls (w : World) (s : State) :
  exists calls, trace (getEthPrice w s).2 = trace s ++ calls /\
                (calls = [] \/ calls = [GetPrice]).
Proof.
  rewrite getEthPrice_run. destruct (cached_price s).
  - exists []. simpl. rewrite app_nil_r. auto.
  - cbv zeta. exists [GetPrice]. destruct (outcome _); simpl; auto.
Qed.

Section WalletToken.
Variable formatUnits : BigNumberish -> UnitArg -> Res string.
Variable toFixed : float -> Z -> string.
Variable w : World.
Implicit Types (s : State) (publicKey : string).

Lemma getTransactionHistory_calls publicKey tokenDecimals s :
  exists calls,
    trace (getTransactionHistory formatUnits w publicKey tokenDecimals s).2
    = trace s ++ calls /\
    (calls = [] \/ calls = [txlist_request w publicKey; tokentx_request w publicKey]).
Proof.
  rewrite getTransactionHistory_run.
  assert (Hmiss : exists calls,
            trace (history_on_miss formatUnits w publicKey tokenDecimals
                     (after_lookup (tx_key w publicKey) s)).2 = trace s ++ calls /\
            (calls = [] \/
             calls = [txlist_request w publicKey; tokentx_request w publicKey])).
  { unfold history_on_miss. destruct (unconfigured _).
    { exists []. simpl. rewrite app_nil_r. auto. }
    exists [txlist_request w publicKey; tokentx_request w publicKey].
    split; [|auto]. rewrite fetch_transactions_run. cbv zeta.
    destruct (outcome (etherscan w _ (txlist_request w publicKey))) as [r1|e1];
      destruct (outcome (etherscan w _ (tokentx_request w publicKey))) as [r2|e2];
      try reflexivity.
    destruct (map_res (eth_transaction _ _) _) as [eth|e]; [|reflexivity].
    destruct (map_res (token_transaction _ _ _) _) as [tok|e]; reflexivity. }
  destruct (cache_lookup _ s) as [[x|d|l|c|p c]|]; try exact Hmiss.
  exists []. simpl. rewrite app_nil_r. auto.
Qed.

(** X12. A missing token contract does not fail the snapshot. When
    nothing fresh is cached, the address is well formed, the node answers
    and the token contract address is not configured, [getWalletBalance]
    succeeds, and the run is this one: the network and the native balance
    are asked for; the price is obtained by [getEthPrice] in the state these
    two calls leave; the history is obtained by [getTransactionHistory] with
    6 decimals in the state [getEthPrice] leaves. The snapshot has the token
    balance ["0"], the native balance at that price alone as portfolio
    value, and the profit and loss of that history against a balance of
    ["0"]. The calls of the run are the two node calls, then at most the
    price request, then at most the two ledger requests: no call to the
    token contract is among them. *)
Theorem wallet_without_token_contract publicKey s wei formatted :
  cache_lookup (balance_key w publicKey) s = None ->
  invalid_address publicKey = false ->
  unconfigured (RPC_URL (env w)) = false ->
  (forall t, outcome (rpc_network w t (RpcGetNetwork (RPC_URL (env w)))) = Ok tt) ->
  (forall t, outcome (rpc_bigint w t (RpcGetBalance (RPC_URL (env w)) publicKey)) = Ok wei) ->
  formatEther formatUnits (BInt wei) = Ok formatted ->
  unconfigured (TOKEN_CONTRACT_ADDRESS (env w)) = true ->
  let asked :=
    after_call (rpc_bigint w) (RpcGetBalance (RPC_URL (env w)) publicKey)
      (after_call (rpc_network w) (RpcGetNetwork (RPC_URL (env w)))
         (after_lookup (balance_key w publicKey) s)) in
  let priced := getEthPrice w asked in
  let history := getTransactionHistory formatUnits w publicKey 6 priced.2 in
  let run := getWalletBalance formatUnits toFixed w publicKey s in
  exists price txs,
    priced.1 = Ok price /\
    history.1 = Ok txs /\
    run.1 = Ok (mkWalletData formatted
                  (toFixed (JsNumber.parseFloat formatted * price + 0)%float 2)
                  (toFixed (profit (calculateTokenProfitLoss txs "0" publicKey)) 2)
                  (profitPercent (calculateTokenProfitLoss txs "0" publicKey))
                  "0" txs price) /\
    exists price_calls history_calls,
      trace run.2
      = trace s ++ [RpcGetNetwork (RPC_URL (env w));
                    RpcGetBalance (RPC_URL (env w)) publicKey]
                ++ price_calls ++ history_calls /\
      (price_calls = [] \/ price_calls = [GetPrice]) /\
      (history_calls = [] \/
       history_calls = [txlist_request w publicKey; tokentx_request w publicKey]).
Proof.
  intros Hmiss Haddr Hrpc Hnet Hbal Hfmt Htoken asked priced history run.
  set (s0 := after_lookup (balance_key w publicKey) s) in *.
  set (sA := after_call (rpc_network w) (RpcGetNetwork (RPC_URL (env w))) s0) in *.
  destruct (getEthPrice_total w asked) as (price & s3 & Hprice).
  destruct (getTransactionHistory_total formatUnits w publicKey 6 s3) as (txs & s4 & Hhist).
  destruct (getEthPrice_calls w asked) as (pc & Hpc & Hpcs).
  destruct (getTransactionHistory_calls publicKey 6 s3) as (hc & Hhc & Hhcs).
  set (d := mkWalletData formatted
              (toFixed (JsNumber.parseFloat formatted * price + 0)%float 2)
              (toFixed (profit (calculateTokenProfitLoss txs "0" publicKey)) 2)
              (profitPercent (calculateTokenProfitLoss txs "0" publicKey))
              "0" txs price).
  assert (Hrun : run = (Ok d, mkState (setCachedData (balance_key w publicKey) (VWallet d)
                                         (clock s4) (cache s4))
                                      (clock s4) (trace s4))).
  { subst run. unfold getWalletBalance. unfold mbind at 1, M_bind at 1.
    rewrite cache_get_run, Hmiss, Haddr, Hrpc. fold s0.
    unfold try_catch at 1.
    rewrite (bind_Ok _ _ s0 sA tt)
      by (unfold await, request, sA, after_call; simpl; rewrite Hnet; reflexivity).
    rewrite (bind_Ok _ _ sA asked wei)
      by (unfold await, request, asked, after_call; simpl; rewrite Hbal; reflexivity).
    rewrite (bind_Ok _ _ asked asked formatted) by (unfold lift; rewrite Hfmt; reflexivity).
    rewrite (bind_Ok _ _ asked asked ("0", 6)).
    2:{ unfold try_catch, mbind, M_bind, lift, getTokenContract. rewrite Htoken. reflexivity. }
    rewrite (bind_Ok _ _ asked s3 price) by exact Hprice.
    rewrite (bind_Ok _ _ s3 s4 txs) by exact Hhist.
    unfold mbind, M_bind, cache_set, mret, M_ret. reflexivity. }
  rewrite Hrun. subst priced history. rewrite Hprice. cbn [fst snd]. rewrite Hhist.
  cbn [fst snd trace].
  exists price, txs. split; [reflexivity|]. split; [reflexivity|].
  split; [reflexivity|].
  exists pc, hc. split; [|auto].
  rewrite Hhist in Hhc. cbn [snd] in Hhc. rewrite Hhc.
  rewrite Hprice in Hpc. cbn [snd] in Hpc. rewrite Hpc.
  unfold asked, sA, after_call, s0. simpl.
  rewrite <- !app_assoc. reflexivity.
Qed.

End WalletToken.

Lemma wallet_exceptions_classified_witness :
  exists e,
    (getWalletBalance Ethers.formatUnits toFixed_digits Sample.offline Sample.me
       Sample.start).1 = Throw e /\
    message e = "RPC_URL not configured in .env.local".
Proof.
  destruct (getWalletBalance Ethers.formatUnits toFixed_digits Sample.offline Sample.me
              Sample.start) as [[d|e] s'] eqn:Hrun; [vm_compute in Hrun; discriminate|].
  exists e. split; [reflexivity|].
  destruct (wallet_exceptions_classified _ _ _ _ _ _ _ Hrun)
    as [(_ & H & _)|[(H & _)|(_ & _ & _ & H)]];
    [discriminate|exact H|discriminate].
Defined.

(** In the sample world without a token contract address, from an empty
    cache: the price and the two ledger lists are requested after the two
    node calls. *)
Lemma wallet_without_token_contract_witness :
  let run := getWalletBalance Ethers.formatUnits toFixed_digits Sample_no_token Sample.me
               Sample.start in
  exists d,
    run.1 = Ok d /\
    wd_balance d = "1.5" /\ wd_tokenBalance d = "0" /\ wd_portfolioValue d = "4500.00" /\
    trace run.2 = [RpcGetNetwork (Some "https://rpc.example/v2/abc");
                   RpcGetBalance (Some "https://rpc.example/v2/abc") Sample.me;
                   GetPrice;
                   txlist_request Sample_no_token Sample.me;
                   tokentx_request Sample_no_token Sample.me].
Proof.
  intros run.
  destruct (wallet_without_token_contract Ethers.formatUnits toFixed_digits Sample_no_token
              Sample.me Sample.start 1500000000000000000 "1.5")
    as (price & txs & Hprice & Hhist & Hrun & pc & hc & Htrace & _);
    [reflexivity|reflexivity|reflexivity|intros; reflexivity|intros; reflexivity
    |reflexivity|reflexivity|].
  fold run in Hrun, Htrace.
  vm_compute in Hprice. injection Hprice as <-.
  vm_compute in Hhist. injection Hhist as <-.
  eexists. split; [exact Hrun|].
  split; [reflexivity|]. split; [reflexivity|]. split; [vm_compute; reflexivity|].
  vm_compute. reflexivity.
Defined.

Lemma wallet_snapshot_repeated_witness :
  let run := getWalletBalance Ethers.formatUnits toFixed_digits Sample.busy Sample.me
               Sample.start in
  exists d, run.1 = Ok d /\
    wd_portfolioValue d = "4580.00" /\ wd_profit d = "30.00" /\
    getWalletBalance Ethers.formatUnits toFixed_digits Sample.busy Sample.me run.2
    = (Ok d, run.2).
Proof.
  intros run. subst run.
  destruct (getWalletBalance Ethers.formatUnits toFixed_digits Sample.busy Sample.me
              Sample.start) as [[d|e] s1] eqn:Hrun; [|vm_compute in Hrun; discriminate].
  exists d. split; [reflexivity|].
  pose proof (wallet_snapshot_repeated _ _ _ _ _ _ _ Hrun) as Hagain.
  vm_compute in Hrun. injection Hrun as <- <-.
  split; [reflexivity|]. split; [reflexivity|]. exact Hagain.
Defined.

(* ===================================================================== *)
(** ** More on [withdrawFunds] and [depositFunds] *)
(* ===================================================================== *)

Lemma failed_reports_failure (msg : string) :
  msg <> "" -> reports_failure (failed msg).
Proof. intros H. unfold reports_failure, failed. simpl. eauto. Qed.

Lemma message_or_nonempty (e : JsError) (d : string) :
  d <> "" -> message_or e d <> "".
Proof.
  intros Hd. unfold message_or, JsString.truthy.
  destruct (String.eqb_spec (message e) ""); simpl; assumption.
Qed.

(** A run that ended in a failure report and left the cache alone. *)
Ltac failure_leaf :=
  eexists _, _; split; [reflexivity|]; right; simpl;
  split; [|reflexivity];
  first [apply failed_reports_failure; discriminate
        |apply failed_reports_failure, message_or_nonempty; discriminate].

Section TransferMore.
Variable parseUnits : string -> Z -> Res Z.
Variable Wallet_address : string -> Res string.
Variable out_of_bounds : Z -> JsError.
Variable w : World.

(** X14. [withdrawFunds] never raises, and its report and the cache go
    together. Either it reports success with the hash of a transfer whose
    receipt was awaited, and the cache has lost the balance entries of the
    sender and of the recipient and nothing else; or it reports a failure
    with a non-empty message and the cache is as it was. *)
Theorem withdraw_report_and_cache (s : State) (toAddress amount : string) :
  exists r s',
    withdrawFunds parseUnits Wallet_address out_of_bounds w toAddress amount s = (Ok r, s') /\
    ((exists hash wallet,
        reports_success r hash /\
        Wallet_address (JsString.interpolate (WALLET_PRIVATE_KEY (env w))) = Ok wallet /\
        In (WaitReceipt hash) (trace s') /\
        cache s' = delete (balance_key w toAddress)
                     (delete (balance_key w wallet) (cache s))) \/
     (reports_failure r /\ cache s' = cache s)).
Proof.
  unfold withdrawFunds.
  destruct (invalid_address toAddress); [failure_leaf|].
  destruct (unconfigured (WALLET_PRIVATE_KEY (env w))); [failure_leaf|].
  unfold try_catch, mbind, M_bind, lift, transfer, await, request, race_timeout, throw,
    cache_delete.
  destruct (Wallet_address _) as [wallet|e] eqn:Hw; [|failure_leaf].
  destruct (getTokenContract w) as [contract|e]; [|failure_leaf].
  simpl.
  destruct (outcome (rpc_bigint w (clock s) (CallBalanceOf contract wallet)))
    as [b|e]; [|failure_leaf].
  simpl. destruct (parseUnits amount 6) as [a|e]; [|failure_leaf].
  simpl. destruct (b <? a); [failure_leaf|].
  simpl. destruct (fits_uint256 a); [|failure_leaf].
  destruct (outcome (rpc_string w _ (SendTransfer contract wallet toAddress a)))
    as [hash|e]; [|failure_leaf].
  simpl. destruct (elapsed _ <? 60000)%N; simpl; [|failure_leaf].
  destruct (outcome (rpc_bigint w _ (WaitReceipt hash))) as [st|e]; [|failure_leaf].
  simpl. destruct (st =? 1); simpl; [|failure_leaf].
  eexists _, _. split; [reflexivity|]. left. exists hash, wallet. simpl.
  split; [repeat split|]. split; [reflexivity|]. split; [|reflexivity].
  apply in_or_app. right. simpl. auto.
Qed.

(** X15. A transfer that was submitted but not confirmed is reported as
    failed and leaves the cached balances in place. With every check
    passed, the balance sufficient, the amount a [uint256] and the transfer
    answered with a hash: if the wait for the receipt takes 60000 ms or more
    the report is ["Transaction timeout"]; if the wait is rejected in time,
    as ethers rejects it for a reverted transaction, the report is the
    message of the rejection (["Transaction failed"] when it has none). In
    both cases the calls made are the balance read, the transfer and the
    wait, and the cache is unchanged. *)
Theorem withdraw_unconfirmed (s : State) (toAddress amount : string)
    (wallet contract hash : string) (balance amountInUnits : Z) :
  invalid_address toAddress = false ->
  unconfigured (WALLET_PRIVATE_KEY (env w)) = false ->
  Wallet_address (JsString.interpolate (WALLET_PRIVATE_KEY (env w))) = Ok wallet ->
  getTokenContract w = Ok contract ->
  (forall t, outcome (rpc_bigint w t (CallBalanceOf contract wallet)) = Ok balance) ->
  parseUnits amount 6 = Ok amountInUnits ->
  amountInUnits <= balance ->
  fits_uint256 amountInUnits = true ->
  (forall t, outcome (rpc_string w t
               (SendTransfer contract wallet toAddress amountInUnits)) = Ok hash) ->
  let run := withdrawFunds parseUnits Wallet_address out_of_bounds w toAddress amount s in
  let issued := [CallBalanceOf contract wallet;
                 SendTransfer contract wallet toAddress amountInUnits;
                 WaitReceipt hash] in
  ((forall t, (60000 <= elapsed (rpc_bigint w t (WaitReceipt hash)))%N) ->
   run.1 = Ok (failed "Transaction timeout") /\
   trace run.2 = trace s ++ issued /\ cache run.2 = cache s) /\
  (forall e,
   (forall t, (elapsed (rpc_bigint w t (WaitReceipt hash)) < 60000)%N /\
              outcome (rpc_bigint w t (WaitReceipt hash)) = Throw e) ->
   run.1 = Ok (failed (message_or e "Transaction failed")) /\
   trace run.2 = trace s ++ issued /\ cache run.2 = cache s).
Proof.
  intros Haddr Hkey Hwallet Hcontract Hbal Hamount Hle Hfits Hsend run issued.
  subst run issued. unfold withdrawFunds. rewrite Haddr, Hkey, Hwallet, Hcontract.
  unfold try_catch, mbind, M_bind, lift, transfer, await, request, race_timeout, throw.
  simpl. rewrite Hbal, Hamount. simpl.
  destruct (Z.ltb_spec balance amountInUnits) as [Hlt|_]; [lia|].
  simpl. rewrite Hfits, Hsend. simpl. split.
  - intros Hslow.
    match goal with |- context [(elapsed ?r <? 60000)%N] =>
      destruct (N.ltb_spec (elapsed r) 60000) as [Hfast|_];
        [pose proof (Hslow (clock s + Z.of_N (elapsed (rpc_bigint w (clock s)
                        (CallBalanceOf contract wallet)))
                      + Z.of_N (elapsed (rpc_string w
                          (clock s + Z.of_N (elapsed (rpc_bigint w (clock s)
                             (CallBalanceOf contract wallet))))
                          (SendTransfer contract wallet toAddress amountInUnits)))));
         lia|]
    end.
    simpl. rewrite <- !app_assoc. auto.
  - intros e Hfast.
    match goal with |- context [(elapsed (rpc_bigint w ?t ?q) <? 60000)%N] =>
      destruct (Hfast t) as [Hf Ho];
      destruct (N.ltb_spec (elapsed (rpc_bigint w t q)) 60000) as [_|Hslow]; [|lia];
      simpl; rewrite Ho
    end.
    simpl. rewrite <- !app_assoc. auto.
Qed.

End TransferMore.

(** The wallet holds 80 tokens and 50 are withdrawn: once the receipt
    takes 90 seconds, once the wait is rejected after 12 seconds. *)
Lemma withdraw_unconfirmed_witness :
  (withdrawFunds Ethers.parseUnits Sample.Wallet_address Sample.out_of_bounds
     (Sample_receipt (Ok 1) 90000) Sample.other "50" Sample.start).1
    = Ok (failed "Transaction timeout") /\
  (withdrawFunds Ethers.parseUnits Sample.Wallet_address Sample.out_of_bounds
     (Sample_receipt (Throw (mkError "transaction execution reverted")) 12000)
     Sample.other "50" Sample.start).1
    = Ok (failed "transaction execution reverted").
Proof.
  split.
  - destruct (withdraw_unconfirmed Ethers.parseUnits Sample.Wallet_address
                Sample.out_of_bounds
                (Sample_receipt (Ok 1) 90000) Sample.start Sample.other "50"
                Sample.wallet Sample.token "0xc1" 80000000 50000000)
      as (H & _);
      [reflexivity|reflexivity|reflexivity|reflexivity|intros; reflexivity
      |reflexivity|lia|reflexivity|intros; reflexivity|].
    apply H. intros t. simpl. lia.
  - destruct (withdraw_unconfirmed Ethers.parseUnits Sample.Wallet_address
                Sample.out_of_bounds
                (Sample_receipt (Throw (mkError "transaction execution reverted")) 12000)
                Sample.start Sample.other "50"
                Sample.wallet Sample.token "0xc1" 80000000 50000000)
      as (_ & H);
      [reflexivity|reflexivity|reflexivity|reflexivity|intros; reflexivity
      |reflexivity|lia|reflexivity|intros; reflexivity|].
    apply (H (mkError "transaction execution reverted")).
    intros t. simpl. split; [lia|reflexivity].
Defined.

Section DepositFacts.
Variable parseUnits : string -> Z -> Res Z.
Variable Wallet_address : string -> Res string.
Variable out_of_bounds : Z -> JsError.
Variable w : World.

(** X16. [depositFunds] never raises, and its report and the cache go
    together. Either it reports success with the hash of a transfer whose
    receipt was awaited, and the cache has lost the balance entry of the
    configured deposit address and nothing else; or it reports a failure
    with a non-empty message and the cache is as it was. *)
Theorem deposit_report_and_cache (s : State) (amount : string) :
  exists r s',
    depositFunds parseUnits Wallet_address out_of_bounds w amount s = (Ok r, s') /\
    ((exists hash,
        reports_success r hash /\
        In (WaitReceipt hash) (trace s') /\
        cache s' = delete (balance_key w
                             (JsString.interpolate (NEXT_PUBLIC_WALLET_ADDRESS (env w))))
                          (cache s)) \/
     (reports_failure r /\ cache s' = cache s)).
Proof.
  unfold depositFunds.
  destruct (unconfigured (WALLET_PRIVATE_KEY (env w))); [failure_leaf|].
  destruct (unset (NEXT_PUBLIC_WALLET_ADDRESS (env w))); [failure_leaf|].
  cbv zeta.
  unfold try_catch, mbind, M_bind, lift, transfer, await, request, race_timeout, throw,
    cache_delete.
  destruct (Wallet_address _) as [wallet|e]; [|failure_leaf].
  destruct (getTokenContract w) as [contract|e]; [|failure_leaf].
  destruct (parseUnits amount 6) as [a|e]; [|failure_leaf].
  simpl. destruct (fits_uint256 a); [|failure_leaf].
  destruct (outcome (rpc_string w _ (SendTransfer contract wallet _ a)))
    as [hash|e]; [|failure_leaf].
  simpl. destruct (elapsed _ <? 60000)%N; simpl; [|failure_leaf].
  destruct (outcome (rpc_bigint w _ (WaitReceipt hash))) as [st|e]; [|failure_leaf].
  simpl. destruct (st =? 1); simpl; [|failure_leaf].
  eexists _, _. split; [reflexivity|]. left. exists hash. simpl.
  split; [repeat split|]. split; [|reflexivity].
  apply in_or_app. right. simpl. auto.
Qed.


End DepositFacts.


(* ===================================================================== *)
(** ** Properties of [getProfitLoss] *)
(* ===================================================================== *)

Section ProfitLossFacts.
Variable formatUnits : BigNumberish -> UnitArg -> Res string.
Variable toFixed : float -> Z -> string.
Variable w : World.

Lemma getProfitLoss_miss (publicKey : string) (s : State) :
  cache_lookup (profit_key w publicKey) s = None ->
  getProfitLoss formatUnits toFixed w publicKey s =
  match getWalletBalance formatUnits toFixed w publicKey
          (after_lookup (profit_key w publicKey) s) with
  | (Ok d, s1) =>
      match getChartData formatUnits w publicKey P1D s1 with
      | (Ok chart, s2) =>
          (Ok (mkProfitLossData (JsNumber.parseFloat (wd_profit d))
                                (wd_profitPercent d) chart),
           mkState (setCachedData (profit_key w publicKey)
                      (VProfit (mkProfitLoss (JsNumber.parseFloat (wd_profit d))
                                             (wd_profitPercent d)) chart)
                      (clock s2) (cache s2))
                   (clock s2) (trace s2))
      | (Throw _, s2) => (Throw (mkError "Failed to calculate profit/loss"), s2)
      end
  | (Throw _, s1) => (Throw (mkError "Failed to calculate profit/loss"), s1)
  end.
Proof.
  intros Hmiss. unfold getProfitLoss. unfold mbind at 1, M_bind at 1.
  rewrite cache_get_run, Hmiss. unfold try_catch, mbind, M_bind.
  destruct (getWalletBalance _ _ _ _ _) as [[d|e] s1]; [|reflexivity].
  destruct (getChartData _ _ _ _ _) as [[chart|e] s2]; reflexivity.
Qed.

(** X18. On a cache miss [getProfitLoss] stands or falls with
    [getWalletBalance]. If the snapshot call raises, whatever the cause,
    the exception is ["Failed to calculate profit/loss"] and the chart is
    not requested. If it returns, the one-day chart is computed (that step
    cannot fail), the profit is read back from the snapshot's two-decimal
    string, and the result is cached under the profit key. *)
Theorem profit_loss_follows_snapshot (publicKey : string) (s : State) :
  cache_lookup (profit_key w publicKey) s = None ->
  let s0 := after_lookup (profit_key w publicKey) s in
  let run := getProfitLoss formatUnits toFixed w publicKey s in
  (forall e s1,
     getWalletBalance formatUnits toFixed w publicKey s0 = (Throw e, s1) ->
     run = (Throw (mkError "Failed to calculate profit/loss"), s1)) /\
  (forall d s1,
     getWalletBalance formatUnits toFixed w publicKey s0 = (Ok d, s1) ->
     exists chart s2,
       getChartData formatUnits w publicKey P1D s1 = (Ok chart, s2) /\
       run.1 = Ok (mkProfitLossData (JsNumber.parseFloat (wd_profit d))
                                    (wd_profitPercent d) chart) /\
       cache run.2 !! profit_key w publicKey
       = Some (mkCacheEntry
                 (VProfit (mkProfitLoss (JsNumber.parseFloat (wd_profit d))
                                        (wd_profitPercent d)) chart)
                 (clock s2))).
Proof.
  intros Hmiss s0 run. subst s0 run.
  rewrite (getProfitLoss_miss _ _ Hmiss). split.
  - intros e s1 ->. reflexivity.
  - intros d s1 ->.
    destruct (getChartData_total formatUnits w publicKey P1D s1) as (chart & s2 & Hc).
    exists chart, s2. rewrite Hc. simpl.
    split; [reflexivity|]. split; [reflexivity|apply lookup_insert_eq].
Qed.

End ProfitLossFacts.

Lemma profit_loss_follows_snapshot_witness :
  (getProfitLoss Ethers.formatUnits toFixed_digits Sample.offline "nonsense" Sample.start).1
    = Throw (mkError "Failed to calculate profit/loss") /\
  exists chart,
    (getProfitLoss Ethers.formatUnits toFixed_digits Sample.busy Sample.me Sample.start).1
      = Ok (mkProfitLossData 30 60 chart) /\
    List.length chart = 49%nat.
Proof.
  split.
  - destruct (profit_loss_follows_snapshot Ethers.formatUnits toFixed_digits Sample.offline
                "nonsense" Sample.start eq_refl) as (H & _).
    rewrite (H (mkError "Invalid Ethereum address") Sample.start); reflexivity.
  - destruct (profit_loss_follows_snapshot Ethers.formatUnits toFixed_digits Sample.busy
                Sample.me Sample.start eq_refl) as (_ & H).
    destruct (getWalletBalance Ethers.formatUnits toFixed_digits Sample.busy Sample.me
                (after_lookup (profit_key Sample.busy Sample.me) Sample.start))
      as [[d|e] s1] eqn:Hw; [|vm_compute in Hw; discriminate].
    destruct (H d s1 eq_refl) as (chart & s2 & Hc & Hrun & _).
    exists chart. rewrite Hrun.
    vm_compute in Hw. injection Hw as <- <-.
    split; [vm_compute; reflexivity|].
    vm_compute in Hc. injection Hc as <- _. reflexivity.
Defined.

(* ===================================================================== *)
(** ** More on the profit and loss estimate *)
(* ===================================================================== *)

(** X19. Native transfers never enter the estimate: the result is the one
    computed from the token transfers alone, so inserting or removing a
    native transfer anywhere in the history changes nothing. *)
Theorem profit_ignores_native_transfers (l1 l2 : list Transaction) (tx : Transaction)
    (currentTokenBalance publicKey : string) :
  tx_asset tx = ETH ->
  calculateTokenProfitLoss (l1 ++ tx :: l2) currentTokenBalance publicKey
  = calculateTokenProfitLoss (l1 ++ l2) currentTokenBalance publicKey /\
  calculateTokenProfitLoss (l1 ++ l2) currentTokenBalance publicKey
  = calculateTokenProfitLoss (tokenTxs_of (l1 ++ l2)) currentTokenBalance publicKey.
Proof.
  intros Heth.
  assert (Hidem : forall l, tokenTxs_of (tokenTxs_of l) = tokenTxs_of l).
  { intros l. unfold tokenTxs_of. induction l as [|x l IH]; [reflexivity|].
    simpl. destruct (Asset_eqb (tx_asset x) TOKEN) eqn:Hx; [|exact IH].
    simpl. rewrite Hx, IH. reflexivity. }
  assert (Hdrop : tokenTxs_of (l1 ++ tx :: l2) = tokenTxs_of (l1 ++ l2)).
  { unfold tokenTxs_of. rewrite !List.filter_app. simpl. rewrite Heth. reflexivity. }
  unfold calculateTokenProfitLoss. rewrite Hdrop, Hidem. split; reflexivity.
Qed.

Lemma profit_ignores_native_transfers_witness :
  calculateTokenProfitLoss [Sample.received_100; Sample.received_eth; Sample.sent_50]
    "80.0" Sample.me
  = calculateTokenProfitLoss [Sample.received_100; Sample.sent_50] "80.0" Sample.me.
Proof.
  exact (proj1 (profit_ignores_native_transfers [Sample.received_100] [Sample.sent_50]
                  Sample.received_eth "80.0" Sample.me eq_refl)).
Defined.
